(** * devfreq core: a shallow embedding of drivers/devfreq/devfreq.c

    The development follows the C file function by function.  Unsigned
    C integers are values of [Z] with the wrap-around written out;
    arrays are lists and an access outside the allocated range has no
    defined result ([None] for the pure functions, [Oops] for the ones
    that run in the device monad, which keep the device as the
    faulting access found it).  Driver, governor and observer
    callbacks act on an abstract world [W]. *)

From Stdlib Require Import ZArith List String Ascii Bool Lia.
Import ListNotations.

Local Open Scope string_scope.
Local Open Scope list_scope.
Local Open Scope Z_scope.

(** ** Machine integers and kernel constants *)

(** [unsigned long] of the 64-bit (LP64) kernel this tree is built for. *)
Definition BITS_PER_LONG : Z := 64.
Definition ULONG_MAX : Z := 2 ^ BITS_PER_LONG - 1.
Definition wrap_ulong (z : Z) : Z := z mod 2 ^ BITS_PER_LONG.

(** [unsigned int] and [u32]. *)
Definition UINT_MAX : Z := 2 ^ 32 - 1.
Definition wrap_uint (z : Z) : Z := z mod 2 ^ 32.

(** [int]; a [size_t] assigned to an [int] keeps its low 32 bits, read
    as a signed number (the kernel is built with [-fno-strict-overflow]
    for gcc, whose conversion to a signed type reduces modulo 2^32). *)
Definition INT_MAX : Z := 2 ^ 31 - 1.
Definition wrap_int (z : Z) : Z := (z + 2 ^ 31) mod 2 ^ 32 - 2 ^ 31.

(** include/uapi/asm-generic/errno-base.h *)
Definition ENODEV : Z := 19.
Definition EINVAL : Z := 22.

(** include/linux/devfreq.h: length of a governor name, the rounding
    flag handed to the driver and the two notification phases. *)
Definition DEVFREQ_NAME_LEN : nat := 16.
Definition DEVFREQ_FLAG_LEAST_UPPER_BOUND : Z := 1.
Definition DEVFREQ_PRECHANGE : Z := 0.
Definition DEVFREQ_POSTCHANGE : Z := 1.

(** drivers/devfreq/governor.h: the events sent to a governor. *)
Inductive gov_event : Type :=
| DEVFREQ_GOV_START
| DEVFREQ_GOV_STOP
| DEVFREQ_GOV_INTERVAL
| DEVFREQ_GOV_SUSPEND
| DEVFREQ_GOV_RESUME.

(** A [struct devfreq_governor *]: governors are compared by address. *)
Definition gov_ptr : Type := nat.

(** ** Arrays *)

(** [a[i] = f (a[i])]; [None] when [i] is outside the array. *)
Fixpoint array_update (f : Z -> Z) (a : list Z) (i : nat) : option (list Z) :=
  match a, i with
  | [], _ => None
  | x :: t, O => Some (f x :: t)
  | x :: t, S j =>
      match array_update f t j with
      | Some t' => Some (x :: t')
      | None => None
      end
  end.

(** The sum of the entries, in unbounded arithmetic. *)
Definition sum_Z (a : list Z) : Z := fold_right Z.add 0 a.

(** The sum as an [unsigned int] accumulator computes it. *)
Definition sum_uint (a : list Z) : Z :=
  fold_left (fun acc x => wrap_uint (acc + x)) a 0.

(** The sum as an [unsigned long] accumulator computes it. *)
Definition sum_ulong (a : list Z) : Z :=
  fold_left (fun acc x => wrap_ulong (acc + x)) a 0.

(** ** Strings (lib/string.c) *)

(** [strncmp]: compares at most [count] characters; the end of a
    string is its NUL. *)
Fixpoint strncmp (cs ct : string) (count : nat) : Z :=
  match count with
  | O => 0
  | S k =>
      match cs, ct with
      | EmptyString, EmptyString => 0
      | EmptyString, String _ _ => -1
      | String _ _, EmptyString => 1
      | String c1 s, String c2 t =>
          if Ascii.eqb c1 c2 then strncmp s t k
          else if (nat_of_ascii c1 <? nat_of_ascii c2)%nat then -1 else 1
      end
  end.

(** What [strncpy (dst, src, n)] leaves in [dst], read as a string: at
    most [n] characters of [src]. *)
Fixpoint strncpy (src : string) (n : nat) : string :=
  match n, src with
  | S k, String c s => String c (strncpy s k)
  | _, _ => EmptyString
  end.

(** [strlcpy (dst, src, size)] keeps room for the NUL. *)
Definition strlcpy (src : string) (size : nat) : string :=
  strncpy src (Nat.pred size).

(** ** Calls that leave the core *)

(** What a run of a core function did outside itself, in order: the
    callbacks it invoked with their arguments and results, and the
    messages it logged. *)
Inductive call : Type :=
| CallGetTargetFreq (g : gov_ptr) (err freq : Z)
| CallGetCurFreq (err freq : Z)
| CallNotifier (state old new : Z)
| CallTarget (freq flags err freq' : Z)
| CallEventHandler (g : gov_ptr) (ev : gov_event) (ret : Z)
| CallLog (msg : string).

(** Result of a function of the core: a value, or a kernel oops on an
    access outside an array. *)
Inductive result (A : Type) : Type :=
| Ok (a : A)
| Oops.
Arguments Ok {A} a.
Arguments Oops {A}.

Section Devfreq.

(** State of everything outside the core: the driver's hardware, the
    governors' private data, the transition observers. *)
Context {W : Type}.

(** ** Data model (include/linux/devfreq.h) *)

(** [struct devfreq_dev_profile].  A callback returns its [int] result,
    the content of its [unsigned long *] argument after the call, and
    the new world.  [freq_table = None] is the NULL pointer. *)
Record devfreq_dev_profile : Type := {
  initial_freq : Z;
  polling_ms : Z;
  target : Z -> Z -> W -> Z * Z * W;
  get_cur_freq : option (W -> Z * Z * W);
  freq_table : option (list Z);
  max_state : nat
}.

(** [struct devfreq].  [lock] tells whether the device mutex is held. *)
Record devfreq : Type := {
  profile : devfreq_dev_profile;
  governor : option gov_ptr;
  governor_name : string;
  lock : bool;
  previous_freq : Z;
  min_freq : Z;
  max_freq : Z;
  stop_polling : bool;
  total_trans : Z;
  trans_table : list Z;
  time_in_state : list Z;
  last_stat_updated : Z;
  max_boost : bool;
  is_boost_device : bool
}.

(** [struct devfreq_governor].  [get_target_freq] reads the device and
    returns its result and the content of [*freq]; [event_handler] may
    also change the device.  Its [data] argument is NULL at every call
    made by the functions below. *)
Record devfreq_governor : Type := {
  name : string;
  immutable : bool;
  get_target_freq : devfreq -> W -> Z * Z * W;
  event_handler : devfreq -> gov_event -> W -> Z * devfreq * W
}.

(** *** Field assignments *)

Definition set_freq_table (t : option (list Z)) (n : nat)
    (p : devfreq_dev_profile) : devfreq_dev_profile :=
  {| initial_freq := initial_freq p; polling_ms := polling_ms p;
     target := target p; get_cur_freq := get_cur_freq p;
     freq_table := t; max_state := n |}.

Definition set_profile (p : devfreq_dev_profile) (d : devfreq) : devfreq :=
  {| profile := p; governor := governor d;
     governor_name := governor_name d; lock := lock d;
     previous_freq := previous_freq d; min_freq := min_freq d;
     max_freq := max_freq d; stop_polling := stop_polling d;
     total_trans := total_trans d; trans_table := trans_table d;
     time_in_state := time_in_state d;
     last_stat_updated := last_stat_updated d;
     max_boost := max_boost d; is_boost_device := is_boost_device d |}.

Definition set_governor (g : option gov_ptr) (s : string) (d : devfreq)
    : devfreq :=
  {| profile := profile d; governor := g;
     governor_name := s; lock := lock d;
     previous_freq := previous_freq d; min_freq := min_freq d;
     max_freq := max_freq d; stop_polling := stop_polling d;
     total_trans := total_trans d; trans_table := trans_table d;
     time_in_state := time_in_state d;
     last_stat_updated := last_stat_updated d;
     max_boost := max_boost d; is_boost_device := is_boost_device d |}.

Definition set_lock (b : bool) (d : devfreq) : devfreq :=
  {| profile := profile d; governor := governor d;
     governor_name := governor_name d; lock := b;
     previous_freq := previous_freq d; min_freq := min_freq d;
     max_freq := max_freq d; stop_polling := stop_polling d;
     total_trans := total_trans d; trans_table := trans_table d;
     time_in_state := time_in_state d;
     last_stat_updated := last_stat_updated d;
     max_boost := max_boost d; is_boost_device := is_boost_device d |}.

Definition set_previous_freq (f : Z) (d : devfreq) : devfreq :=
  {| profile := profile d; governor := governor d;
     governor_name := governor_name d; lock := lock d;
     previous_freq := f; min_freq := min_freq d;
     max_freq := max_freq d; stop_polling := stop_polling d;
     total_trans := total_trans d; trans_table := trans_table d;
     time_in_state := time_in_state d;
     last_stat_updated := last_stat_updated d;
     max_boost := max_boost d; is_boost_device := is_boost_device d |}.

Definition set_min_freq (f : Z) (d : devfreq) : devfreq :=
  {| profile := profile d; governor := governor d;
     governor_name := governor_name d; lock := lock d;
     previous_freq := previous_freq d; min_freq := f;
     max_freq := max_freq d; stop_polling := stop_polling d;
     total_trans := total_trans d; trans_table := trans_table d;
     time_in_state := time_in_state d;
     last_stat_updated := last_stat_updated d;
     max_boost := max_boost d; is_boost_device := is_boost_device d |}.

Definition set_max_freq (f : Z) (d : devfreq) : devfreq :=
  {| profile := profile d; governor := governor d;
     governor_name := governor_name d; lock := lock d;
     previous_freq := previous_freq d; min_freq := min_freq d;
     max_freq := f; stop_polling := stop_polling d;
     total_trans := total_trans d; trans_table := trans_table d;
     time_in_state := time_in_state d;
     last_stat_updated := last_stat_updated d;
     max_boost := max_boost d; is_boost_device := is_boost_device d |}.

Definition set_total_trans (n : Z) (d : devfreq) : devfreq :=
  {| profile := profile d; governor := governor d;
     governor_name := governor_name d; lock := lock d;
     previous_freq := previous_freq d; min_freq := min_freq d;
     max_freq := max_freq d; stop_polling := stop_polling d;
     total_trans := n; trans_table := trans_table d;
     time_in_state := time_in_state d;
     last_stat_updated := last_stat_updated d;
     max_boost := max_boost d; is_boost_device := is_boost_device d |}.

Definition set_trans_table (t : list Z) (d : devfreq) : devfreq :=
  {| profile := profile d; governor := governor d;
     governor_name := governor_name d; lock := lock d;
     previous_freq := previous_freq d; min_freq := min_freq d;
     max_freq := max_freq d; stop_polling := stop_polling d;
     total_trans := total_trans d; trans_table := t;
     time_in_state := time_in_state d;
     last_stat_updated := last_stat_updated d;
     max_boost := max_boost d; is_boost_device := is_boost_device d |}.

Definition set_time_in_state (t : list Z) (d : devfreq) : devfreq :=
  {| profile := profile d; governor := governor d;
     governor_name := governor_name d; lock := lock d;
     previous_freq := previous_freq d; min_freq := min_freq d;
     max_freq := max_freq d; stop_polling := stop_polling d;
     total_trans := total_trans d; trans_table := trans_table d;
     time_in_state := t;
     last_stat_updated := last_stat_updated d;
     max_boost := max_boost d; is_boost_device := is_boost_device d |}.

Definition set_last_stat_updated (t : Z) (d : devfreq) : devfreq :=
  {| profile := profile d; governor := governor d;
     governor_name := governor_name d; lock := lock d;
     previous_freq := previous_freq d; min_freq := min_freq d;
     max_freq := max_freq d; stop_polling := stop_polling d;
     total_trans := total_trans d; trans_table := trans_table d;
     time_in_state := time_in_state d;
     last_stat_updated := t;
     max_boost := max_boost d; is_boost_device := is_boost_device d |}.

(** ** Frequency table *)

(** The loop of [devfreq_set_freq_limits] from index [idx] on, with
    [n] iterations left. *)
Fixpoint freq_limits_loop (tbl : list Z) (idx n : nat) (min max : Z)
    : option (Z * Z) :=
  match n with
  | O => Some (min, max)
  | S n' =>
      match nth_error tbl idx with
      | None => None
      | Some f =>
          let min := if min >? f then f else min in
          let max := if max <? f then f else max in
          freq_limits_loop tbl (S idx) n' min max
      end
  end.

(** [devfreq_set_freq_limits]: [min] starts at [~0], [max] at 0; a NULL
    table returns at once. *)
Definition devfreq_set_freq_limits (d : devfreq) : option devfreq :=
  match freq_table (profile d) with
  | None => Some d
  | Some tbl =>
      match freq_limits_loop tbl 0 (max_state (profile d)) ULONG_MAX 0 with
      | None => None
      | Some (min, max) => Some (set_max_freq max (set_min_freq min d))
      end
  end.

(** The loop of [devfreq_get_freq_level] from level [lev] on, with [n]
    iterations left; [-EINVAL] when the loop runs out. *)
Fixpoint freq_level_loop (tbl : option (list Z)) (freq : Z) (lev n : nat)
    : option Z :=
  match n with
  | O => Some (- EINVAL)
  | S n' =>
      match tbl with
      | None => None
      | Some l =>
          match nth_error l lev with
          | None => None
          | Some f =>
              if freq =? f then Some (Z.of_nat lev)
              else freq_level_loop tbl freq (S lev) n'
          end
      end
  end.

Definition devfreq_get_freq_level (d : devfreq) (freq : Z) : option Z :=
  freq_level_loop (freq_table (profile d)) freq 0 (max_state (profile d)).

(** ** Transition statistics *)

(** [devfreq_update_status]; [jiffies] is the value the function reads
    from the clock on entry. *)
Definition devfreq_update_status (jiffies : Z) (d : devfreq) (freq : Z)
    : option (Z * devfreq) :=
  let cur_time := jiffies in
  if previous_freq d =? 0 then
    Some (0, set_last_stat_updated cur_time d)
  else
    match devfreq_get_freq_level d (previous_freq d) with
    | None => None
    | Some prev_lev =>
        if prev_lev <? 0 then
          Some (prev_lev, set_last_stat_updated cur_time d)
        else
          match array_update
                  (fun t => wrap_ulong
                     (t + wrap_ulong (cur_time - last_stat_updated d)))
                  (time_in_state d) (Z.to_nat prev_lev) with
          | None => None
          | Some tis =>
              let d1 := set_time_in_state tis d in
              match devfreq_get_freq_level d1 freq with
              | None => None
              | Some lev =>
                  if lev <? 0 then
                    Some (lev, set_last_stat_updated cur_time d1)
                  else if negb (lev =? prev_lev) then
                    match array_update (fun c => wrap_uint (c + 1))
                            (trans_table d1)
                            (Z.to_nat
                               (wrap_uint
                                  (prev_lev * Z.of_nat (max_state (profile d1))
                                   + lev))) with
                    | None => None
                    | Some trans =>
                        Some (0,
                              set_last_stat_updated cur_time
                                (set_total_trans
                                   (wrap_uint (total_trans d1 + 1))
                                   (set_trans_table trans d1)))
                    end
                  else Some (0, set_last_stat_updated cur_time d1)
              end
          end
    end.

(** The device as a faulting access of [devfreq_update_status] finds
    it.  The first lookup and the store to [time_in_state] (lines
    168-175) fault before anything is written; when the second lookup
    or the access to [trans_table] (lines 177, 184) faults, the store
    to [time_in_state] has been made.  [last_stat_updated] is not
    reached. *)
Definition devfreq_update_status_faulted (jiffies : Z) (d : devfreq)
    : devfreq :=
  let cur_time := jiffies in
  if previous_freq d =? 0 then d
  else
    match devfreq_get_freq_level d (previous_freq d) with
    | None => d
    | Some prev_lev =>
        if prev_lev <? 0 then d
        else
          match array_update
                  (fun t => wrap_ulong
                     (t + wrap_ulong (cur_time - last_stat_updated d)))
                  (time_in_state d) (Z.to_nat prev_lev) with
          | None => d
          | Some tis => set_time_in_state tis d
          end
    end.

(** ** The device monad *)

(** The governors, by address. *)
Variable governor_at : gov_ptr -> devfreq_governor.

(** [srcu_notifier_call_chain] on the device's transition notifier
    list, with the phase and the two fields of [struct devfreq_freqs]. *)
Variable srcu_notifier_call_chain : Z -> Z -> Z -> W -> W.

(** The clock. *)
Variable jiffies : W -> Z.

(** [sscanf (buf, "%16s", str)] and [sscanf (buf, "%lu", &value)]
    (lib/vsprintf.c): the number of conversions and the converted
    value. *)
Variable sscanf_name : string -> Z * string.
Variable sscanf_ulong : string -> Z * Z.

(** One device, the world around it and the governor registry
    ([devfreq_governor_list], most recently added first). *)
Record machine : Type := {
  dev : devfreq;
  world : W;
  devfreq_governor_list : list gov_ptr
}.

Definition M (A : Type) : Type := machine -> result A * machine * list call.

Definition ret {A} (a : A) : M A := fun m => (Ok a, m, []).

Definition bind {A B} (x : M A) (f : A -> M B) : M B :=
  fun m =>
    match x m with
    | (Ok a, m1, t1) =>
        match f a m1 with
        | (r, m2, t2) => (r, m2, t1 ++ t2)
        end
    | (Oops, m1, t1) => (Oops, m1, t1)
    end.

Notation "x <- c1 ;; c2" := (bind c1 (fun x => c2))
  (at level 61, c1 at next level, right associativity).
Notation "' pat <- c1 ;; c2" :=
  (bind c1 (fun x => match x with pat => c2 end))
  (at level 61, pat pattern, c1 at next level, right associativity).
Notation "c1 ;; c2" := (bind c1 (fun _ => c2))
  (at level 61, right associativity).

Definition get_dev : M devfreq := fun m => (Ok (dev m), m, []).

Definition modify_dev (f : devfreq -> devfreq) : M unit :=
  fun m =>
    (Ok tt,
     {| dev := f (dev m); world := world m;
        devfreq_governor_list := devfreq_governor_list m |},
     []).

Definition emit (c : call) : M unit := fun m => (Ok tt, m, [c]).

Definition mutex_lock : M unit := modify_dev (set_lock true).
Definition mutex_unlock : M unit := modify_dev (set_lock false).

(** [devfreq->governor->get_target_freq (devfreq, &freq)] *)
Definition call_get_target_freq (g : gov_ptr) : M (Z * Z) :=
  fun m =>
    match get_target_freq (governor_at g) (dev m) (world m) with
    | (err, freq, w) =>
        (Ok (err, freq),
         {| dev := dev m; world := w;
            devfreq_governor_list := devfreq_governor_list m |},
         [CallGetTargetFreq g err freq])
    end.

(** [devfreq->profile->get_cur_freq (devfreq->dev.parent, &cur_freq)] *)
Definition call_get_cur_freq (cb : W -> Z * Z * W) : M (Z * Z) :=
  fun m =>
    match cb (world m) with
    | (err, freq, w) =>
        (Ok (err, freq),
         {| dev := dev m; world := w;
            devfreq_governor_list := devfreq_governor_list m |},
         [CallGetCurFreq err freq])
    end.

(** [devfreq->profile->target (devfreq->dev.parent, &freq, flags)] *)
Definition call_target (freq flags : Z) : M (Z * Z) :=
  fun m =>
    match target (profile (dev m)) freq flags (world m) with
    | (err, freq', w) =>
        (Ok (err, freq'),
         {| dev := dev m; world := w;
            devfreq_governor_list := devfreq_governor_list m |},
         [CallTarget freq flags err freq'])
    end.

(** [g->event_handler (devfreq, ev, NULL)] *)
Definition call_event_handler (g : gov_ptr) (ev : gov_event) : M Z :=
  fun m =>
    match event_handler (governor_at g) (dev m) ev (world m) with
    | (r, d, w) =>
        (Ok r,
         {| dev := d; world := w;
            devfreq_governor_list := devfreq_governor_list m |},
         [CallEventHandler g ev r])
    end.

Definition call_notifier_chain (state old new : Z) : M unit :=
  fun m =>
    (Ok tt,
     {| dev := dev m;
        world := srcu_notifier_call_chain state old new (world m);
        devfreq_governor_list := devfreq_governor_list m |},
     [CallNotifier state old new]).

(** [devfreq_update_status] run on the device, at the clock's time; a
    fault leaves the device as the faulting access found it. *)
Definition run_update_status (freq : Z) : M Z :=
  fun m =>
    match devfreq_update_status (jiffies (world m)) (dev m) freq with
    | Some (r, d) =>
        (Ok r,
         {| dev := d; world := world m;
            devfreq_governor_list := devfreq_governor_list m |},
         [])
    | None =>
        (Oops,
         {| dev := devfreq_update_status_faulted (jiffies (world m)) (dev m);
            world := world m;
            devfreq_governor_list := devfreq_governor_list m |},
         [])
    end.

(** ** Governor registry *)

(** [find_devfreq_governor]: the first governor of the list whose name
    agrees with [name] on [DEVFREQ_NAME_LEN] characters, else
    [ERR_PTR (-ENODEV)].  Its callers pass a valid [name]. *)
Fixpoint find_devfreq_governor (l : list gov_ptr) (nm : string)
    : gov_ptr + Z :=
  match l with
  | [] => inr (- ENODEV)
  | tmp_governor :: rest =>
      if strncmp (name (governor_at tmp_governor)) nm DEVFREQ_NAME_LEN =? 0
      then inl tmp_governor
      else find_devfreq_governor rest nm
  end.

(** ** Transition notification and the decision engine *)

Definition devfreq_notify_transition (old new : Z) (state : Z) : M Z :=
  if state =? DEVFREQ_PRECHANGE then
    call_notifier_chain DEVFREQ_PRECHANGE old new ;; ret 0
  else if state =? DEVFREQ_POSTCHANGE then
    call_notifier_chain DEVFREQ_POSTCHANGE old new ;; ret 0
  else ret (- EINVAL).

(** Lines 286-293 of [update_devfreq]: the user bounds applied to
    [freq] and [flags]. *)
Definition adjust_freq (d : devfreq) (freq flags : Z) : Z * Z :=
  let '(freq, flags) :=
    if negb (min_freq d =? 0) && (freq <? min_freq d)
    then (min_freq d,
          wrap_uint (Z.land flags (Z.lnot DEVFREQ_FLAG_LEAST_UPPER_BOUND)))
    else (freq, flags) in
  if negb (max_freq d =? 0) && (freq >? max_freq d)
  then (max_freq d, Z.lor flags DEVFREQ_FLAG_LEAST_UPPER_BOUND)
  else (freq, flags).

(** [update_devfreq].  No callback before line 315 writes to the
    device, so [devfreq] read on entry is the device all along. *)
Definition update_devfreq : M Z :=
  devfreq <- get_dev ;;
  if negb (lock devfreq) then
    emit (CallLog "devfreq->lock must be locked by the caller.") ;;
    ret (- EINVAL)
  else
    match governor devfreq with
    | None => ret (- EINVAL)
    | Some g =>
        '(err, freq) <- (if max_boost devfreq then ret (0, ULONG_MAX)
                         else call_get_target_freq g) ;;
        if negb (err =? 0) then ret err
        else
          let '(freq, flags) := adjust_freq devfreq freq 0 in
          cur_freq <- match get_cur_freq (profile devfreq) with
                      | Some cb =>
                          '(_, cur_freq) <- call_get_cur_freq cb ;;
                          ret cur_freq
                      | None => ret (previous_freq devfreq)
                      end ;;
          devfreq_notify_transition cur_freq freq DEVFREQ_PRECHANGE ;;
          '(err, freq) <- call_target freq flags ;;
          if negb (err =? 0) then
            devfreq_notify_transition cur_freq cur_freq DEVFREQ_POSTCHANGE ;;
            ret err
          else
            devfreq_notify_transition cur_freq freq DEVFREQ_POSTCHANGE ;;
            match freq_table (profile devfreq) with
            | Some _ =>
                r <- run_update_status freq ;;
                if negb (r =? 0) then
                  emit (CallLog
                    "Couldn't update frequency transition information.")
                else ret tt
            | None => ret tt
            end ;;
            modify_dev (set_previous_freq freq) ;;
            ret err
    end.

(** ** Administrative writes *)

(** The governor white list of [governor_store]. *)
Definition governor_white_list (str_governor : string) : bool :=
  negb
    (negb (strncmp str_governor "simple_ondemand" DEVFREQ_NAME_LEN =? 0) &&
     negb (strncmp str_governor "cpufreq" DEVFREQ_NAME_LEN =? 0) &&
     negb (strncmp str_governor "performance" DEVFREQ_NAME_LEN =? 0) &&
     negb (strncmp str_governor "powersave" DEVFREQ_NAME_LEN =? 0) &&
     negb (strncmp str_governor "msm-adreno-tz" DEVFREQ_NAME_LEN =? 0)).

Definition governor_immutable (g : option gov_ptr) : bool :=
  match g with
  | Some p => immutable (governor_at p)
  | None => false
  end.

Definition same_governor (a : option gov_ptr) (b : gov_ptr) : bool :=
  match a with
  | Some p => Nat.eqb p b
  | None => false
  end.

(** Lines 997-1020 of [governor_store]: the switch itself, giving
    [ret]. *)
Definition governor_switch (new_gov : gov_ptr) : M Z :=
  df <- get_dev ;;
  stopped <- match governor df with
             | Some cur =>
                 r <- call_event_handler cur DEVFREQ_GOV_STOP ;;
                 if negb (r =? 0) then
                   emit (CallLog "Governor not stopped") ;; ret r
                 else ret r
             | None => ret 0
             end ;;
  if negb (stopped =? 0) then ret stopped
  else
    df <- get_dev ;;
    let prev_gov := governor df in
    modify_dev (set_governor (Some new_gov)
                  (strncpy (name (governor_at new_gov)) DEVFREQ_NAME_LEN)) ;;
    r <- call_event_handler new_gov DEVFREQ_GOV_START ;;
    if negb (r =? 0) then
      emit (CallLog "Governor not started") ;;
      match prev_gov with
      | Some prev =>
          modify_dev (set_governor (Some prev)
                        (strlcpy (name (governor_at prev)) DEVFREQ_NAME_LEN)) ;;
          call_event_handler prev DEVFREQ_GOV_START ;;
          ret r
      | None => ret r
      end
    else ret r.

(** [governor_store]: the write handler of the [governor] attribute;
    [count] is returned through [int ret]. *)
Definition governor_store (buf : string) (count : Z) : M Z :=
  let '(n, str_governor) := sscanf_name buf in
  if negb (n =? 1) then ret (- EINVAL)
  else if negb (governor_white_list str_governor) then ret (- EINVAL)
  else
    fun m =>
      (r <- match find_devfreq_governor (devfreq_governor_list m)
                    str_governor with
            | inr e => ret e
            | inl new_gov =>
                df <- get_dev ;;
                if same_governor (governor df) new_gov then ret 0
                else if governor_immutable (governor df)
                        || immutable (governor_at new_gov)
                then ret (- EINVAL)
                else governor_switch new_gov
            end ;;
       if r =? 0 then ret (wrap_int count) else ret r) m.

(** [min_freq_store]: the write handler of the [min_freq] attribute;
    a boost device returns [count] as it is, an accepted write returns
    it through [int ret]. *)
Definition min_freq_store (buf : string) (count : Z) : M Z :=
  df <- get_dev ;;
  if is_boost_device df then ret count
  else
    let '(n, value) := sscanf_ulong buf in
    if negb (n =? 1) then ret (- EINVAL)
    else
      mutex_lock ;;
      df <- get_dev ;;
      let max := max_freq df in
      if negb (value =? 0) && negb (max =? 0) && (value >? max) then
        mutex_unlock ;; ret (- EINVAL)
      else
        modify_dev (set_min_freq value) ;;
        update_devfreq ;;
        mutex_unlock ;;
        ret (wrap_int count).

(** [max_freq_store]: the write handler of the [max_freq] attribute;
    an accepted write returns [count] through [int ret]. *)
Definition max_freq_store (buf : string) (count : Z) : M Z :=
  let '(n, value) := sscanf_ulong buf in
  if negb (n =? 1) then ret (- EINVAL)
  else
    mutex_lock ;;
    df <- get_dev ;;
    let min := min_freq df in
    if negb (value =? 0) && negb (min =? 0) && (value <? min) then
      mutex_unlock ;; ret (- EINVAL)
    else
      modify_dev (set_max_freq value) ;;
      update_devfreq ;;
      mutex_unlock ;;
      ret (wrap_int count).

(** ** Building the frequency table (devfreq_add_device) *)

(** The OPP library (drivers/base/power/opp) and the allocator, as the
    device sees them: the number of operating points, the lowest
    operating point at or above a frequency ([None] for an [ERR_PTR]),
    and whether [devm_kcalloc] finds memory. *)
Variable dev_pm_opp_get_opp_count : W -> Z.
Variable dev_pm_opp_find_freq_ceil : W -> Z -> option Z.
Variable devm_kcalloc_ok : W -> bool.

(** The loop of [devfreq_set_freq_table]: [n] entries left to fill,
    the search resuming at [freq]; [None] when a lookup fails. *)
Fixpoint freq_table_fill (w : W) (n : nat) (freq : Z) : option (list Z) :=
  match n with
  | O => Some []
  | S n' =>
      match dev_pm_opp_find_freq_ceil w freq with
      | None => None
      | Some f =>
          match freq_table_fill w n' (wrap_ulong (f + 1)) with
          | Some rest => Some (f :: rest)
          | None => None
          end
      end
  end.

(** [devfreq_set_freq_table].  When a lookup fails the table is freed
    and [max_state] reset, but the pointer is not cleared: it stays
    non-NULL with no entry that may be read. *)
Definition devfreq_set_freq_table (w : W) (d : devfreq) : devfreq :=
  let count := dev_pm_opp_get_opp_count w in
  if count <=? 0 then d
  else if negb (devm_kcalloc_ok w) then
    set_profile (set_freq_table None 0 (profile d)) d
  else
    match freq_table_fill w (Z.to_nat count) 0 with
    | Some tbl =>
        set_profile (set_freq_table (Some tbl) (Z.to_nat count) (profile d)) d
    | None =>
        set_profile (set_freq_table (Some []) 0 (profile d)) d
    end.

(** Lines 594-599 of [devfreq_add_device]: the table is built when the
    driver gave none, then the limits are derived. *)
Definition devfreq_add_device_limits (w : W) (d : devfreq) : option devfreq :=
  let d :=
    match max_state (profile d), freq_table (profile d) with
    | O, None => devfreq_set_freq_table w d
    | _, _ => d
    end in
  devfreq_set_freq_limits d.

(** ** Well-formed devices *)

(** The frequency table holds [max_state] entries. *)
Definition table_allocated (d : devfreq) : Prop :=
  match freq_table (profile d) with
  | Some tbl => List.length tbl = max_state (profile d)
  | None => max_state (profile d) = O
  end.

(** The statistics arrays are sized as [devfreq_add_device] allocates
    them (lines 608-614). *)
Definition stats_allocated (d : devfreq) : Prop :=
  table_allocated d /\
  List.length (time_in_state d) = max_state (profile d) /\
  List.length (trans_table d) = (max_state (profile d) * max_state (profile d))%nat.

(** The entries of the frequency table. *)
Definition table_entries (d : devfreq) : list Z :=
  match freq_table (profile d) with
  | Some tbl => tbl
  | None => []
  end.

(** ** Sequences of statistics updates *)

(** One call of [devfreq_update_status]: the previous frequency the
    device holds when the call is made, the frequency passed, and the
    clock.  Between two calls the callers write [previous_freq]
    (line 319, line 430), and [devfreq_monitor_resume] writes
    [last_stat_updated] (line 425); [sc_prev] stands for the first
    writes, and [sc_stamp] for the second: the time of the resume, if
    the device was resumed since the call before. *)
Record stat_call : Type := {
  sc_prev : Z;
  sc_freq : Z;
  sc_now : Z;
  sc_stamp : option Z
}.

(** [devfreq->last_stat_updated = jiffies] of [devfreq_monitor_resume]. *)
Definition resume_stamp (stamp : option Z) (d : devfreq) : devfreq :=
  match stamp with
  | Some t => set_last_stat_updated t d
  | None => d
  end.

Fixpoint record_transitions (calls : list stat_call) (d : devfreq)
    : option devfreq :=
  match calls with
  | [] => Some d
  | c :: rest =>
      match devfreq_update_status (sc_now c)
              (set_previous_freq (sc_prev c) (resume_stamp (sc_stamp c) d))
              (sc_freq c) with
      | Some (_, d') => record_transitions rest d'
      | None => None
      end
  end.

(** The value of [last_stat_updated] that the call finds, [t] being
    the one the call before left. *)
Definition stamp_at (t : Z) (c : stat_call) : Z :=
  match sc_stamp c with
  | Some s => s
  | None => t
  end.

(** The suspension gaps of a sequence of calls: the time, from the
    last update before each resume to that resume, that the re-stamp
    takes out of the accounting. *)
Fixpoint suspension_gaps (t : Z) (calls : list stat_call) : Z :=
  match calls with
  | [] => 0
  | c :: rest => (stamp_at t c - t) + suspension_gaps (sc_now c) rest
  end.

(** The clock does not go backwards over the resumes and the calls,
    from [t] on, and stays in the range of [unsigned long]. *)
Fixpoint clock_monotone (t : Z) (calls : list stat_call) : Prop :=
  match calls with
  | [] => True
  | c :: rest =>
      t <= stamp_at t c <= sc_now c /\ sc_now c <= ULONG_MAX /\
      clock_monotone (sc_now c) rest
  end.

(** The previous frequency of the call is set and is in the table. *)
Definition prev_resolves (d : devfreq) (c : stat_call) : Prop :=
  sc_prev c <> 0 /\ In (sc_prev c) (table_entries d).

(** The call moves between two different levels of the table: both
    frequencies resolve, to different levels. *)
Definition level_changes (d : devfreq) (c : stat_call) : bool :=
  negb (sc_prev c =? 0) &&
  match devfreq_get_freq_level d (sc_prev c),
        devfreq_get_freq_level d (sc_freq c) with
  | Some prev_lev, Some lev =>
      (0 <=? prev_lev) && (0 <=? lev) && negb (lev =? prev_lev)
  | _, _ => false
  end.

(** ** The clamp, in the words of the specification *)

Inductive rounding : Type :=
| GreatestLowerBound
| LeastUpperBound.

Definition rounding_flag (r : rounding) : Z :=
  match r with
  | GreatestLowerBound => 0
  | LeastUpperBound => DEVFREQ_FLAG_LEAST_UPPER_BOUND
  end.

(** If [minFreq != 0 && target < minFreq], raise to [minFreq] and
    select greatest-lower-bound rounding; then if
    [maxFreq != 0 && target > maxFreq], lower to [maxFreq] and select
    least-upper-bound rounding, overwriting the first choice. *)
Definition clamp_to_bounds (minFreq maxFreq tgt : Z) : Z * rounding :=
  let raised :=
    if negb (minFreq =? 0) && (tgt <? minFreq) then minFreq else tgt in
  if negb (maxFreq =? 0) && (raised >? maxFreq)
  then (maxFreq, LeastUpperBound)
  else (raised, GreatestLowerBound).

(** ** Reading a run *)

Definition calls_of {A} (r : result A * machine * list call) : list call :=
  snd r.
Definition machine_of {A} (r : result A * machine * list call) : machine :=
  snd (fst r).
Definition result_of {A} (r : result A * machine * list call) : result A :=
  fst (fst r).

End Devfreq.

(** The arguments of the calls to the driver's [target], in order. *)
Fixpoint target_args (t : list call) : list (Z * Z) :=
  match t with
  | [] => []
  | CallTarget freq flags _ _ :: rest => (freq, flags) :: target_args rest
  | _ :: rest => target_args rest
  end.

(** The event handlers invoked, in order. *)
Fixpoint events_of (t : list call) : list (gov_ptr * gov_event) :=
  match t with
  | [] => []
  | CallEventHandler g ev _ :: rest => (g, ev) :: events_of rest
  | _ :: rest => events_of rest
  end.

(** Least and greatest entry of a non-empty table. *)
Fixpoint list_min (x : Z) (l : list Z) : Z :=
  match l with
  | [] => x
  | y :: t => Z.min x (list_min y t)
  end.

Fixpoint list_max (x : Z) (l : list Z) : Z :=
  match l with
  | [] => x
  | y :: t => Z.max x (list_max y t)
  end.

(** * Sample devices

    A device with the table [100, 200, 300] and four governors; its
    driver accepts every frequency, the first governor asks for 250 and
    refuses to stop. *)

Definition EBUSY : Z := 16.

Definition sample_profile : @devfreq_dev_profile unit :=
  {| initial_freq := 100; polling_ms := 50;
     target := fun freq _ w => (0, freq, w);
     get_cur_freq := None;
     freq_table := Some [100; 200; 300]; max_state := 3 |}.

Definition sample_device : @devfreq unit :=
  {| profile := sample_profile; governor := Some 1%nat;
     governor_name := "performance"; lock := true;
     previous_freq := 100; min_freq := 0; max_freq := 0;
     stop_polling := false;
     total_trans := 0; trans_table := repeat 0 9;
     time_in_state := repeat 0 3; last_stat_updated := 0;
     max_boost := false; is_boost_device := false |}.

Definition sample_governor (nm : string) (imm : bool) (stop : Z)
    : @devfreq_governor unit :=
  {| name := nm; immutable := imm;
     get_target_freq := fun _ w => (0, 250, w);
     event_handler := fun d ev w =>
       match ev with
       | DEVFREQ_GOV_STOP => (stop, d, w)
       | _ => (0, d, w)
       end |}.

Definition sample_governor_at (g : gov_ptr) : @devfreq_governor unit :=
  match g with
  | 1%nat => sample_governor "performance" false (- EBUSY)
  | 2%nat => sample_governor "powersave" false 0
  | 3%nat => sample_governor "userspace" false 0
  | _ => sample_governor "passive" true 0
  end.

Definition sample_machine (d : @devfreq unit) : @machine unit :=
  {| dev := d; world := tt; devfreq_governor_list := [3; 2; 1; 0]%nat |}.

(** The observers do nothing, the clock shows 10. *)
Definition sample_notifier : Z -> Z -> Z -> unit -> unit :=
  fun _ _ _ w => w.
Definition sample_jiffies : unit -> Z := fun _ => 10.

(** A buffer holding one word, read back as it is. *)
Definition sample_sscanf_name (buf : string) : Z * string := (1, buf).

(** A buffer that starts with decimal digits, read as [%lu] reads it:
    the number the leading digits spell, one item converted; a buffer
    that starts with anything else converts nothing. *)
Definition digit_of (c : ascii) : option Z :=
  let n := Z.of_nat (nat_of_ascii c) in
  if (48 <=? n) && (n <=? 57) then Some (n - 48) else None.

Fixpoint read_decimal (s : string) (acc : option Z) : option Z :=
  match s with
  | String c rest =>
      match digit_of c with
      | Some k =>
          read_decimal rest
            (Some (10 * match acc with Some a => a | None => 0 end + k))
      | None => acc
      end
  | EmptyString => acc
  end.

Definition sample_sscanf_ulong (buf : string) : Z * Z :=
  match read_decimal buf None with
  | Some v => (1, wrap_ulong v)
  | None => (0, 0)
  end.

(** The same device with bounds, in boost mode, with a driver that
    fails, with a table that has a level for frequency 0. *)
Definition bounded_device (min max : Z) : @devfreq unit :=
  set_max_freq max (set_min_freq min sample_device).

Definition failing_profile : @devfreq_dev_profile unit :=
  {| initial_freq := 100; polling_ms := 50;
     target := fun freq _ w => (- EBUSY, freq, w);
     get_cur_freq := Some (fun w => (0, 200, w));
     freq_table := Some [100; 200; 300]; max_state := 3 |}.

Definition failing_device : @devfreq unit :=
  set_profile failing_profile sample_device.


Definition zero_level_device : @devfreq unit :=
  set_previous_freq 0
    (set_profile (set_freq_table (Some [0; 100; 200]) 3 sample_profile)
       sample_device).

(** A device whose table pointer is set while [max_state] is 0, as a
    failed [devfreq_set_freq_table] leaves it. *)
Definition empty_table_device : @devfreq unit :=
  {| profile := set_freq_table (Some []) 0 sample_profile;
     governor := None; governor_name := "performance"; lock := true;
     previous_freq := 100; min_freq := 0; max_freq := 0;
     stop_polling := false;
     total_trans := 0; trans_table := []; time_in_state := [];
     last_stat_updated := 0;
     max_boost := false; is_boost_device := false |}.

(** A driver that gave no table, on a device with two operating
    points of which the second cannot be looked up. *)
Definition no_table_device : @devfreq unit :=
  set_profile (set_freq_table None 0 sample_profile) empty_table_device.
Definition broken_opp_count : unit -> Z := fun _ => 2.
Definition broken_opp_find_freq_ceil : unit -> Z -> option Z :=
  fun _ freq => if freq <=? 100 then Some 100 else None.
Definition sample_kcalloc_ok : unit -> bool := fun _ => true.

(** The governor asks for 250 twice: the calls made at times 10 and 20
    by [update_devfreq] on the device at 100. *)
Definition off_table_calls : list stat_call :=
  [ {| sc_prev := 100; sc_freq := 250; sc_now := 10; sc_stamp := None |};
    {| sc_prev := 250; sc_freq := 250; sc_now := 20; sc_stamp := None |} ].

Definition on_table_calls : list stat_call :=
  [ {| sc_prev := 100; sc_freq := 200; sc_now := 10; sc_stamp := None |};
    {| sc_prev := 200; sc_freq := 250; sc_now := 25; sc_stamp := None |};
    {| sc_prev := 200; sc_freq := 100; sc_now := 40; sc_stamp := None |} ].

(** An update at time 10, the flush of [devfreq_monitor_suspend] at
    30, a resume at 60 and an update at 70. *)
Definition resumed_calls : list stat_call :=
  [ {| sc_prev := 100; sc_freq := 200; sc_now := 10; sc_stamp := None |};
    {| sc_prev := 200; sc_freq := 200; sc_now := 30; sc_stamp := None |};
    {| sc_prev := 200; sc_freq := 300; sc_now := 70; sc_stamp := Some 60 |} ].

(** * More of the core

    The load monitor (lines 329-504) and the governor registry (lines
    837-951), in the same terms as above. *)

(** ** Field assignments, continued *)

Definition set_polling_ms {W : Type} (ms : Z) (p : @devfreq_dev_profile W)
    : devfreq_dev_profile :=
  {| initial_freq := initial_freq p; polling_ms := ms;
     target := target p; get_cur_freq := get_cur_freq p;
     freq_table := freq_table p; max_state := max_state p |}.

Definition set_stop_polling {W : Type} (b : bool) (d : @devfreq W) : devfreq :=
  {| profile := profile d; governor := governor d;
     governor_name := governor_name d; lock := lock d;
     previous_freq := previous_freq d; min_freq := min_freq d;
     max_freq := max_freq d; stop_polling := b;
     total_trans := total_trans d; trans_table := trans_table d;
     time_in_state := time_in_state d;
     last_stat_updated := last_stat_updated d;
     max_boost := max_boost d; is_boost_device := is_boost_device d |}.

(** [devfreq->governor = g], the name left as it is. *)
Definition set_governor_ptr {W : Type} (g : option gov_ptr) (d : @devfreq W)
    : devfreq :=
  set_governor g (governor_name d) d.

(** ** Load monitoring *)

Section Monitor.

Context {W : Type}.
Variable governor_at : gov_ptr -> @devfreq_governor W.
Variable srcu_notifier_call_chain : Z -> Z -> Z -> W -> W.
Variable jiffies : W -> Z.

(** The delayed work [devfreq->work] on [devfreq_wq]
    (kernel/workqueue.c, kernel/time/time.c): queueing it after a
    delay, cancelling it and waiting for it, asking whether it is
    pending, and the conversion of the delay. *)
Variable msecs_to_jiffies : Z -> Z.
Variable queue_delayed_work : Z -> W -> W.
Variable cancel_delayed_work_sync : W -> W.
Variable delayed_work_pending : W -> bool.

Local Notation "x <- c1 ;; c2" := (bind c1 (fun x => c2))
  (at level 61, c1 at next level, right associativity).
Local Notation "' pat <- c1 ;; c2" :=
  (bind c1 (fun x => match x with pat => c2 end))
  (at level 61, pat pattern, c1 at next level, right associativity).
Local Notation "c1 ;; c2" := (bind c1 (fun _ => c2))
  (at level 61, right associativity).

Definition get_world : M W := fun m => (Ok (world m), m, []).

Definition on_world (f : W -> W) : M unit :=
  fun m =>
    (Ok tt,
     {| dev := dev m; world := f (world m);
        devfreq_governor_list := devfreq_governor_list m |},
     []).

(** [queue_delayed_work (devfreq_wq, &devfreq->work,
    msecs_to_jiffies (devfreq->profile->polling_ms))] *)
Definition queue_monitor : M unit :=
  d <- get_dev ;;
  on_world (queue_delayed_work (msecs_to_jiffies (polling_ms (profile d)))).

(** [devfreq_monitor]: one tick of the poll. *)
Definition devfreq_monitor : M unit :=
  mutex_lock ;;
  err <- update_devfreq governor_at srcu_notifier_call_chain jiffies ;;
  (if negb (err =? 0) then emit (CallLog "dvfs failed with error")
   else ret tt) ;;
  queue_monitor ;;
  mutex_unlock.

(** [devfreq_monitor_suspend]; the result of the statistics update is
    not looked at. *)
Definition devfreq_monitor_suspend : M unit :=
  mutex_lock ;;
  d <- get_dev ;;
  if stop_polling d then mutex_unlock
  else
    run_update_status jiffies (previous_freq d) ;;
    modify_dev (set_stop_polling true) ;;
    mutex_unlock ;;
    on_world cancel_delayed_work_sync.

Definition devfreq_monitor_resume : M unit :=
  mutex_lock ;;
  d <- get_dev ;;
  if negb (stop_polling d) then mutex_unlock
  else
    w <- get_world ;;
    (if negb (delayed_work_pending w) && negb (polling_ms (profile d) =? 0)
     then queue_monitor else ret tt) ;;
    w <- get_world ;;
    modify_dev (set_last_stat_updated (jiffies w)) ;;
    modify_dev (set_stop_polling false) ;;
    match get_cur_freq (profile d) with
    | Some cb =>
        '(err, freq) <- call_get_cur_freq cb ;;
        if err =? 0 then modify_dev (set_previous_freq freq) else ret tt
    | None => ret tt
    end ;;
    mutex_unlock.

(** [devfreq_interval_update]; [delay] is the value of [*delay]. *)
Definition devfreq_interval_update (delay : Z) : M unit :=
  d <- get_dev ;;
  let cur_delay := polling_ms (profile d) in
  let new_delay := delay in
  mutex_lock ;;
  modify_dev (fun d => set_profile (set_polling_ms new_delay (profile d)) d) ;;
  d <- get_dev ;;
  if stop_polling d then mutex_unlock
  else if new_delay =? 0 then
    mutex_unlock ;; on_world cancel_delayed_work_sync
  else if cur_delay =? 0 then
    queue_monitor ;; mutex_unlock
  else if cur_delay >? new_delay then
    mutex_unlock ;;
    on_world cancel_delayed_work_sync ;;
    mutex_lock ;;
    d <- get_dev ;;
    (if negb (stop_polling d) then queue_monitor else ret tt) ;;
    mutex_unlock
  else mutex_unlock.

(** [devfreq_notifier_call] *)
Definition devfreq_notifier_call : M Z :=
  mutex_lock ;;
  r <- update_devfreq governor_at srcu_notifier_call_chain jiffies ;;
  mutex_unlock ;;
  ret r.

(** [n] ticks of the poll, one after the other. *)
Fixpoint poll (n : nat) : M unit :=
  match n with
  | O => ret tt
  | S k => devfreq_monitor ;; poll k
  end.

End Monitor.

(** ** Registering governors *)

Section Registry.

Context {W : Type}.
Variable governor_at : gov_ptr -> @devfreq_governor W.

(** All devices ([devfreq_list]), the world, and the governors
    ([devfreq_governor_list]). *)
Record system : Type := {
  sys_devfreq_list : list (@devfreq W);
  sys_world : W;
  sys_governor_list : list gov_ptr
}.

Definition governor_name_matches (df : @devfreq W) (g : gov_ptr) : bool :=
  strncmp (governor_name df) (name (governor_at g)) DEVFREQ_NAME_LEN =? 0.

(** The body of the loop of [devfreq_add_governor] (lines 860-888). *)
Definition add_governor_to_device (g : gov_ptr) (df : @devfreq W) (w : W)
    : @devfreq W * W * list call :=
  if governor_name_matches df g then
    let '(df1, w1, t1) :=
      match governor df with
      | Some cur =>
          let '(r, df1, w1) :=
            event_handler (governor_at cur) df DEVFREQ_GOV_STOP w in
          (df1, w1,
           [CallLog "Governor already present";
            CallEventHandler cur DEVFREQ_GOV_STOP r]
           ++ (if negb (r =? 0) then [CallLog "Governor stop"] else []))
      | None => (df, w, [])
      end in
    let '(r, df2, w2) :=
      event_handler (governor_at g) (set_governor_ptr (Some g) df1)
        DEVFREQ_GOV_START w1 in
    (df2, w2,
     t1 ++ [CallEventHandler g DEVFREQ_GOV_START r]
     ++ (if negb (r =? 0) then [CallLog "Governor start"] else []))
  else (df, w, []).

(** The body of the loop of [devfreq_remove_governor] (lines 922-942). *)
Definition remove_governor_from_device (g : gov_ptr) (df : @devfreq W) (w : W)
    : @devfreq W * W * list call :=
  if governor_name_matches df g then
    match governor df with
    | None => (df, w, [CallLog "Governor NOT present"])
    | Some cur =>
        let '(r, df1, w1) :=
          event_handler (governor_at cur) df DEVFREQ_GOV_STOP w in
        (set_governor_ptr None df1, w1,
         [CallEventHandler cur DEVFREQ_GOV_STOP r]
         ++ (if negb (r =? 0) then [CallLog "Governor stop"] else []))
    end
  else (df, w, []).

(** [list_for_each_entry (devfreq, &devfreq_list, node)] with a body. *)
Fixpoint for_each_devfreq
    (body : @devfreq W -> W -> @devfreq W * W * list call)
    (l : list (@devfreq W)) (w : W) : list (@devfreq W) * W * list call :=
  match l with
  | [] => ([], w, [])
  | df :: rest =>
      let '(df', w1, t1) := body df w in
      let '(rest', w2, t2) := for_each_devfreq body rest w1 in
      (df' :: rest', w2, t1 ++ t2)
  end.

(** [list_del (&governor->node)]: the node leaves the list it is on;
    on no list, its links are not valid. *)
Fixpoint list_del (g : gov_ptr) (l : list gov_ptr) : option (list gov_ptr) :=
  match l with
  | [] => None
  | x :: rest =>
      if Nat.eqb x g then Some rest
      else match list_del g rest with
           | Some rest' => Some (x :: rest')
           | None => None
           end
  end.

(** [devfreq_add_governor]; [None] is the NULL pointer. *)
Definition devfreq_add_governor (governor : option gov_ptr) (s : system)
    : Z * system * list call :=
  match governor with
  | None => (- EINVAL, s, [CallLog "Invalid parameters."])
  | Some g =>
      match find_devfreq_governor governor_at (sys_governor_list s)
              (name (governor_at g)) with
      | inl _ => (- EINVAL, s, [CallLog "governor already registered"])
      | inr _ =>
          let '(devs, w, t) :=
            for_each_devfreq (add_governor_to_device g)
              (sys_devfreq_list s) (sys_world s) in
          (0,
           {| sys_devfreq_list := devs; sys_world := w;
              sys_governor_list := g :: sys_governor_list s |},
           t)
      end
  end.

(** [devfreq_remove_governor] *)
Definition devfreq_remove_governor (governor : option gov_ptr) (s : system)
    : result Z * system * list call :=
  match governor with
  | None => (Ok (- EINVAL), s, [CallLog "Invalid parameters."])
  | Some g =>
      match find_devfreq_governor governor_at (sys_governor_list s)
              (name (governor_at g)) with
      | inr e => (Ok e, s, [CallLog "governor not registered"])
      | inl _ =>
          let '(devs, w, t) :=
            for_each_devfreq (remove_governor_from_device g)
              (sys_devfreq_list s) (sys_world s) in
          match list_del g (sys_governor_list s) with
          | Some l =>
              (Ok 0,
               {| sys_devfreq_list := devs; sys_world := w;
                  sys_governor_list := l |},
               t)
          | None =>
              (Oops,
               {| sys_devfreq_list := devs; sys_world := w;
                  sys_governor_list := sys_governor_list s |},
               t)
          end
      end
  end.

(** Every registered governor is on the list once, and no two of them
    have names that agree on [DEVFREQ_NAME_LEN] characters. *)
Definition registry_ok (l : list gov_ptr) : Prop :=
  NoDup l /\
  forall g g', In g l -> In g' l ->
    strncmp (name (governor_at g)) (name (governor_at g')) DEVFREQ_NAME_LEN = 0 ->
    g = g'.

End Registry.

(** The notifier and target calls of a run, in order. *)
Fixpoint transition_calls (t : list call) : list call :=
  match t with
  | [] => []
  | CallNotifier s o n :: rest => CallNotifier s o n :: transition_calls rest
  | CallTarget f fl e f' :: rest => CallTarget f fl e f' :: transition_calls rest
  | _ :: rest => transition_calls rest
  end.

(** The bounds do not exclude every frequency. *)
Definition bounds_consistent {W : Type} (d : @devfreq W) : Prop :=
  min_freq d = 0 \/ max_freq d = 0 \/ min_freq d <= max_freq d.

(** The counters of transitions agree, as [unsigned int]s. *)
Definition counters_consistent {W : Type} (d : @devfreq W) : Prop :=
  sum_uint (trans_table d) = total_trans d.

(** ** More sample devices *)

(** A work queue that holds the delay of the pending work, a clock
    that stands still at 10. *)
Definition sample_queue_work (delay : Z) (w : option Z) : option Z :=
  match w with
  | Some d => Some d
  | None => Some delay
  end.

Definition wq_governor_at (g : gov_ptr) : @devfreq_governor (option Z) :=
  {| name := match g with
             | 1%nat => "performance"
             | 2%nat => "powersave"
             | _ => "userspace"
             end;
     immutable := false;
     get_target_freq := fun _ w => (0, 200, w);
     event_handler := fun d ev w =>
       match ev with
       | DEVFREQ_GOV_STOP => (- EBUSY, d, w)
       | _ => (0, d, w)
       end |}.

Definition wq_profile : @devfreq_dev_profile (option Z) :=
  {| initial_freq := 100; polling_ms := 50;
     target := fun freq _ w => (0, freq, w);
     get_cur_freq := Some (fun w => (0, 300, w));
     freq_table := Some [100; 200; 300]; max_state := 3 |}.

Definition wq_device : @devfreq (option Z) :=
  {| profile := wq_profile; governor := Some 1%nat;
     governor_name := "performance"; lock := false;
     previous_freq := 100; min_freq := 100; max_freq := 300;
     stop_polling := false;
     total_trans := 0; trans_table := repeat 0 9;
     time_in_state := repeat 0 3; last_stat_updated := 0;
     max_boost := false; is_boost_device := false |}.

Definition wq_machine (d : @devfreq (option Z)) : @machine (option Z) :=
  {| dev := d; world := Some 5; devfreq_governor_list := [2; 1]%nat |}.

Definition wq_notifier : Z -> Z -> Z -> option Z -> option Z :=
  fun _ _ _ w => w.
Definition wq_jiffies : option Z -> Z := fun _ => 10.
Definition wq_msecs_to_jiffies (ms : Z) : Z := ms / 4.
Definition wq_cancel : option Z -> option Z := fun _ => None.
Definition wq_pending (w : option Z) : bool :=
  match w with
  | Some _ => true
  | None => false
  end.

Definition wq_system : @system (option Z) :=
  {| sys_devfreq_list :=
       [wq_device; set_governor None "userspace" wq_device];
     sys_world := None;
     sys_governor_list := [2; 1]%nat |}.

(** The contract of [dev_pm_opp_find_freq_ceil]: the operating point
    returned is at or above the frequency asked for, and below
    [ULONG_MAX]. *)
Definition ceil_contract {W : Type}
    (dev_pm_opp_find_freq_ceil : W -> Z -> option Z) (w : W) : Prop :=
  forall freq f, dev_pm_opp_find_freq_ceil w freq = Some f ->
                 freq <= f < ULONG_MAX.

(** Two operating points, at 100 and 200. *)
Definition two_opp_find_freq_ceil : unit -> Z -> option Z :=
  fun _ freq =>
    if freq <=? 100 then Some 100
    else if freq <=? 200 then Some 200 else None.

(** The fields that only the administrative writes and the
    registration change are the same in both devices. *)
Definition same_settings {W : Type} (d d' : @devfreq W) : Prop :=
  profile d' = profile d /\
  governor d' = governor d /\
  governor_name d' = governor_name d /\
  lock d' = lock d /\
  min_freq d' = min_freq d /\
  max_freq d' = max_freq d /\
  stop_polling d' = stop_polling d /\
  max_boost d' = max_boost d /\
  is_boost_device d' = is_boost_device d.

(** The sample device with [max_boost] set and a ceiling of 300. *)
Definition max_boost_device : @devfreq unit :=
  {| profile := sample_profile; governor := Some 1%nat;
     governor_name := "performance"; lock := true;
     previous_freq := 100; min_freq := 100; max_freq := 300;
     stop_polling := false;
     total_trans := 0; trans_table := repeat 0 9;
     time_in_state := repeat 0 3; last_stat_updated := 0;
     max_boost := true; is_boost_device := true |}.

(** The sample device, bounded by 100 and 200, whose [trans_table] was
    not allocated. *)
Definition unallocated_trans_device : @devfreq unit :=
  set_trans_table [] (bounded_device 100 200).

(** Governors of which "powersave" refuses to start. *)
Definition refusing_governor_at (g : gov_ptr) : @devfreq_governor unit :=
  match g with
  | 2%nat =>
      {| name := "powersave"; immutable := false;
         get_target_freq := fun _ w => (0, 250, w);
         event_handler := fun d ev w =>
           match ev with
           | DEVFREQ_GOV_START => (- EBUSY, d, w)
           | _ => (0, d, w)
           end |}
  | 3%nat => sample_governor "userspace" false 0
  | _ => sample_governor "performance" false 0
  end.

(** The parts of the outcome of an operation on the whole system. *)
Definition outcome_result {R S T : Type} (r : R * S * T) : R := fst (fst r).
Definition outcome_state {R S T : Type} (r : R * S * T) : S := snd (fst r).
Definition outcome_calls {R S T : Type} (r : R * S * T) : T := snd r.

(** * Properties *)

(** ** Arithmetic of the wrapped counters *)

Lemma wrap_int_small (z : Z) : - 2 ^ 31 <= z <= INT_MAX -> wrap_int z = z.
Proof.
  unfold wrap_int, INT_MAX. intros H.
  rewrite Z.mod_small; lia.
Qed.

Lemma wrap_uint_small (z : Z) : 0 <= z <= UINT_MAX -> wrap_uint z = z.
Proof.
  unfold wrap_uint, UINT_MAX. intros H. apply Z.mod_small. lia.
Qed.

Lemma wrap_ulong_small (z : Z) : 0 <= z <= ULONG_MAX -> wrap_ulong z = z.
Proof.
  unfold wrap_ulong, ULONG_MAX. intros H. apply Z.mod_small. lia.
Qed.

Lemma wrap_uint_range (z : Z) : 0 <= wrap_uint z <= UINT_MAX.
Proof.
  unfold wrap_uint, UINT_MAX.
  assert (0 <= z mod 2 ^ 32 < 2 ^ 32) by (apply Z.mod_pos_bound; lia). lia.
Qed.

Lemma wrap_uint_le (z : Z) : 0 <= z -> wrap_uint z <= z.
Proof.
  intros H. unfold wrap_uint. apply Z.mod_le; lia.
Qed.

Lemma wrap_uint_add_l (a b : Z) : wrap_uint (wrap_uint a + b) = wrap_uint (a + b).
Proof.
  unfold wrap_uint. apply Zplus_mod_idemp_l.
Qed.

Lemma wrap_ulong_add_l (a b : Z) :
  wrap_ulong (wrap_ulong a + b) = wrap_ulong (a + b).
Proof.
  unfold wrap_ulong. apply Zplus_mod_idemp_l.
Qed.

Lemma wrap_ulong_add_r (a b : Z) :
  wrap_ulong (a + wrap_ulong b) = wrap_ulong (a + b).
Proof.
  unfold wrap_ulong. apply Zplus_mod_idemp_r.
Qed.

Lemma sum_uint_from (a : list Z) (acc : Z) :
  fold_left (fun s x => wrap_uint (s + x)) a (wrap_uint acc)
  = wrap_uint (acc + sum_Z a).
Proof.
  revert acc. induction a as [|x a IH]; intros acc; simpl.
  - now rewrite Z.add_0_r.
  - rewrite wrap_uint_add_l, IH. f_equal. lia.
Qed.

Lemma sum_uint_wrap (a : list Z) : sum_uint a = wrap_uint (sum_Z a).
Proof.
  unfold sum_uint. change 0 with (wrap_uint 0) at 1.
  now rewrite sum_uint_from.
Qed.

Lemma sum_ulong_from (a : list Z) (acc : Z) :
  fold_left (fun s x => wrap_ulong (s + x)) a (wrap_ulong acc)
  = wrap_ulong (acc + sum_Z a).
Proof.
  revert acc. induction a as [|x a IH]; intros acc; simpl.
  - now rewrite Z.add_0_r.
  - rewrite wrap_ulong_add_l, IH. f_equal. lia.
Qed.

Lemma sum_ulong_wrap (a : list Z) : sum_ulong a = wrap_ulong (sum_Z a).
Proof.
  unfold sum_ulong. change 0 with (wrap_ulong 0) at 1.
  now rewrite sum_ulong_from.
Qed.

(** ** Arrays *)

Lemma array_update_some (f : Z -> Z) (a : list Z) (i : nat) :
  (i < List.length a)%nat -> exists a', array_update f a i = Some a'.
Proof.
  revert i. induction a as [|x a IH]; intros i Hi; simpl in Hi; [lia|].
  destruct i as [|j]; simpl.
  - eauto.
  - destruct (IH j) as [a' Ha']; [lia|]. rewrite Ha'. eauto.
Qed.

Lemma array_update_spec (f : Z -> Z) (a a' : list Z) (i : nat) :
  array_update f a i = Some a' ->
  exists x, nth_error a i = Some x /\
            sum_Z a' = sum_Z a - x + f x /\
            List.length a' = List.length a.
Proof.
  revert i a'. induction a as [|x a IH]; intros i a' H; simpl in H.
  - discriminate.
  - destruct i as [|j].
    + inversion H; subst. exists x. simpl. repeat split. lia.
    + destruct (array_update f a j) as [t|] eqn:E; [|discriminate].
      inversion H; subst. destruct (IH j t E) as (y & Hy & Hs & Hl).
      exists y. simpl. repeat split; auto; lia.
Qed.

Lemma array_update_Forall (P : Z -> Prop) (f : Z -> Z) (a a' : list Z)
    (i : nat) :
  array_update f a i = Some a' ->
  Forall P a ->
  (forall x, nth_error a i = Some x -> P (f x)) ->
  Forall P a'.
Proof.
  revert i a'. induction a as [|x a IH]; intros i a' H HP Hf; simpl in H.
  - discriminate.
  - inversion HP; subst. destruct i as [|j].
    + inversion H; subst. constructor; [apply Hf; reflexivity|assumption].
    + destruct (array_update f a j) as [t|] eqn:E; [|discriminate].
      inversion H; subst. constructor; [assumption|].
      apply (IH j t E); auto.
Qed.

Lemma nth_error_le_sum (a : list Z) (i : nat) (x : Z) :
  Forall (fun y => 0 <= y) a -> nth_error a i = Some x ->
  0 <= x <= sum_Z a.
Proof.
  revert i. induction a as [|y a IH]; intros i HP H.
  - destruct i; discriminate.
  - inversion HP; subst.
    assert (0 <= sum_Z a).
    { clear -H3. induction H3; simpl; [lia|]. unfold sum_Z in *. simpl. lia. }
    destruct i as [|j]; simpl in H.
    + inversion H; subst. unfold sum_Z in *. simpl. lia.
    + destruct (IH j H3 H). unfold sum_Z in *. simpl. lia.
Qed.

Lemma sum_Z_nonneg (a : list Z) : Forall (fun y => 0 <= y) a -> 0 <= sum_Z a.
Proof.
  induction 1; unfold sum_Z in *; simpl; lia.
Qed.

Lemma sum_Z_repeat_zero (n : nat) : sum_Z (repeat 0 n) = 0.
Proof.
  induction n; unfold sum_Z in *; simpl; lia.
Qed.

Lemma Forall_repeat_zero (n : nat) : Forall (fun y => 0 <= y) (repeat 0 n).
Proof.
  induction n; simpl; constructor; auto; lia.
Qed.

Section Statistics.

Context {W : Type}.
Implicit Types d : @devfreq W.

(** ** Level lookup *)

Lemma freq_level_loop_total (l : list Z) (freq : Z) (n lev : nat) :
  (lev + n <= List.length l)%nat ->
  exists r, freq_level_loop (Some l) freq lev n = Some r /\
            (r = - EINVAL \/
             (Z.of_nat lev <= r < Z.of_nat (lev + n) /\
              nth_error l (Z.to_nat r) = Some freq)).
Proof.
  revert lev. induction n as [|n IH]; intros lev Hlen; simpl.
  - eauto.
  - destruct (nth_error l lev) as [f|] eqn:E.
    + destruct (freq =? f) eqn:Ef.
      * apply Z.eqb_eq in Ef. subst f. eexists. split; [reflexivity|].
        right. rewrite Nat2Z.id. split; [lia|assumption].
      * destruct (IH (S lev)) as (r & Hr & Hc); [lia|].
        exists r. split; [assumption|].
        destruct Hc as [Hc|[Hc Hn]]; [now left|right]. split; [lia|assumption].
    + apply nth_error_None in E. lia.
Qed.

Lemma freq_level_loop_found (l : list Z) (freq : Z) (n lev i : nat) :
  (lev + n <= List.length l)%nat ->
  (lev <= i < lev + n)%nat -> nth_error l i = Some freq ->
  exists r, freq_level_loop (Some l) freq lev n = Some r /\ 0 <= r.
Proof.
  revert lev. induction n as [|n IH]; intros lev Hlen Hi Hnth; simpl.
  - lia.
  - destruct (nth_error l lev) as [f|] eqn:E.
    + destruct (freq =? f) eqn:Ef.
      * eexists. split; [reflexivity|lia].
      * assert (i <> lev).
        { intros ->. rewrite E in Hnth. inversion Hnth; subst.
          rewrite Z.eqb_refl in Ef. discriminate. }
        apply IH; auto; lia.
    + apply nth_error_None in E. lia.
Qed.

Lemma devfreq_get_freq_level_total d (freq : Z) :
  table_allocated d ->
  exists r, devfreq_get_freq_level d freq = Some r /\
            (r = - EINVAL \/
             (0 <= r < Z.of_nat (max_state (profile d)) /\
              nth_error (table_entries d) (Z.to_nat r) = Some freq)).
Proof.
  unfold table_allocated, devfreq_get_freq_level, table_entries.
  destruct (freq_table (profile d)) as [l|]; intros H.
  - destruct (freq_level_loop_total l freq (max_state (profile d)) 0)
      as (r & Hr & Hc); [simpl; lia|].
    exists r. split; [assumption|]. simpl in Hc. exact Hc.
  - rewrite H. simpl. eauto.
Qed.

Lemma devfreq_get_freq_level_found d (freq : Z) :
  table_allocated d -> In freq (table_entries d) ->
  exists r, devfreq_get_freq_level d freq = Some r /\
            0 <= r < Z.of_nat (max_state (profile d)).
Proof.
  intros Ht Hin.
  destruct (devfreq_get_freq_level_total d freq Ht) as (r & Hr & Hc).
  exists r. split; [assumption|].
  destruct Hc as [Hc|[Hc _]]; [|assumption].
  exfalso. revert Ht Hin Hr.
  unfold table_allocated, devfreq_get_freq_level, table_entries.
  destruct (freq_table (profile d)) as [l|]; intros Ht Hin Hr; [|contradiction].
  apply In_nth_error in Hin. destruct Hin as [i Hi].
  assert (i < List.length l)%nat by (apply nth_error_Some; congruence).
  destruct (freq_level_loop_found l freq (max_state (profile d)) 0 i)
    as (r' & Hr' & Hpos); [simpl; lia|simpl; lia|assumption|].
  rewrite Hr in Hr'. inversion Hr'; subst. unfold EINVAL in Hpos. lia.
Qed.

(** ** One statistics update *)

(** What a call of [devfreq_update_status] does to a well-formed
    device: it returns, stamps the time, adds the elapsed time to the
    level of the previous frequency when that resolves, and counts a
    transition exactly when the level changes. *)
Lemma devfreq_update_status_step (t : Z) d (freq : Z) :
  stats_allocated d ->
  exists r d',
    devfreq_update_status t d freq = Some (r, d') /\
    last_stat_updated d' = t /\
    profile d' = profile d /\
    stats_allocated d' /\
    (r = 0 \/ r = - EINVAL) /\
    (if previous_freq d =? 0 then time_in_state d' = time_in_state d
     else
       match devfreq_get_freq_level d (previous_freq d) with
       | Some prev_lev =>
           if prev_lev <? 0 then time_in_state d' = time_in_state d
           else
             array_update
               (fun x => wrap_ulong (x + wrap_ulong (t - last_stat_updated d)))
               (time_in_state d) (Z.to_nat prev_lev)
             = Some (time_in_state d')
       | None => False
       end) /\
    (if level_changes d
          {| sc_prev := previous_freq d; sc_freq := freq; sc_now := t;
             sc_stamp := None |}
     then
       (exists idx,
          array_update (fun c => wrap_uint (c + 1)) (trans_table d) idx
          = Some (trans_table d')) /\
       total_trans d' = wrap_uint (total_trans d + 1)
     else trans_table d' = trans_table d /\ total_trans d' = total_trans d).
Proof.
  intros (Htbl & Htis & Htt).
  unfold devfreq_update_status, level_changes. simpl.
  destruct (previous_freq d =? 0) eqn:E0; simpl.
  { do 2 eexists. split; [reflexivity|]. simpl.
    repeat split; auto. }
  destruct (devfreq_get_freq_level_total d (previous_freq d) Htbl)
    as (pl & Hpl & Hplc).
  rewrite Hpl.
  destruct Hplc as [->|[Hrange _]].
  { simpl. do 2 eexists. split; [reflexivity|]. simpl.
    repeat split; auto.
    destruct (devfreq_get_freq_level d freq); simpl; auto. }
  assert (Hneg : (pl <? 0) = false) by (apply Z.ltb_ge; lia).
  assert (Hpos : (0 <=? pl) = true) by (apply Z.leb_le; lia).
  rewrite Hneg, Hpos.
  destruct (array_update_some
              (fun x => wrap_ulong (x + wrap_ulong (t - last_stat_updated d)))
              (time_in_state d) (Z.to_nat pl)) as [tis Htis'].
  { rewrite Htis. lia. }
  rewrite Htis'.
  destruct (array_update_spec _ _ _ _ Htis') as (x & _ & _ & Hlen).
  change (devfreq_get_freq_level (set_time_in_state tis d) freq)
    with (devfreq_get_freq_level d freq).
  destruct (devfreq_get_freq_level_total d freq Htbl) as (lv & Hlv & Hlvc).
  rewrite Hlv.
  destruct Hlvc as [->|[Hlrange _]].
  { simpl. do 2 eexists. split; [reflexivity|]. simpl.
    repeat split; simpl; auto; congruence. }
  assert (Hlneg : (lv <? 0) = false) by (apply Z.ltb_ge; lia).
  assert (Hlpos : (0 <=? lv) = true) by (apply Z.leb_le; lia).
  rewrite Hlneg, Hlpos. simpl.
  destruct (lv =? pl) eqn:Eq; simpl.
  { do 2 eexists. split; [reflexivity|]. simpl.
    repeat split; simpl; auto; congruence. }
  set (n := max_state (profile d)) in *.
  destruct (array_update_some (fun c => wrap_uint (c + 1)) (trans_table d)
              (Z.to_nat (wrap_uint (pl * Z.of_nat n + lv)))) as [trans Htr].
  { rewrite Htt.
    assert (0 <= pl * Z.of_nat n + lv) by nia.
    pose proof (wrap_uint_le _ H).
    pose proof (wrap_uint_range (pl * Z.of_nat n + lv)).
    assert (pl * Z.of_nat n + lv < Z.of_nat n * Z.of_nat n) by nia.
    apply Nat2Z.inj_lt. rewrite Z2Nat.id by lia. rewrite Nat2Z.inj_mul. lia. }
  rewrite Htr.
  destruct (array_update_spec _ _ _ _ Htr) as (y & _ & _ & Hlen2).
  do 2 eexists. split; [reflexivity|]. simpl.
  repeat split; simpl; eauto; fold n; congruence.
Qed.

Lemma devfreq_get_freq_level_absent d (freq : Z) :
  table_allocated d -> ~ In freq (table_entries d) ->
  devfreq_get_freq_level d freq = Some (- EINVAL).
Proof.
  intros Ht Hn.
  destruct (devfreq_get_freq_level_total d freq Ht) as (r & Hr & [->|[_ Hc]]).
  - assumption.
  - exfalso. apply Hn. eapply nth_error_In. eassumption.
Qed.

Lemma devfreq_update_status_error (t : Z) d (freq : Z) :
  stats_allocated d ->
  previous_freq d <> 0 ->
  ~ In (previous_freq d) (table_entries d) \/ ~ In freq (table_entries d) ->
  exists d', devfreq_update_status t d freq = Some (- EINVAL, d').
Proof.
  intros Hs Hp Habs. pose proof Hs as (Htbl & Htis & _).
  unfold devfreq_update_status.
  apply Z.eqb_neq in Hp. rewrite Hp.
  destruct (devfreq_get_freq_level_total d (previous_freq d) Htbl)
    as (pl & Hpl & Hplc).
  rewrite Hpl. destruct Hplc as [->|[Hrange Hnth]].
  - simpl. eauto.
  - destruct Habs as [Habs|Habs].
    { exfalso. apply Habs. eapply nth_error_In. eassumption. }
    replace (pl <? 0) with false by (symmetry; apply Z.ltb_ge; lia).
    destruct (array_update_some
                (fun x => wrap_ulong (x + wrap_ulong (t - last_stat_updated d)))
                (time_in_state d) (Z.to_nat pl)) as [tis Htis'].
    { rewrite Htis. lia. }
    rewrite Htis'.
    change (devfreq_get_freq_level (set_time_in_state tis d) freq)
      with (devfreq_get_freq_level d freq).
    rewrite (devfreq_get_freq_level_absent d freq Htbl Habs).
    simpl. eauto.
Qed.

(** ** Sequences of updates *)

Lemma level_changes_profile d d' (c : stat_call) :
  profile d' = profile d -> level_changes d' c = level_changes d c.
Proof.
  unfold level_changes, devfreq_get_freq_level. now intros ->.
Qed.

Lemma prev_resolves_profile d d' (c : stat_call) :
  profile d' = profile d -> prev_resolves d c -> prev_resolves d' c.
Proof.
  unfold prev_resolves, table_entries. now intros ->.
Qed.

Lemma wrap_ulong_accumulate (s x c : Z) :
  wrap_ulong (s - x + wrap_ulong (x + wrap_ulong c)) = wrap_ulong (s + c).
Proof.
  rewrite wrap_ulong_add_r.
  replace (s - x + (x + wrap_ulong c)) with (s + wrap_ulong c) by lia.
  apply wrap_ulong_add_r.
Qed.

(** One call of a sequence, after the writes that precede it. *)
Lemma stat_call_step d (c : stat_call) :
  stats_allocated d ->
  exists r d1,
    devfreq_update_status (sc_now c)
      (set_previous_freq (sc_prev c) (resume_stamp (sc_stamp c) d))
      (sc_freq c)
    = Some (r, d1) /\
    last_stat_updated d1 = sc_now c /\
    profile d1 = profile d /\
    stats_allocated d1 /\
    (if sc_prev c =? 0 then time_in_state d1 = time_in_state d
     else
       match devfreq_get_freq_level d (sc_prev c) with
       | Some prev_lev =>
           if prev_lev <? 0 then time_in_state d1 = time_in_state d
           else
             array_update
               (fun x =>
                  wrap_ulong
                    (x + wrap_ulong
                           (sc_now c - stamp_at (last_stat_updated d) c)))
               (time_in_state d) (Z.to_nat prev_lev)
             = Some (time_in_state d1)
       | None => False
       end) /\
    (if level_changes d c
     then
       (exists idx,
          array_update (fun k => wrap_uint (k + 1)) (trans_table d) idx
          = Some (trans_table d1)) /\
       total_trans d1 = wrap_uint (total_trans d + 1)
     else trans_table d1 = trans_table d /\ total_trans d1 = total_trans d).
Proof.
  intros Hs. unfold stamp_at.
  destruct (sc_stamp c) as [s|]; simpl.
  - destruct (devfreq_update_status_step (sc_now c)
                (set_previous_freq (sc_prev c) (set_last_stat_updated s d))
                (sc_freq c))
      as (r & d1 & Hrun & Hlast & Hprof & Hs1 & _ & Htime & Htrans);
      [exact Hs|].
    exists r, d1. repeat split; try assumption; apply Hs1.
  - destruct (devfreq_update_status_step (sc_now c)
                (set_previous_freq (sc_prev c) d) (sc_freq c))
      as (r & d1 & Hrun & Hlast & Hprof & Hs1 & _ & Htime & Htrans);
      [exact Hs|].
    exists r, d1. repeat split; try assumption; apply Hs1.
Qed.

(** Time accounting, in the arithmetic of [unsigned long]. *)
Lemma record_transitions_time d (calls : list stat_call) (b : Z) :
  stats_allocated d ->
  Forall (prev_resolves d) calls ->
  wrap_ulong (sum_Z (time_in_state d)) = wrap_ulong (last_stat_updated d - b) ->
  exists d',
    record_transitions calls d = Some d' /\
    wrap_ulong (sum_Z (time_in_state d'))
    = wrap_ulong (last_stat_updated d' - b
                  - suspension_gaps (last_stat_updated d) calls).
Proof.
  revert d b. induction calls as [|c calls IH]; intros d b Hs Hres Hinv; simpl.
  - exists d. split; [reflexivity|]. rewrite Hinv. f_equal. lia.
  - inversion Hres as [|? ? [Hnz Hin] Hrest]; subst.
    destruct (stat_call_step d c Hs)
      as (r & d1 & Hrun & Hlast & Hprof & Hs1 & Htime & _).
    rewrite Hrun.
    destruct (IH d1 (b + (stamp_at (last_stat_updated d) c
                          - last_stat_updated d)))
      as (d' & Hrec & Hsum'); auto.
    + eapply Forall_impl; [|exact Hrest].
      intros a Ha. apply (prev_resolves_profile d); [|assumption].
      rewrite Hprof. reflexivity.
    + apply Z.eqb_neq in Hnz. rewrite Hnz in Htime.
      destruct (devfreq_get_freq_level_found d (sc_prev c)) as (pl & Hpl & Hr);
        [apply Hs|assumption|].
      rewrite Hpl in Htime.
      replace (pl <? 0) with false in Htime by (symmetry; apply Z.ltb_ge; lia).
      apply array_update_spec in Htime. destruct Htime as (x & _ & Hsum & _).
      rewrite Hsum, Hlast, wrap_ulong_accumulate.
      rewrite <- wrap_ulong_add_l, Hinv, wrap_ulong_add_l.
      f_equal. lia.
    + exists d'. split; [exact Hrec|]. rewrite Hsum', Hlast. f_equal. lia.
Qed.

(** Time accounting, exact while the clock does not wrap. *)
Lemma record_transitions_time_exact d (calls : list stat_call) (b : Z) :
  stats_allocated d ->
  Forall (prev_resolves d) calls ->
  Forall (fun y => 0 <= y) (time_in_state d) ->
  sum_Z (time_in_state d) = last_stat_updated d - b ->
  0 <= b <= last_stat_updated d ->
  clock_monotone (last_stat_updated d) calls ->
  exists d',
    record_transitions calls d = Some d' /\
    sum_Z (time_in_state d')
    = last_stat_updated d' - b - suspension_gaps (last_stat_updated d) calls.
Proof.
  revert d b. induction calls as [|c calls IH];
    intros d b Hs Hres Hpos Hinv Hb Hmono; simpl.
  - exists d. split; [reflexivity|]. lia.
  - inversion Hres as [|? ? [Hnz Hin] Hrest]; subst.
    destruct Hmono as (Hstamp & Hnow & Hmono).
    destruct (stat_call_step d c Hs)
      as (r & d1 & Hrun & Hlast & Hprof & Hs1 & Htime & _).
    rewrite Hrun.
    apply Z.eqb_neq in Hnz. rewrite Hnz in Htime.
    destruct (devfreq_get_freq_level_found d (sc_prev c)) as (pl & Hpl & Hr);
      [apply Hs|assumption|].
    rewrite Hpl in Htime.
    replace (pl <? 0) with false in Htime by (symmetry; apply Z.ltb_ge; lia).
    set (s := stamp_at (last_stat_updated d) c) in *.
    assert (Hstep : forall x, nth_error (time_in_state d) (Z.to_nat pl) = Some x ->
              wrap_ulong (x + wrap_ulong (sc_now c - s))
              = x + (sc_now c - s) /\ 0 <= x).
    { intros x Hx. destruct (nth_error_le_sum _ _ _ Hpos Hx).
      rewrite (wrap_ulong_small (sc_now c - s)) by lia.
      split; [apply wrap_ulong_small|]; lia. }
    destruct (IH d1 (b + (s - last_stat_updated d)))
      as (d' & Hrec & Hsum'); auto.
    + eapply Forall_impl; [|exact Hrest].
      intros a Ha. apply (prev_resolves_profile d); [|assumption].
      rewrite Hprof. reflexivity.
    + eapply array_update_Forall; [exact Htime|exact Hpos|].
      intros x Hx. destruct (Hstep x Hx) as [-> ?]. lia.
    + apply array_update_spec in Htime. destruct Htime as (x & Hx & Hsum & _).
      destruct (Hstep x Hx) as [Hw _]. rewrite Hw in Hsum.
      rewrite Hsum, Hlast. lia.
    + rewrite Hlast. lia.
    + rewrite Hlast. assumption.
    + exists d'. split; [exact Hrec|]. rewrite Hsum', Hlast. lia.
Qed.

Lemma wrap_uint_increment (s y : Z) :
  wrap_uint (s - y + wrap_uint (y + 1)) = wrap_uint (s + 1).
Proof.
  unfold wrap_uint. rewrite Zplus_mod_idemp_r. f_equal. lia.
Qed.

(** Transition counting, in the arithmetic of [unsigned int]. *)
Lemma record_transitions_count d (calls : list stat_call) (k : Z) :
  stats_allocated d ->
  wrap_uint (sum_Z (trans_table d)) = wrap_uint k ->
  total_trans d = wrap_uint k ->
  exists d',
    record_transitions calls d = Some d' /\
    wrap_uint (sum_Z (trans_table d'))
    = wrap_uint (k + Z.of_nat (List.length (filter (level_changes d) calls))) /\
    total_trans d'
    = wrap_uint (k + Z.of_nat (List.length (filter (level_changes d) calls))).
Proof.
  revert d k. induction calls as [|c calls IH]; intros d k Hs Hsum Htot; simpl.
  - rewrite Z.add_0_r. eauto.
  - destruct (stat_call_step d c Hs)
      as (r & d1 & Hrun & _ & Hprof & Hs1 & _ & Htrans).
    rewrite Hrun.
    assert (Hf : filter (level_changes d1) calls = filter (level_changes d) calls).
    { apply filter_ext. intros a. apply level_changes_profile.
      rewrite Hprof. reflexivity. }
    destruct (level_changes d c) eqn:Elc.
    + destruct Htrans as [[idx Hupd] Htot1].
      apply array_update_spec in Hupd. destruct Hupd as (y & _ & Hsum1 & _).
      simpl in Hsum1, Htot1.
      destruct (IH d1 (k + 1)) as (d' & Hrec & Ha & Hb); auto.
      * rewrite Hsum1, wrap_uint_increment.
        rewrite <- wrap_uint_add_l, Hsum, wrap_uint_add_l. reflexivity.
      * rewrite Htot1, Htot, wrap_uint_add_l. reflexivity.
      * exists d'. rewrite Hf in Ha, Hb. simpl List.length.
        rewrite Nat2Z.inj_succ.
        replace (k + Z.succ (Z.of_nat (List.length (filter (level_changes d) calls))))
          with (k + 1 + Z.of_nat (List.length (filter (level_changes d) calls)))
          by lia.
        auto.
    + destruct Htrans as [Htt Htot1]. simpl in Htt, Htot1.
      destruct (IH d1 k) as (d' & Hrec & Ha & Hb); auto; try congruence.
      exists d'. rewrite Hf in Ha, Hb. auto.
Qed.

(** Transition counting, exact while fewer than [2^32] calls are made. *)
Lemma record_transitions_count_exact d (calls : list stat_call) (k : Z) :
  stats_allocated d ->
  Forall (fun y => 0 <= y) (trans_table d) ->
  sum_Z (trans_table d) = k ->
  total_trans d = k ->
  0 <= k ->
  k + Z.of_nat (List.length calls) <= UINT_MAX ->
  exists d',
    record_transitions calls d = Some d' /\
    sum_Z (trans_table d')
    = k + Z.of_nat (List.length (filter (level_changes d) calls)) /\
    total_trans d'
    = k + Z.of_nat (List.length (filter (level_changes d) calls)).
Proof.
  revert d k. induction calls as [|c calls IH];
    intros d k Hs Hpos Hsum Htot Hk Hbound; simpl.
  - rewrite Z.add_0_r. eauto.
  - destruct (stat_call_step d c Hs)
      as (r & d1 & Hrun & _ & Hprof & Hs1 & _ & Htrans).
    rewrite Hrun.
    assert (Hf : filter (level_changes d1) calls = filter (level_changes d) calls).
    { apply filter_ext. intros a. apply level_changes_profile.
      rewrite Hprof. reflexivity. }
    simpl List.length in Hbound. rewrite Nat2Z.inj_succ in Hbound.
    destruct (level_changes d c) eqn:Elc.
    + destruct Htrans as [[idx Hupd] Htot1]. simpl in Hupd, Htot1.
      assert (Hstep : forall y, nth_error (trans_table d) idx = Some y ->
                wrap_uint (y + 1) = y + 1 /\ 0 <= y).
      { intros y Hy. destruct (nth_error_le_sum _ _ _ Hpos Hy).
        split; [apply wrap_uint_small|]; lia. }
      destruct (IH d1 (k + 1)) as (d' & Hrec & Ha & Hb); auto.
      * eapply array_update_Forall; [exact Hupd|exact Hpos|].
        intros y Hy. destruct (Hstep y Hy) as [-> ?]. lia.
      * apply array_update_spec in Hupd. destruct Hupd as (y & Hy & Hsum1 & _).
        destruct (Hstep y Hy) as [Hw _]. rewrite Hw in Hsum1. lia.
      * rewrite Htot1, Htot. apply wrap_uint_small. lia.
      * lia.
      * lia.
      * exists d'. rewrite Hf in Ha, Hb. simpl List.length.
        rewrite Nat2Z.inj_succ. repeat split; auto; lia.
    + destruct Htrans as [Htt Htot1]. simpl in Htt, Htot1.
      destruct (IH d1 k) as (d' & Hrec & Ha & Hb); auto; try congruence; try lia.
      exists d'. rewrite Hf in Ha, Hb. auto.
Qed.

(** ** Claims on the transition statistics *)

(** C8.  Every call of [devfreq_update_status] on a device whose tables are
    allocated returns and leaves [last_stat_updated] at the current
    time; this includes the calls that return [-EINVAL] because the
    previous or the new frequency is not in the frequency table. *)
Theorem devfreq_update_status_stamps_time (t : Z) d (freq : Z) :
  stats_allocated d ->
  exists r d',
    devfreq_update_status t d freq = Some (r, d') /\
    last_stat_updated d' = t /\
    (previous_freq d <> 0 ->
     ~ In (previous_freq d) (table_entries d) \/ ~ In freq (table_entries d) ->
     r = - EINVAL).
Proof.
  intros Hs.
  destruct (devfreq_update_status_step t d freq Hs)
    as (r & d' & Hrun & Hlast & _).
  exists r, d'. repeat split; auto.
  intros Hp Habs.
  destruct (devfreq_update_status_error t d freq Hs Hp Habs) as [d'' Herr].
  congruence.
Qed.

(** C10.  While [previous_freq] is 0 a call of [devfreq_update_status]
    returns 0 and leaves [last_stat_updated] at the current time,
    whatever the frequency table holds, also when 0 is one of its
    entries: no time is added to [time_in_state], no transition is
    counted in [trans_table] or [total_trans], [previous_freq] stays 0
    and no other field of the device changes. *)
Theorem devfreq_update_status_uninitialized (t : Z) d (freq : Z) :
  previous_freq d = 0 ->
  exists d',
    devfreq_update_status t d freq = Some (0, d') /\
    last_stat_updated d' = t /\
    time_in_state d' = time_in_state d /\
    trans_table d' = trans_table d /\
    total_trans d' = total_trans d /\
    previous_freq d' = 0 /\
    profile d' = profile d /\
    governor d' = governor d /\
    governor_name d' = governor_name d /\
    lock d' = lock d /\
    min_freq d' = min_freq d /\
    max_freq d' = max_freq d /\
    stop_polling d' = stop_polling d /\
    max_boost d' = max_boost d /\
    is_boost_device d' = is_boost_device d.
Proof.
  intros H. unfold devfreq_update_status. rewrite H. simpl.
  eexists. split; [reflexivity|]. simpl.
  repeat split. exact H.
Qed.

(** C3, as amended.  Over a sequence of [devfreq_update_status] calls on a device
    whose [time_in_state] starts at zero, if at every call the previous
    frequency is set and is an entry of the table (the frequency passed
    may be absent from it), the sum of [time_in_state] equals the
    final [last_stat_updated] minus the initial one, less the
    suspension gaps, which are the intervals that the re-stamp of
    [last_stat_updated] by [devfreq_monitor_resume] skips: in
    [unsigned long] arithmetic always, and exactly while the clock
    does not go backwards or wrap. *)
Theorem time_in_state_accounts_elapsed d (calls : list stat_call) :
  stats_allocated d ->
  time_in_state d = repeat 0 (max_state (profile d)) ->
  Forall (prev_resolves d) calls ->
  exists d',
    record_transitions calls d = Some d' /\
    sum_ulong (time_in_state d')
    = wrap_ulong (last_stat_updated d' - last_stat_updated d
                  - suspension_gaps (last_stat_updated d) calls) /\
    (0 <= last_stat_updated d ->
     clock_monotone (last_stat_updated d) calls ->
     sum_Z (time_in_state d')
     = last_stat_updated d' - last_stat_updated d
       - suspension_gaps (last_stat_updated d) calls).
Proof.
  intros Hs Hzero Hres.
  destruct (record_transitions_time d calls (last_stat_updated d) Hs Hres)
    as (d' & Hrun & Hmod).
  { rewrite Hzero, sum_Z_repeat_zero. f_equal. lia. }
  exists d'. split; [assumption|]. split.
  - rewrite sum_ulong_wrap. assumption.
  - intros Hpos Hmono.
    destruct (record_transitions_time_exact d calls (last_stat_updated d))
      as (d'' & Hrun' & Hex); auto.
    + rewrite Hzero. apply Forall_repeat_zero.
    + rewrite Hzero, sum_Z_repeat_zero. lia.
    + lia.
    + congruence.
Qed.

(** C4.  Over every sequence of [devfreq_update_status] calls on a device whose
    counters start at zero, the entries of [trans_table] sum to
    [total_trans], and [total_trans] is the number of calls whose
    previous and new frequency resolve to different levels; sums and
    counts are those of [unsigned int], and exact in [Z] for fewer
    than [2^32] calls. *)
Theorem transition_counts_consistent d (calls : list stat_call) :
  stats_allocated d ->
  trans_table d
  = repeat 0 (max_state (profile d) * max_state (profile d)) ->
  total_trans d = 0 ->
  exists d',
    record_transitions calls d = Some d' /\
    sum_uint (trans_table d') = total_trans d' /\
    total_trans d'
    = wrap_uint (Z.of_nat (List.length (filter (level_changes d) calls))) /\
    (Z.of_nat (List.length calls) <= UINT_MAX ->
     sum_Z (trans_table d') = total_trans d' /\
     total_trans d'
     = Z.of_nat (List.length (filter (level_changes d) calls))).
Proof.
  intros Hs Hzero Htot.
  destruct (record_transitions_count d calls 0 Hs) as (d' & Hrun & Hsum & Hcnt).
  { rewrite Hzero, sum_Z_repeat_zero. reflexivity. }
  { rewrite Htot. reflexivity. }
  exists d'. split; [assumption|].
  split; [rewrite sum_uint_wrap, Hsum; symmetry; exact Hcnt|].
  split; [exact Hcnt|].
  intros Hlen.
  destruct (record_transitions_count_exact d calls 0) as (d'' & Hrun' & Ha & Hb);
    auto; try lia.
  - rewrite Hzero. apply Forall_repeat_zero.
  - rewrite Hzero. apply sum_Z_repeat_zero.
  - rewrite Hrun in Hrun'. inversion Hrun'; subst d''.
    split; [rewrite Ha, Hb; reflexivity|exact Hb].
Qed.

End Statistics.

Lemma devfreq_update_status_stamps_time_witness :
  stats_allocated (set_previous_freq 250 sample_device) /\
  exists r d',
    devfreq_update_status 7 (set_previous_freq 250 sample_device) 100
    = Some (r, d') /\
    last_stat_updated d' = 7 /\
    (previous_freq (set_previous_freq 250 sample_device) <> 0 ->
     ~ In (previous_freq (set_previous_freq 250 sample_device))
         (table_entries (set_previous_freq 250 sample_device)) \/
     ~ In 100 (table_entries (set_previous_freq 250 sample_device)) ->
     r = - EINVAL).
Proof.
  split.
  - repeat split; reflexivity.
  - apply (devfreq_update_status_stamps_time 7
             (set_previous_freq 250 sample_device) 100).
    repeat split; reflexivity.
Defined.

Lemma devfreq_update_status_uninitialized_witness :
  In 0 (table_entries zero_level_device) /\
  previous_freq zero_level_device = 0 /\
  last_stat_updated zero_level_device = 0 /\
  exists d',
    devfreq_update_status 5 zero_level_device 100 = Some (0, d') /\
    last_stat_updated d' = 5 /\
    time_in_state d' = [0; 0; 0] /\
    total_trans d' = 0.
Proof.
  split; [left; reflexivity|]. split; [reflexivity|]. split; [reflexivity|].
  destruct (devfreq_update_status_uninitialized 5 zero_level_device 100
              eq_refl)
    as (d' & Hrun & Hlast & Htis & _ & Htot & _).
  exists d'. split; [exact Hrun|]. split; [exact Hlast|].
  split; [exact Htis|exact Htot].
Defined.

Lemma resumed_calls_resolve : Forall (prev_resolves sample_device) resumed_calls.
Proof.
  unfold resumed_calls, prev_resolves. repeat constructor; simpl; auto; lia.
Defined.

Lemma time_in_state_accounts_elapsed_witness :
  stats_allocated sample_device /\
  Forall (prev_resolves sample_device) resumed_calls /\
  suspension_gaps (last_stat_updated sample_device) resumed_calls = 30 /\
  exists d',
    record_transitions resumed_calls sample_device = Some d' /\
    sum_ulong (time_in_state d')
    = wrap_ulong (last_stat_updated d' - last_stat_updated sample_device
                  - suspension_gaps (last_stat_updated sample_device)
                      resumed_calls) /\
    (0 <= last_stat_updated sample_device ->
     clock_monotone (last_stat_updated sample_device) resumed_calls ->
     sum_Z (time_in_state d')
     = last_stat_updated d' - last_stat_updated sample_device
       - suspension_gaps (last_stat_updated sample_device) resumed_calls).
Proof.
  split; [repeat split; reflexivity|].
  split; [exact resumed_calls_resolve|].
  split; [reflexivity|].
  apply (time_in_state_accounts_elapsed sample_device resumed_calls).
  - repeat split; reflexivity.
  - reflexivity.
  - exact resumed_calls_resolve.
Defined.

(** C3 fails as stated: the governor asks twice for 250, which is not in
    the table [100, 200, 300]; 20 ticks pass, the device is not
    suspended, and 10 are accounted.  It also fails while
    [previous_freq] is still 0: 10 ticks pass and none is accounted. *)
Lemma time_in_state_loses_off_table_time :
  stats_allocated sample_device /\
  time_in_state sample_device = [0; 0; 0] /\
  suspension_gaps (last_stat_updated sample_device) off_table_calls = 0 /\
  (exists d',
     record_transitions off_table_calls sample_device = Some d' /\
     sum_Z (time_in_state d') = 10 /\
     last_stat_updated d' - last_stat_updated sample_device = 20 /\
     sum_Z (time_in_state d')
     <> last_stat_updated d' - last_stat_updated sample_device) /\
  (exists d',
     devfreq_update_status 10 (set_previous_freq 0 sample_device) 100
     = Some (0, d') /\
     sum_Z (time_in_state d') = 0 /\
     last_stat_updated d' - last_stat_updated sample_device = 10).
Proof.
  split; [repeat split; reflexivity|]. split; [reflexivity|].
  split; [reflexivity|]. split.
  - eexists. split; [reflexivity|]. simpl.
    repeat split; try reflexivity. discriminate.
  - eexists. split; [reflexivity|]. split; reflexivity.
Qed.

Lemma transition_counts_consistent_witness :
  stats_allocated sample_device /\
  exists d',
    record_transitions on_table_calls sample_device = Some d' /\
    sum_uint (trans_table d') = total_trans d' /\
    total_trans d'
    = wrap_uint (Z.of_nat
        (List.length (filter (level_changes sample_device) on_table_calls))) /\
    (Z.of_nat (List.length on_table_calls) <= UINT_MAX ->
     sum_Z (trans_table d') = total_trans d' /\
     total_trans d'
     = Z.of_nat
         (List.length (filter (level_changes sample_device) on_table_calls))).
Proof.
  split; [repeat split; reflexivity|].
  apply (transition_counts_consistent sample_device on_table_calls).
  - repeat split; reflexivity.
  - reflexivity.
  - reflexivity.
Defined.

(** ** Limits derived from the frequency table *)

Section Limits.

Context {W : Type}.
Implicit Types d : @devfreq W.

Lemma freq_limits_loop_fold (tbl : list Z) (n idx : nat) (min max : Z) :
  (idx + n <= List.length tbl)%nat ->
  freq_limits_loop tbl idx n min max
  = Some (fold_left Z.min (firstn n (skipn idx tbl)) min,
          fold_left Z.max (firstn n (skipn idx tbl)) max).
Proof.
  revert idx min max. induction n as [|n IH]; intros idx min max Hlen; simpl.
  - reflexivity.
  - destruct (nth_error tbl idx) as [f|] eqn:E.
    + rewrite IH by lia.
      assert (Hsk : skipn idx tbl = f :: skipn (S idx) tbl).
      { clear -E. revert idx E. induction tbl as [|x tbl IHt]; intros idx E.
        - destruct idx; discriminate.
        - destruct idx as [|j]; simpl in *.
          + now inversion E.
          + now apply IHt. }
      rewrite Hsk. simpl.
      replace (if min >? f then f else min) with (Z.min min f)
        by (destruct (Z.gtb_spec min f); lia).
      replace (if max <? f then f else max) with (Z.max max f)
        by (destruct (Z.ltb_spec max f); lia).
      reflexivity.
    + apply nth_error_None in E. lia.
Qed.

Lemma fold_min_list_min (x : Z) (l : list Z) (acc : Z) :
  fold_left Z.min (x :: l) acc = Z.min acc (list_min x l).
Proof.
  revert x acc. induction l as [|y l IH]; intros x acc.
  - reflexivity.
  - change (fold_left Z.min (x :: y :: l) acc)
      with (fold_left Z.min (y :: l) (Z.min acc x)).
    rewrite IH. simpl. lia.
Qed.

Lemma fold_max_list_max (x : Z) (l : list Z) (acc : Z) :
  fold_left Z.max (x :: l) acc = Z.max acc (list_max x l).
Proof.
  revert x acc. induction l as [|y l IH]; intros x acc.
  - reflexivity.
  - change (fold_left Z.max (x :: y :: l) acc)
      with (fold_left Z.max (y :: l) (Z.max acc x)).
    rewrite IH. simpl. lia.
Qed.

Lemma list_min_bound (x : Z) (l : list Z) (b : Z) :
  Forall (fun f => f <= b) (x :: l) -> list_min x l <= b.
Proof.
  revert x. induction l as [|y l IH]; intros x H; inversion H; subst; simpl.
  - assumption.
  - lia.
Qed.

Lemma list_max_bound (x : Z) (l : list Z) (b : Z) :
  Forall (fun f => b <= f) (x :: l) -> b <= list_max x l.
Proof.
  revert x. induction l as [|y l IH]; intros x H; inversion H; subst; simpl.
  - assumption.
  - lia.
Qed.

(** With a table of [max_state] frequencies, at least one, the limits
    become its least and its greatest entry. *)
Lemma devfreq_set_freq_limits_table d (x : Z) (l : list Z) :
  freq_table (profile d) = Some (x :: l) ->
  max_state (profile d) = List.length (x :: l) ->
  Forall (fun f => 0 <= f <= ULONG_MAX) (x :: l) ->
  devfreq_set_freq_limits d
  = Some (set_max_freq (list_max x l) (set_min_freq (list_min x l) d)).
Proof.
  intros Ht Hn Hr. unfold devfreq_set_freq_limits. rewrite Ht, Hn.
  rewrite freq_limits_loop_fold by (simpl; lia).
  change (skipn 0 (x :: l)) with (x :: l). rewrite firstn_all.
  rewrite fold_min_list_min, fold_max_list_max.
  rewrite Z.min_r, Z.max_r; [reflexivity| |].
  - apply list_max_bound. eapply Forall_impl; [|exact Hr]. simpl. lia.
  - apply list_min_bound. eapply Forall_impl; [|exact Hr]. simpl. lia.
Qed.

(** Without a table (NULL pointer) the limits are left as they are. *)
Lemma devfreq_set_freq_limits_null d :
  freq_table (profile d) = None -> devfreq_set_freq_limits d = Some d.
Proof.
  intros H. unfold devfreq_set_freq_limits. now rewrite H.
Qed.

(** With a table pointer and [max_state = 0] the loop does not run and
    the initial values of [min] and [max] are stored. *)
Lemma devfreq_set_freq_limits_no_state d (tbl : list Z) :
  freq_table (profile d) = Some tbl ->
  max_state (profile d) = O ->
  devfreq_set_freq_limits d
  = Some (set_max_freq 0 (set_min_freq ULONG_MAX d)).
Proof.
  intros Ht Hn. unfold devfreq_set_freq_limits. now rewrite Ht, Hn.
Qed.

End Limits.

(** C7, where the code departs from it.  On a device whose table is empty with the pointer set,
    [devfreq_set_freq_limits] stores [ULONG_MAX] in [min_freq]: the
    bounds do not stay at zero.  [devfreq_add_device] reaches this
    state when the second operating point cannot be looked up. *)
Theorem devfreq_set_freq_limits_empty_table :
  table_entries empty_table_device = [] /\
  min_freq empty_table_device = 0 /\
  max_freq empty_table_device = 0 /\
  devfreq_set_freq_limits empty_table_device
  = Some (set_max_freq 0 (set_min_freq 18446744073709551615
                            empty_table_device)) /\
  devfreq_add_device_limits broken_opp_count broken_opp_find_freq_ceil
    sample_kcalloc_ok tt no_table_device
  = Some (set_max_freq 0 (set_min_freq 18446744073709551615
                            empty_table_device)).
Proof.
  repeat split; reflexivity.
Qed.

(** ** The decision engine *)

Section Engine.

Context {W : Type}.
Variable governor_at : gov_ptr -> @devfreq_governor W.
Variable srcu_notifier_call_chain : Z -> Z -> Z -> W -> W.
Variable jiffies : W -> Z.

Implicit Types m : @machine W.
Implicit Types d : @devfreq W.

Local Abbreviation run_update m :=
  (update_devfreq governor_at srcu_notifier_call_chain jiffies m).

(** The code's clamp, started with no flag set, is the clamp of the
    specification. *)
Lemma adjust_freq_clamp d (freq : Z) :
  adjust_freq d freq 0
  = (fst (clamp_to_bounds (min_freq d) (max_freq d) freq),
     rounding_flag (snd (clamp_to_bounds (min_freq d) (max_freq d) freq))).
Proof.
  unfold adjust_freq, clamp_to_bounds.
  destruct (negb (min_freq d =? 0) && (freq <? min_freq d));
    [destruct (negb (max_freq d =? 0) && (min_freq d >? max_freq d))
    |destruct (negb (max_freq d =? 0) && (freq >? max_freq d))];
    reflexivity.
Qed.

(** When both clamps apply the ceiling wins, with its rounding flag. *)
Lemma adjust_freq_max_wins d (freq : Z) :
  min_freq d <> 0 -> freq < min_freq d ->
  max_freq d <> 0 -> max_freq d < min_freq d ->
  adjust_freq d freq 0 = (max_freq d, DEVFREQ_FLAG_LEAST_UPPER_BOUND).
Proof.
  intros Hmin Hlt Hmax Hinv. unfold adjust_freq.
  apply Z.eqb_neq in Hmin, Hmax. rewrite Hmin, Hmax.
  replace (freq <? min_freq d) with true by (symmetry; apply Z.ltb_lt; lia).
  simpl.
  replace (min_freq d >? max_freq d) with true
    by (symmetry; apply Z.gtb_lt; lia).
  reflexivity.
Qed.

Ltac run_engine :=
  unfold update_devfreq, bind, get_dev, ret, emit, call_get_target_freq,
    call_get_cur_freq, call_target, devfreq_notify_transition,
    call_notifier_chain, run_update_status, modify_dev,
    calls_of, machine_of, result_of; simpl.

(** C1.  In a call of [update_devfreq] on a device with a governor and
    without [max_boost], the driver's [target] is invoked once, when
    the lock is held and the governor gives a frequency, and never
    otherwise; the frequency it receives is the governor's, raised to
    [min_freq] when that is set and above it, then lowered to
    [max_freq] when that is set and below it; the flag is the
    least-upper-bound one exactly when the second clamp applied. *)
Theorem update_devfreq_clamps_target m (g : gov_ptr) :
  governor (dev m) = Some g ->
  max_boost (dev m) = false ->
  target_args (calls_of (run_update m))
  = match get_target_freq (governor_at g) (dev m) (world m) with
    | (err, requested, _) =>
        if lock (dev m) && (err =? 0) then
          [ (fst (clamp_to_bounds (min_freq (dev m)) (max_freq (dev m))
                    requested),
             rounding_flag
               (snd (clamp_to_bounds (min_freq (dev m)) (max_freq (dev m))
                       requested))) ]
        else []
    end.
Proof.
  intros Hg Hb. run_engine. rewrite Hg, Hb.
  destruct (lock (dev m)); simpl;
    [|destruct (get_target_freq (governor_at g) (dev m) (world m))
        as [[err requested] w1]; reflexivity].
  destruct (get_target_freq (governor_at g) (dev m) (world m))
    as [[err requested] w1]; simpl.
  destruct (err =? 0); simpl; [|reflexivity].
  rewrite adjust_freq_clamp.
  set (cl := clamp_to_bounds (min_freq (dev m)) (max_freq (dev m)) requested).
  destruct (get_cur_freq (profile (dev m))) as [cb|]; simpl.
  - destruct (cb w1) as [[e c] w2]; simpl.
    match goal with
    | |- context [target ?p ?f ?fl ?w] =>
        destruct (target p f fl w) as [[e2 f2] w3]
    end; simpl.
    destruct (e2 =? 0); simpl; [|reflexivity].
    destruct (freq_table (profile (dev m))); simpl; [|reflexivity].
    match goal with
    | |- context [devfreq_update_status ?t ?dv ?f] =>
        destruct (devfreq_update_status t dv f) as [[r dv']|]
    end; simpl; [|reflexivity].
    destruct (r =? 0); reflexivity.
  - match goal with
    | |- context [target ?p ?f ?fl ?w] =>
        destruct (target p f fl w) as [[e2 f2] w3]
    end; simpl.
    destruct (e2 =? 0); simpl; [|reflexivity].
    destruct (freq_table (profile (dev m))); simpl; [|reflexivity].
    match goal with
    | |- context [devfreq_update_status ?t ?dv ?f] =>
        destruct (devfreq_update_status t dv f) as [[r dv']|]
    end; simpl; [|reflexivity].
    destruct (r =? 0); reflexivity.
Qed.

Ltac split_calls :=
  repeat match goal with
    | H : In _ (_ ++ _) |- _ => apply in_app_or in H; destruct H as [H|H]
    | H : In _ (_ :: _) |- _ => destruct H as [H|H]
    | H : In _ [] |- _ => destruct H
    | H : _ \/ _ |- _ => destruct H as [H|H]
    | H : False |- _ => destruct H
    | H : @eq call _ _ |- _ => first [discriminate H | inversion H; clear H; subst]
    end.



End Engine.

Lemma update_devfreq_clamps_target_witness :
  governor (dev (sample_machine (bounded_device 100 200))) = Some 1%nat /\
  max_boost (dev (sample_machine (bounded_device 100 200))) = false /\
  target_args
    (calls_of
       (update_devfreq sample_governor_at sample_notifier sample_jiffies
          (sample_machine (bounded_device 100 200))))
  = [(200, DEVFREQ_FLAG_LEAST_UPPER_BOUND)].
Proof.
  split; [reflexivity|]. split; [reflexivity|].
  apply (update_devfreq_clamps_target sample_governor_at sample_notifier
           sample_jiffies (sample_machine (bounded_device 100 200)) 1%nat);
    reflexivity.
Defined.


(** ** Administrative writes *)

Section Administration.

Context {W : Type}.
Variable governor_at : gov_ptr -> @devfreq_governor W.
Variable srcu_notifier_call_chain : Z -> Z -> Z -> W -> W.
Variable jiffies : W -> Z.
Variable sscanf_name : string -> Z * string.
Variable sscanf_ulong : string -> Z * Z.

Implicit Types m : @machine W.

Ltac run_store :=
  unfold governor_store, governor_switch, min_freq_store, bind, get_dev, ret,
    emit, call_event_handler, modify_dev; simpl.

(** C6, as amended.  A write to [governor] whose name resolves to the
    governor already attached changes nothing and invokes no event
    handler; it returns [-EINVAL] when the name is not on the white
    list of [governor_store], and otherwise [count] as the [int ret]
    of the function holds it: [count] itself up to [INT_MAX]. *)
Theorem governor_store_same_governor m (buf s : string) (count : Z)
    (g : gov_ptr) :
  sscanf_name buf = (1, s) ->
  find_devfreq_governor governor_at (devfreq_governor_list m) s = inl g ->
  governor (dev m) = Some g ->
  governor_store governor_at sscanf_name buf count m
  = (Ok (if governor_white_list s then wrap_int count else - EINVAL), m, []) /\
  (0 <= count <= INT_MAX ->
   governor_store governor_at sscanf_name buf count m
   = (Ok (if governor_white_list s then count else - EINVAL), m, [])).
Proof.
  intros Hs Hf Hg.
  assert (Hrun : governor_store governor_at sscanf_name buf count m
                 = (Ok (if governor_white_list s then wrap_int count
                        else - EINVAL), m, [])).
  { run_store. rewrite Hs. simpl.
    destruct (governor_white_list s); simpl; [|reflexivity].
    rewrite Hf. simpl. rewrite Hg. simpl. rewrite Nat.eqb_refl.
    reflexivity. }
  split; [exact Hrun|].
  intros Hc. rewrite Hrun, wrap_int_small; [reflexivity|].
  unfold INT_MAX in Hc. unfold INT_MAX. lia.
Qed.

(** C5, as amended.  In a switch between two different governors,
    neither immutable, a failure of the current governor's STOP is
    logged and ends the switch: the error is returned, the device is
    as the STOP handler left it, and no START is invoked. *)
Theorem governor_store_stop_failure m (buf s : string) (count : Z)
    (g cur : gov_ptr) (e : Z) (d1 : @devfreq W) (w1 : W) :
  sscanf_name buf = (1, s) ->
  governor_white_list s = true ->
  find_devfreq_governor governor_at (devfreq_governor_list m) s = inl g ->
  governor (dev m) = Some cur ->
  cur <> g ->
  immutable (governor_at cur) = false ->
  immutable (governor_at g) = false ->
  event_handler (governor_at cur) (dev m) DEVFREQ_GOV_STOP (world m)
  = (e, d1, w1) ->
  e <> 0 ->
  governor_store governor_at sscanf_name buf count m
  = (Ok e,
     {| dev := d1; world := w1;
        devfreq_governor_list := devfreq_governor_list m |},
     [CallEventHandler cur DEVFREQ_GOV_STOP e;
      CallLog "Governor not stopped"]).
Proof.
  intros Hs Hw Hf Hg Hne Hic Hig Hstop He. run_store.
  apply Nat.eqb_neq in Hne. apply Z.eqb_neq in He.
  repeat (progress
            (rewrite ?Hs, ?Hw, ?Hf, ?Hg, ?Hne, ?Hic, ?Hig, ?Hstop, ?He; simpl)).
  reflexivity.
Qed.

(** The switch when STOP and START succeed: the new governor is
    attached, after STOP of the old and before its own START. *)
Lemma governor_store_switch m (buf s : string) (count : Z)
    (g cur : gov_ptr) (d1 d2 : @devfreq W) (w1 w2 : W) :
  sscanf_name buf = (1, s) ->
  governor_white_list s = true ->
  find_devfreq_governor governor_at (devfreq_governor_list m) s = inl g ->
  governor (dev m) = Some cur ->
  cur <> g ->
  immutable (governor_at cur) = false ->
  immutable (governor_at g) = false ->
  event_handler (governor_at cur) (dev m) DEVFREQ_GOV_STOP (world m)
  = (0, d1, w1) ->
  event_handler (governor_at g)
    (set_governor (Some g) (strncpy (name (governor_at g)) DEVFREQ_NAME_LEN)
       d1)
    DEVFREQ_GOV_START w1
  = (0, d2, w2) ->
  governor_store governor_at sscanf_name buf count m
  = (Ok (wrap_int count),
     {| dev := d2; world := w2;
        devfreq_governor_list := devfreq_governor_list m |},
     [CallEventHandler cur DEVFREQ_GOV_STOP 0;
      CallEventHandler g DEVFREQ_GOV_START 0]).
Proof.
  intros Hs Hw Hf Hg Hne Hic Hig Hstop Hstart. run_store.
  apply Nat.eqb_neq in Hne.
  repeat (progress
            (rewrite ?Hs, ?Hw, ?Hf, ?Hg, ?Hne, ?Hic, ?Hig, ?Hstop, ?Hstart;
             simpl)).
  reflexivity.
Qed.


End Administration.

Lemma governor_store_same_governor_witness :
  sample_sscanf_name "performance" = (1, "performance") /\
  find_devfreq_governor sample_governor_at
    (devfreq_governor_list (sample_machine sample_device)) "performance"
  = inl 1%nat /\
  governor (dev (sample_machine sample_device)) = Some 1%nat /\
  governor_store sample_governor_at sample_sscanf_name "performance" 12
    (sample_machine sample_device)
  = (Ok 12, sample_machine sample_device, []).
Proof.
  split; [reflexivity|]. split; [reflexivity|]. split; [reflexivity|].
  apply (governor_store_same_governor sample_governor_at sample_sscanf_name
           (sample_machine sample_device) "performance" "performance" 12
           1%nat); try reflexivity.
  unfold INT_MAX. lia.
Defined.

(** C6 fails as stated: "userspace" is registered and attached, but not
    on the white list; writing it returns [-EINVAL], not [count]. *)
Lemma governor_store_same_governor_off_list :
  find_devfreq_governor sample_governor_at
    (devfreq_governor_list
       (sample_machine (set_governor (Some 3%nat) "userspace" sample_device)))
    "userspace"
  = inl 3%nat /\
  governor (set_governor (Some 3%nat) "userspace" sample_device)
  = Some 3%nat /\
  name (sample_governor_at 3%nat) = "userspace" /\
  governor_store sample_governor_at sample_sscanf_name "userspace" 10
    (sample_machine (set_governor (Some 3%nat) "userspace" sample_device))
  = (Ok (- EINVAL),
     sample_machine (set_governor (Some 3%nat) "userspace" sample_device),
     []) /\
  Ok (- EINVAL) <> Ok 10.
Proof.
  repeat split; try reflexivity. discriminate.
Qed.

Lemma governor_store_stop_failure_witness :
  governor_store sample_governor_at sample_sscanf_name "powersave" 10
    (sample_machine sample_device)
  = (Ok (- EBUSY), sample_machine sample_device,
     [CallEventHandler 1%nat DEVFREQ_GOV_STOP (- EBUSY);
      CallLog "Governor not stopped"]).
Proof.
  apply (governor_store_stop_failure sample_governor_at sample_sscanf_name
           (sample_machine sample_device) "powersave" "powersave" 10
           2%nat 1%nat (- EBUSY) sample_device tt);
    try reflexivity; discriminate.
Defined.

(** C5 fails as stated: the attached governor refuses to stop; the
    write of "powersave" returns its error, "performance" stays
    attached and the START of "powersave" is not invoked. *)
Lemma governor_store_stop_failure_aborts :
  governor sample_device = Some 1%nat /\
  find_devfreq_governor sample_governor_at
    (devfreq_governor_list (sample_machine sample_device)) "powersave"
  = inl 2%nat /\
  immutable (sample_governor_at 1%nat) = false /\
  immutable (sample_governor_at 2%nat) = false /\
  event_handler (sample_governor_at 1%nat) sample_device DEVFREQ_GOV_STOP tt
  = (- EBUSY, sample_device, tt) /\
  result_of
    (governor_store sample_governor_at sample_sscanf_name "powersave" 10
       (sample_machine sample_device)) = Ok (- EBUSY) /\
  governor
    (dev (machine_of
            (governor_store sample_governor_at sample_sscanf_name "powersave"
               10 (sample_machine sample_device))))
  = Some 1%nat /\
  events_of
    (calls_of
       (governor_store sample_governor_at sample_sscanf_name "powersave" 10
          (sample_machine sample_device)))
  = [(1%nat, DEVFREQ_GOV_STOP)] /\
  ~ In (2%nat, DEVFREQ_GOV_START)
      (events_of
         (calls_of
            (governor_store sample_governor_at sample_sscanf_name "powersave"
               10 (sample_machine sample_device)))).
Proof.
  repeat split; try reflexivity.
  simpl. intros [H|[]]. discriminate.
Qed.


(** * Further properties *)

From Stdlib Require Import Sorting.Sorted.

(** ** Names *)

Lemma strncmp_refl (s : string) (n : nat) : strncmp s s n = 0.
Proof.
  revert s. induction n as [|n IH]; intros s; destruct s as [|c s]; simpl;
    try reflexivity.
  now rewrite Ascii.eqb_refl.
Qed.

(** [strncmp] gives 0 exactly when the two strings agree on their
    first [n] characters. *)
Lemma strncmp_zero_iff (a b : string) (n : nat) :
  strncmp a b n = 0 <-> strncpy a n = strncpy b n.
Proof.
  revert a b. induction n as [|n IH]; intros a b.
  - destruct a, b; split; reflexivity.
  - destruct a as [|c1 a], b as [|c2 b]; simpl;
      try (split; reflexivity);
      try (split; intros H; discriminate H).
    destruct (Ascii.eqb_spec c1 c2) as [->|Hne].
    + rewrite IH. split; [intros ->; reflexivity|intros H; now inversion H].
    + split.
      * destruct (nat_of_ascii c1 <? nat_of_ascii c2)%nat; discriminate.
      * intros H. inversion H. contradiction.
Qed.

Lemma strncmp_sym_zero (a b : string) (n : nat) :
  strncmp a b n = 0 -> strncmp b a n = 0.
Proof.
  rewrite !strncmp_zero_iff. auto.
Qed.

Lemma strncmp_trans_zero (a b c : string) (n : nat) :
  strncmp a b n = 0 -> strncmp b c n = 0 -> strncmp a c n = 0.
Proof.
  rewrite !strncmp_zero_iff. congruence.
Qed.

(** ** Level lookup, continued *)

Section Levels.

Context {W : Type}.
Implicit Types d : @devfreq W.

Lemma freq_level_loop_first (l : list Z) (freq : Z) (n lev : nat) (r : Z) :
  freq_level_loop (Some l) freq lev n = Some r ->
  (r = - EINVAL /\
   forall i, (lev <= i < lev + n)%nat -> nth_error l i <> Some freq) \/
  ((lev <= Z.to_nat r < lev + n)%nat /\ 0 <= r /\
   nth_error l (Z.to_nat r) = Some freq /\
   forall i, (lev <= i < Z.to_nat r)%nat -> nth_error l i <> Some freq).
Proof.
  revert lev. induction n as [|n IH]; intros lev H; simpl in H.
  - inversion H. left. split; [reflexivity|]. intros i Hi. lia.
  - destruct (nth_error l lev) as [f|] eqn:E; [|discriminate].
    destruct (freq =? f) eqn:Ef.
    + apply Z.eqb_eq in Ef. subst f. inversion H; subst r. right.
      rewrite Nat2Z.id. repeat split; try lia; auto.
    + apply Z.eqb_neq in Ef.
      assert (Hlev : nth_error l lev <> Some freq) by congruence.
      destruct (IH (S lev) H) as [[-> Hno]|(Hr & Hpos & Hnth & Hno)].
      * left. split; [reflexivity|]. intros i Hi.
        destruct (Nat.eq_dec i lev) as [->|]; [assumption|apply Hno; lia].
      * right. repeat split; try lia; auto. intros i Hi.
        destruct (Nat.eq_dec i lev) as [->|]; [assumption|apply Hno; lia].
Qed.

(** X1.  On a device whose table is allocated [devfreq_get_freq_level]
    returns [-EINVAL] exactly for the frequencies that are not in the
    table, and otherwise the first level that holds the frequency. *)
Theorem devfreq_get_freq_level_first_match d (freq : Z) :
  table_allocated d ->
  exists r,
    devfreq_get_freq_level d freq = Some r /\
    ((r = - EINVAL /\ ~ In freq (table_entries d)) \/
     (0 <= r < Z.of_nat (max_state (profile d)) /\
      nth_error (table_entries d) (Z.to_nat r) = Some freq /\
      forall j, (j < Z.to_nat r)%nat ->
                nth_error (table_entries d) j <> Some freq)).
Proof.
  intros Ht.
  destruct (devfreq_get_freq_level_total d freq Ht) as (r & Hr & _).
  exists r. split; [assumption|].
  revert Ht Hr. unfold table_allocated, devfreq_get_freq_level, table_entries.
  destruct (freq_table (profile d)) as [l|]; intros Ht Hr.
  - destruct (freq_level_loop_first _ _ _ _ _ Hr)
      as [[-> Hno]|(Hrange & Hpos & Hnth & Hno)].
    + left. split; [reflexivity|]. intros Hin.
      apply In_nth_error in Hin. destruct Hin as [i Hi].
      assert (i < List.length l)%nat by (apply nth_error_Some; congruence).
      apply (Hno i); [lia|assumption].
    + right. repeat split; try lia; auto. intros j Hj. apply Hno. lia.
  - rewrite Ht in Hr. simpl in Hr. inversion Hr. left. split; auto.
Qed.

(** X2.  On a table without duplicates the level of the frequency
    stored at an index is that index. *)
Theorem devfreq_get_freq_level_of_entry d (i : nat) (f : Z) :
  table_allocated d ->
  NoDup (table_entries d) ->
  nth_error (table_entries d) i = Some f ->
  devfreq_get_freq_level d f = Some (Z.of_nat i).
Proof.
  intros Ht Hnd Hi.
  destruct (devfreq_get_freq_level_total d f Ht) as (r & Hr & _).
  rewrite Hr. f_equal.
  revert Ht Hnd Hi Hr.
  unfold table_allocated, devfreq_get_freq_level, table_entries.
  destruct (freq_table (profile d)) as [l|]; intros Ht Hnd Hi Hr.
  - assert (Hlt : (i < List.length l)%nat) by (apply nth_error_Some; congruence).
    destruct (freq_level_loop_first _ _ _ _ _ Hr)
      as [[-> Hno]|(Hrange & Hpos & Hnth & Hno)].
    + exfalso. apply (Hno i); [lia|assumption].
    + assert (Z.to_nat r = i).
      { apply (proj1 (NoDup_nth_error l) Hnd); [lia|congruence]. }
      lia.
  - destruct i; discriminate.
Qed.

End Levels.

Lemma devfreq_get_freq_level_first_match_witness :
  table_allocated sample_device /\
  exists r,
    devfreq_get_freq_level sample_device 250 = Some r /\
    ((r = - EINVAL /\ ~ In 250 (table_entries sample_device)) \/
     (0 <= r < Z.of_nat (max_state (profile sample_device)) /\
      nth_error (table_entries sample_device) (Z.to_nat r) = Some 250 /\
      forall j, (j < Z.to_nat r)%nat ->
                nth_error (table_entries sample_device) j <> Some 250)).
Proof.
  split; [reflexivity|].
  apply (devfreq_get_freq_level_first_match sample_device 250). reflexivity.
Defined.

Lemma devfreq_get_freq_level_of_entry_witness :
  devfreq_get_freq_level sample_device 300 = Some 2.
Proof.
  apply (devfreq_get_freq_level_of_entry sample_device 2 300).
  - reflexivity.
  - repeat constructor; simpl; intuition discriminate.
  - reflexivity.
Defined.

(** ** Limits and the table built from the operating points *)

Lemma list_min_In (x : Z) (l : list Z) : In (list_min x l) (x :: l).
Proof.
  revert x. induction l as [|y l IH]; intros x; simpl.
  - now left.
  - destruct (Z.min_spec x (list_min y l)) as [[_ ->]|[_ ->]].
    + now left.
    + right. apply IH.
Qed.

Lemma list_max_In (x : Z) (l : list Z) : In (list_max x l) (x :: l).
Proof.
  revert x. induction l as [|y l IH]; intros x; simpl.
  - now left.
  - destruct (Z.max_spec x (list_max y l)) as [[_ ->]|[_ ->]].
    + right. apply IH.
    + now left.
Qed.

Lemma list_min_le (x : Z) (l : list Z) :
  Forall (fun f => list_min x l <= f) (x :: l).
Proof.
  revert x. induction l as [|y l IH]; intros x; simpl.
  - constructor; [lia|constructor].
  - constructor; [lia|].
    eapply Forall_impl; [|apply (IH y)]. simpl. intros a Ha. lia.
Qed.

Lemma list_max_ge (x : Z) (l : list Z) :
  Forall (fun f => f <= list_max x l) (x :: l).
Proof.
  revert x. induction l as [|y l IH]; intros x; simpl.
  - constructor; [lia|constructor].
  - constructor; [lia|].
    eapply Forall_impl; [|apply (IH y)]. simpl. intros a Ha. lia.
Qed.

Section Tables.

Context {W : Type}.
Implicit Types d : @devfreq W.

Variable dev_pm_opp_get_opp_count : W -> Z.
Variable dev_pm_opp_find_freq_ceil : W -> Z -> option Z.
Variable devm_kcalloc_ok : W -> bool.

(** X3.  For a table with at least one entry [devfreq_set_freq_limits]
    returns with both limits taken from the table, every entry
    between them, and the rest of the device as it was. *)
Theorem devfreq_set_freq_limits_brackets d :
  table_allocated d ->
  table_entries d <> [] ->
  Forall (fun f => 0 <= f <= ULONG_MAX) (table_entries d) ->
  exists d',
    devfreq_set_freq_limits d = Some d' /\
    In (min_freq d') (table_entries d) /\
    In (max_freq d') (table_entries d) /\
    Forall (fun f => min_freq d' <= f <= max_freq d') (table_entries d) /\
    d' = set_max_freq (max_freq d') (set_min_freq (min_freq d') d).
Proof.
  unfold table_allocated, table_entries.
  destruct (freq_table (profile d)) as [[|x l]|] eqn:Et;
    intros Ha Hne Hr; try contradiction.
  rewrite (devfreq_set_freq_limits_table d x l Et (eq_sym Ha) Hr).
  eexists. split; [reflexivity|]. simpl.
  split; [apply list_min_In|]. split; [apply list_max_In|]. split; [|reflexivity].
  pose proof (list_min_le x l) as Hmin. pose proof (list_max_ge x l) as Hmax.
  rewrite Forall_forall in *. intros f Hf.
  specialize (Hmin f Hf). specialize (Hmax f Hf). simpl in *. lia.
Qed.

Lemma freq_table_fill_length (w : W) (n : nat) (freq : Z) (l : list Z) :
  freq_table_fill dev_pm_opp_find_freq_ceil w n freq = Some l ->
  List.length l = n.
Proof.
  revert freq l. induction n as [|n IH]; intros freq l H; simpl in H.
  - now inversion H.
  - destruct (dev_pm_opp_find_freq_ceil w freq) as [f|]; [|discriminate].
    destruct (freq_table_fill dev_pm_opp_find_freq_ceil w n (wrap_ulong (f + 1)))
      as [rest|] eqn:E; [|discriminate].
    inversion H; subst. simpl. f_equal. eapply IH. eassumption.
Qed.

Lemma freq_table_fill_sorted (w : W) (n : nat) (freq : Z) (l : list Z) :
  ceil_contract dev_pm_opp_find_freq_ceil w ->
  0 <= freq ->
  freq_table_fill dev_pm_opp_find_freq_ceil w n freq = Some l ->
  StronglySorted Z.lt l /\ Forall (fun f => freq <= f < ULONG_MAX) l.
Proof.
  intros Hc. revert freq l. induction n as [|n IH]; intros freq l Hpos H;
    simpl in H.
  - inversion H. split; constructor.
  - destruct (dev_pm_opp_find_freq_ceil w freq) as [f|] eqn:Ef; [|discriminate].
    destruct (freq_table_fill dev_pm_opp_find_freq_ceil w n (wrap_ulong (f + 1)))
      as [rest|] eqn:E; [|discriminate].
    inversion H; subst. destruct (Hc _ _ Ef) as [Hlo Hhi].
    rewrite wrap_ulong_small in E by lia.
    destruct (IH (f + 1) rest) as [Hs Hf]; [lia|assumption|].
    split.
    + constructor; [assumption|].
      eapply Forall_impl; [|exact Hf]. simpl. intros a Ha. lia.
    + constructor; [lia|].
      eapply Forall_impl; [|exact Hf]. simpl. intros a Ha. lia.
Qed.

(** X4.  Called on a device without a table, as [devfreq_add_device]
    does, [devfreq_set_freq_table] leaves a table that holds
    [max_state] entries, in strictly increasing order and within the
    range of [unsigned long], whatever the lookups answer; and it
    changes nothing but the table and [max_state]. *)
Theorem devfreq_set_freq_table_sorted (w : W) d :
  ceil_contract dev_pm_opp_find_freq_ceil w ->
  freq_table (profile d) = None ->
  max_state (profile d) = O ->
  table_allocated
    (devfreq_set_freq_table dev_pm_opp_get_opp_count
       dev_pm_opp_find_freq_ceil devm_kcalloc_ok w d) /\
  StronglySorted Z.lt
    (table_entries
       (devfreq_set_freq_table dev_pm_opp_get_opp_count
          dev_pm_opp_find_freq_ceil devm_kcalloc_ok w d)) /\
  Forall (fun f => 0 <= f <= ULONG_MAX)
    (table_entries
       (devfreq_set_freq_table dev_pm_opp_get_opp_count
          dev_pm_opp_find_freq_ceil devm_kcalloc_ok w d)) /\
  exists t n,
    devfreq_set_freq_table dev_pm_opp_get_opp_count
      dev_pm_opp_find_freq_ceil devm_kcalloc_ok w d
    = set_profile (set_freq_table t n (profile d)) d.
Proof.
  intros Hc Ht Hn. unfold devfreq_set_freq_table.
  destruct (dev_pm_opp_get_opp_count w <=? 0) eqn:Ec.
  { unfold table_allocated, table_entries. rewrite Ht, Hn.
    repeat split; try constructor.
    exists None, O. destruct d as [p]; destruct p; simpl in *; subst.
    reflexivity. }
  destruct (devm_kcalloc_ok w); simpl.
  - destruct (freq_table_fill dev_pm_opp_find_freq_ceil w
                (Z.to_nat (dev_pm_opp_get_opp_count w)) 0) as [tbl|] eqn:Ef.
    + destruct (freq_table_fill_sorted w _ 0 tbl Hc (Z.le_refl 0) Ef) as [Hs Hf].
      unfold table_allocated, table_entries. simpl.
      repeat split; eauto using freq_table_fill_length.
      eapply Forall_impl; [|exact Hf]. simpl. intros a Ha. lia.
    + unfold table_allocated, table_entries. simpl.
      repeat split; eauto; constructor.
  - unfold table_allocated, table_entries. simpl.
    repeat split; eauto; constructor.
Qed.

End Tables.

Lemma devfreq_set_freq_limits_brackets_witness :
  exists d',
    devfreq_set_freq_limits sample_device = Some d' /\
    In (min_freq d') (table_entries sample_device) /\
    In (max_freq d') (table_entries sample_device) /\
    Forall (fun f => min_freq d' <= f <= max_freq d')
      (table_entries sample_device) /\
    d' = set_max_freq (max_freq d') (set_min_freq (min_freq d') sample_device).
Proof.
  apply (devfreq_set_freq_limits_brackets sample_device).
  - reflexivity.
  - discriminate.
  - unfold ULONG_MAX, BITS_PER_LONG. repeat constructor; simpl; lia.
Defined.

Lemma two_opp_ceil_contract : ceil_contract two_opp_find_freq_ceil tt.
Proof.
  intros freq f. unfold two_opp_find_freq_ceil, ULONG_MAX, BITS_PER_LONG.
  destruct (Z.leb_spec freq 100); [intros E; inversion E; lia|].
  destruct (Z.leb_spec freq 200); [intros E; inversion E; lia|discriminate].
Defined.

Lemma devfreq_set_freq_table_sorted_witness :
  table_entries
    (devfreq_set_freq_table broken_opp_count two_opp_find_freq_ceil
       sample_kcalloc_ok tt no_table_device) = [100; 200] /\
  table_allocated
    (devfreq_set_freq_table broken_opp_count two_opp_find_freq_ceil
       sample_kcalloc_ok tt no_table_device) /\
  StronglySorted Z.lt
    (table_entries
       (devfreq_set_freq_table broken_opp_count two_opp_find_freq_ceil
          sample_kcalloc_ok tt no_table_device)) /\
  Forall (fun f => 0 <= f <= ULONG_MAX)
    (table_entries
       (devfreq_set_freq_table broken_opp_count two_opp_find_freq_ceil
          sample_kcalloc_ok tt no_table_device)) /\
  exists t n,
    devfreq_set_freq_table broken_opp_count two_opp_find_freq_ceil
      sample_kcalloc_ok tt no_table_device
    = set_profile (set_freq_table t n (profile no_table_device))
        no_table_device.
Proof.
  split; [reflexivity|].
  apply (devfreq_set_freq_table_sorted broken_opp_count two_opp_find_freq_ceil
           sample_kcalloc_ok tt no_table_device).
  - exact two_opp_ceil_contract.
  - reflexivity.
  - reflexivity.
Defined.

(** ** The decision engine, continued *)

Section EngineCases.

Context {W : Type}.
Variable governor_at : gov_ptr -> @devfreq_governor W.
Variable srcu_notifier_call_chain : Z -> Z -> Z -> W -> W.
Variable jiffies : W -> Z.

Implicit Types m : @machine W.
Implicit Types d : @devfreq W.

Local Abbreviation run_update m :=
  (update_devfreq governor_at srcu_notifier_call_chain jiffies m).

Ltac run_engine :=
  unfold update_devfreq, bind, get_dev, ret, emit, call_get_target_freq,
    call_get_cur_freq, call_target, devfreq_notify_transition,
    call_notifier_chain, run_update_status, modify_dev,
    calls_of, machine_of, result_of; simpl.

(** The runs of [update_devfreq], sorted by how far they get: either
    the driver is not reached and the device is untouched, or the
    frequency goes through the clamp, the pre-change notification, the
    driver and the post-change notification. *)
Ltac split_calls :=
  repeat match goal with
    | H : In _ (_ ++ _) |- _ => apply in_app_or in H; destruct H as [H|H]
    | H : In _ (_ :: _) |- _ => destruct H as [H|H]
    | H : In _ [] |- _ => destruct H
    | H : _ \/ _ |- _ => destruct H as [H|H]
    | H : False |- _ => destruct H
    | H : @eq call _ _ |- _ => first [discriminate H | inversion H; clear H; subst]
    end.

(** The end of a branch of [update_devfreq_outcome], once the results
    of the callbacks are named. *)
Ltac outcome_leaf :=
  let Ee := fresh "Ee" in
  let Es := fresh "Es" in
  let Er := fresh "Er" in
  match goal with
  | |- context [?e =? 0] => destruct (e =? 0) eqn:Ee; simpl
  end;
  [apply Z.eqb_eq in Ee; subst;
   match goal with
   | |- context [freq_table ?p] => destruct (freq_table p); simpl
   end;
   [match goal with
    | |- context [devfreq_update_status ?t ?dv ?x] =>
        destruct (devfreq_update_status t dv x) as [[? ?]|] eqn:Es; simpl
    end;
    [match goal with
     | |- context [negb (?r =? 0)] => destruct (r =? 0) eqn:Er; simpl
     end|]|]
  |apply Z.eqb_neq in Ee];
  (split; [first [reflexivity|assumption]|]);
  (split; [first [reflexivity|assumption]|]);
  (split;
   [first [left; split; [first [reflexivity|assumption]|];
           split; [reflexivity|];
           intros ? ? ? Hin; simpl in Hin; split_calls
          |right; split; [first [reflexivity|assumption]|];
           eexists; first [reflexivity|eassumption]]|]);
  (split; [first [reflexivity|assumption]|]);
  (split; [first [reflexivity|intros; congruence]|]);
  (split; [reflexivity|]);
  (split; [reflexivity|]);
  (split; [intros ? Hin; simpl in Hin; split_calls; reflexivity|]);
  (split;
   [intros Hne; first [now elim Hne|split; reflexivity]
   |intros He0; first [now elim Ee|idtac];
    try rewrite Es;
    repeat split; try reflexivity;
    try (intros Hin; simpl in Hin; split_calls);
    try (apply Z.eqb_neq; assumption);
    try solve [exfalso;
               match goal with
               | E : (_ =? 0) = true, H : _ <> 0 |- _ =>
                   apply Z.eqb_eq in E; contradiction
               end];
    try solve [simpl; repeat (first [left; reflexivity|right])]]).

Lemma update_devfreq_outcome m :
  (transition_calls (calls_of (run_update m)) = [] /\
   target_args (calls_of (run_update m)) = [] /\
   dev (machine_of (run_update m)) = dev m /\
   (exists e, result_of (run_update m) = Ok e /\ e <> 0) /\
   ((lock (dev m) = false /\
     calls_of (run_update m)
     = [CallLog "devfreq->lock must be locked by the caller."]) \/
    (governor (dev m) = None /\ calls_of (run_update m) = []) \/
    (max_boost (dev m) = false /\
     exists g err req w1,
       governor (dev m) = Some g /\
       get_target_freq (governor_at g) (dev m) (world m) = (err, req, w1) /\
       err <> 0 /\
       calls_of (run_update m) = [CallGetTargetFreq g err req]))) \/
  (exists g req cur f fl err f' w',
     lock (dev m) = true /\
     governor (dev m) = Some g /\
     ((max_boost (dev m) = true /\ req = ULONG_MAX /\
       forall g' e q, ~ In (CallGetTargetFreq g' e q) (calls_of (run_update m)))
      \/
      (max_boost (dev m) = false /\
       exists w1,
         get_target_freq (governor_at g) (dev m) (world m) = (0, req, w1))) /\
     adjust_freq (dev m) req 0 = (f, fl) /\
     (get_cur_freq (profile (dev m)) = None -> cur = previous_freq (dev m)) /\
     transition_calls (calls_of (run_update m))
     = [CallNotifier DEVFREQ_PRECHANGE cur f;
        CallTarget f fl err f';
        CallNotifier DEVFREQ_POSTCHANGE cur (if err =? 0 then f' else cur)] /\
     target_args (calls_of (run_update m)) = [(f, fl)] /\
     (forall msg, In (CallLog msg) (calls_of (run_update m)) ->
                  msg = "Couldn't update frequency transition information.") /\
     (err <> 0 ->
      result_of (run_update m) = Ok err /\
      dev (machine_of (run_update m)) = dev m) /\
     (err = 0 ->
      match freq_table (profile (dev m)) with
      | None =>
          result_of (run_update m) = Ok 0 /\
          dev (machine_of (run_update m)) = set_previous_freq f' (dev m)
      | Some _ =>
          match devfreq_update_status (jiffies w') (dev m) f' with
          | Some (r, d') =>
              result_of (run_update m) = Ok 0 /\
              dev (machine_of (run_update m)) = set_previous_freq f' d' /\
              (In (CallLog "Couldn't update frequency transition information.")
                  (calls_of (run_update m)) <-> r <> 0)
          | None =>
              result_of (run_update m) = Oops /\
              dev (machine_of (run_update m))
              = devfreq_update_status_faulted (jiffies w') (dev m)
          end
      end)).
Proof.
  run_engine.
  destruct (lock (dev m)) eqn:El; simpl.
  2:{ left. repeat split; [|left; split; reflexivity].
      exists (- EINVAL). split; [reflexivity|discriminate]. }
  destruct (governor (dev m)) as [g|] eqn:Eg; simpl.
  2:{ left. repeat split; [|right; left; split; reflexivity].
      exists (- EINVAL). split; [reflexivity|discriminate]. }
  destruct (max_boost (dev m)) eqn:Eb; simpl.
  - destruct (adjust_freq (dev m) ULONG_MAX 0) as [f fl] eqn:Ea.
    destruct (get_cur_freq (profile (dev m))) as [cb|] eqn:Ecb; simpl.
    + destruct (cb (world m)) as [[e c] w2]; simpl.
      destruct (target (profile (dev m)) f fl
                  (srcu_notifier_call_chain DEVFREQ_PRECHANGE c f w2))
        as [[e2 f2] w3] eqn:Et; simpl.
      right. exists g, ULONG_MAX, c, f, fl, e2, f2,
        (srcu_notifier_call_chain DEVFREQ_POSTCHANGE c f2 w3).
      outcome_leaf.
    + destruct (target (profile (dev m)) f fl
                  (srcu_notifier_call_chain DEVFREQ_PRECHANGE
                     (previous_freq (dev m)) f (world m)))
        as [[e2 f2] w3] eqn:Et; simpl.
      right. exists g, ULONG_MAX, (previous_freq (dev m)), f, fl, e2, f2,
        (srcu_notifier_call_chain DEVFREQ_POSTCHANGE
           (previous_freq (dev m)) f2 w3).
      outcome_leaf.
  - destruct (get_target_freq (governor_at g) (dev m) (world m))
      as [[err0 req] w1] eqn:Egt; simpl.
    destruct (err0 =? 0) eqn:Eerr; simpl.
    2:{ apply Z.eqb_neq in Eerr. left. repeat split.
        - exists err0. split; [reflexivity|assumption].
        - right. right. split; [reflexivity|].
          exists g, err0, req, w1. repeat split; auto. }
    apply Z.eqb_eq in Eerr. subst err0.
    destruct (adjust_freq (dev m) req 0) as [f fl] eqn:Ea.
    destruct (get_cur_freq (profile (dev m))) as [cb|] eqn:Ecb; simpl.
    + destruct (cb w1) as [[e c] w2]; simpl.
      destruct (target (profile (dev m)) f fl
                  (srcu_notifier_call_chain DEVFREQ_PRECHANGE c f w2))
        as [[e2 f2] w3] eqn:Et; simpl.
      right. exists g, req, c, f, fl, e2, f2,
        (srcu_notifier_call_chain DEVFREQ_POSTCHANGE c f2 w3).
      outcome_leaf.
    + destruct (target (profile (dev m)) f fl
                  (srcu_notifier_call_chain DEVFREQ_PRECHANGE
                     (previous_freq (dev m)) f w1))
        as [[e2 f2] w3] eqn:Et; simpl.
      right. exists g, req, (previous_freq (dev m)), f, fl, e2, f2,
        (srcu_notifier_call_chain DEVFREQ_POSTCHANGE
           (previous_freq (dev m)) f2 w3).
      outcome_leaf.
Qed.

Lemma adjust_freq_bounds d (req fl0 f fl : Z) :
  adjust_freq d req fl0 = (f, fl) ->
  (max_freq d <> 0 -> f <= max_freq d) /\
  (min_freq d <> 0 -> max_freq d = 0 \/ min_freq d <= max_freq d ->
   min_freq d <= f) /\
  (min_freq d = 0 \/ min_freq d <= req ->
   max_freq d = 0 \/ req <= max_freq d ->
   f = req /\ fl = fl0).
Proof.
  unfold adjust_freq.
  destruct (Z.eqb_spec (min_freq d) 0), (Z.ltb_spec req (min_freq d));
    destruct (Z.eqb_spec (max_freq d) 0); simpl;
    try destruct (Z.gtb_spec req (max_freq d));
    try destruct (Z.gtb_spec (min_freq d) (max_freq d));
    intros E; inversion E; subst; repeat split; intros; try lia.
Qed.

Lemma devfreq_update_status_settings (t : Z) d (freq r : Z) d' :
  devfreq_update_status t d freq = Some (r, d') ->
  same_settings d d' /\ previous_freq d' = previous_freq d.
Proof.
  unfold devfreq_update_status, same_settings.
  destruct (previous_freq d =? 0).
  { intros H; inversion H; subst; simpl; repeat split. }
  destruct (devfreq_get_freq_level d (previous_freq d)) as [pl|]; [|discriminate].
  destruct (pl <? 0).
  { intros H; inversion H; subst; simpl; repeat split. }
  destruct (array_update _ (time_in_state d) (Z.to_nat pl)) as [tis|];
    [|discriminate].
  destruct (devfreq_get_freq_level (set_time_in_state tis d) freq) as [lv|];
    [|discriminate].
  destruct (lv <? 0).
  { intros H; inversion H; subst; simpl; repeat split. }
  destruct (negb (lv =? pl)).
  - destruct (array_update _ _ _) as [trans|]; [|discriminate].
    intros H; inversion H; subst; simpl; repeat split.
  - intros H; inversion H; subst; simpl; repeat split.
Qed.

(** A fault in [devfreq_update_status] leaves everything but
    [time_in_state] as it was. *)
Lemma devfreq_update_status_faulted_frame (t : Z) (d : @devfreq W) :
  set_time_in_state (time_in_state d) (devfreq_update_status_faulted t d) = d.
Proof.
  unfold devfreq_update_status_faulted.
  destruct (previous_freq d =? 0); [destruct d; reflexivity|].
  destruct (devfreq_get_freq_level d (previous_freq d)) as [pl|];
    [|destruct d; reflexivity].
  destruct (pl <? 0); [destruct d; reflexivity|].
  destruct (array_update _ (time_in_state d) (Z.to_nat pl));
    destruct d; reflexivity.
Qed.

Lemma devfreq_update_status_faulted_settings (t : Z) (d : @devfreq W) :
  same_settings d (devfreq_update_status_faulted t d).
Proof.
  pose proof (devfreq_update_status_faulted_frame t d) as H.
  destruct (devfreq_update_status_faulted t d). destruct d.
  inversion H; subst. repeat split.
Qed.

Lemma devfreq_update_status_faulted_counters (t : Z) (d : @devfreq W) :
  trans_table (devfreq_update_status_faulted t d) = trans_table d /\
  total_trans (devfreq_update_status_faulted t d) = total_trans d /\
  previous_freq (devfreq_update_status_faulted t d) = previous_freq d /\
  last_stat_updated (devfreq_update_status_faulted t d) = last_stat_updated d.
Proof.
  pose proof (devfreq_update_status_faulted_frame t d) as H.
  destruct (devfreq_update_status_faulted t d). destruct d.
  inversion H; subst. repeat split.
Qed.

Lemma In_transition_calls (c : call) (t : list call) :
  In c t ->
  (exists f fl e f', c = CallTarget f fl e f') ->
  In c (transition_calls t).
Proof.
  intros Hin (f & fl & e & f' & ->).
  induction t as [|x t IH]; [contradiction|].
  destruct Hin as [->|Hin]; simpl.
  - now left.
  - destruct x; auto; right; auto.
Qed.

(** X5.  A run of [update_devfreq] sends either no transition
    notification and no frequency to the driver, or exactly one
    pre-change notification, one call of [target] with the announced
    frequency, and one post-change notification that carries the same
    old frequency and, as new frequency, the one the driver settled on
    or, when the driver failed, the old one. *)
Theorem update_devfreq_notifies_in_pairs m :
  transition_calls (calls_of (run_update m)) = [] \/
  exists cur f fl err f',
    transition_calls (calls_of (run_update m))
    = [CallNotifier DEVFREQ_PRECHANGE cur f;
       CallTarget f fl err f';
       CallNotifier DEVFREQ_POSTCHANGE cur (if err =? 0 then f' else cur)].
Proof.
  destruct (update_devfreq_outcome m) as [(H & _)|H].
  - now left.
  - destruct H as (g & req & cur & f & fl & err & f' & w' & _ & _ & _ & _ & _
                   & Ht & _).
    right. exists cur, f, fl, err, f'. exact Ht.
Qed.

(** X6.  The frequency handed to the driver never exceeds a set
    [max_freq], in boost mode too, and is not below a set [min_freq]
    unless [max_freq] is set below [min_freq]. *)
Theorem update_devfreq_respects_bounds m (f fl : Z) :
  In (f, fl) (target_args (calls_of (run_update m))) ->
  (max_freq (dev m) <> 0 -> f <= max_freq (dev m)) /\
  (min_freq (dev m) <> 0 ->
   max_freq (dev m) = 0 \/ min_freq (dev m) <= max_freq (dev m) ->
   min_freq (dev m) <= f).
Proof.
  intros Hin.
  destruct (update_devfreq_outcome m) as [(_ & H & _)|H].
  - rewrite H in Hin. contradiction.
  - destruct H as (g & req & cur & f0 & fl0 & err & f' & w' & _ & _ & _ & Ha
                   & _ & _ & Ht & _).
    rewrite Ht in Hin. destruct Hin as [Hin|[]]. inversion Hin; subst.
    destruct (adjust_freq_bounds _ _ _ _ _ Ha) as (H1 & H2 & _). auto.
Qed.

Lemma devfreq_update_status_counters (t : Z) d (freq r : Z) d' :
  stats_allocated d ->
  counters_consistent d ->
  devfreq_update_status t d freq = Some (r, d') ->
  counters_consistent d'.
Proof.
  intros Hs Hc Hrun.
  destruct (devfreq_update_status_step t d freq Hs)
    as (r0 & d0 & Hrun0 & _ & _ & _ & _ & _ & Htrans).
  rewrite Hrun in Hrun0. inversion Hrun0; subst r0 d0.
  unfold counters_consistent in *. rewrite sum_uint_wrap in *.
  destruct (level_changes d _).
  - destruct Htrans as [[idx Hupd] Htot].
    apply array_update_spec in Hupd. destruct Hupd as (y & _ & Hsum & _).
    rewrite Hsum, Htot, wrap_uint_increment.
    rewrite <- wrap_uint_add_l, Hc. reflexivity.
  - destruct Htrans as [-> ->]. exact Hc.
Qed.

(** What [update_devfreq] keeps of a device whose tables are
    allocated. *)
Lemma update_devfreq_invariant m :
  stats_allocated (dev m) ->
  result_of (run_update m) <> Oops /\
  stats_allocated (dev (machine_of (run_update m))) /\
  same_settings (dev m) (dev (machine_of (run_update m))) /\
  (counters_consistent (dev m) ->
   counters_consistent (dev (machine_of (run_update m)))).
Proof.
  intros Hs.
  assert (Hrefl : same_settings (dev m) (dev m)) by (repeat split).
  destruct (update_devfreq_outcome m) as [(_ & _ & Hd & (e & He & _) & _)|H].
  - rewrite Hd, He. repeat split; auto. discriminate. all: apply Hs.
  - destruct H as (g & req & cur & f & fl & err & f' & w' & _ & _ & _ & _ & _
                   & _ & _ & _ & Hfail & Hok).
    destruct (Z.eq_dec err 0) as [->|Hne].
    + specialize (Hok eq_refl).
      destruct (freq_table (profile (dev m))) eqn:Et.
      * destruct (devfreq_update_status_step (jiffies w') (dev m) f' Hs)
          as (r & d' & Hrun & _ & _ & Hs' & _).
        rewrite Hrun in Hok. destruct Hok as (Hr & Hd & _).
        rewrite Hr, Hd. split; [discriminate|]. split; [exact Hs'|].
        destruct (devfreq_update_status_settings _ _ _ _ _ Hrun) as [Hset _].
        split; [exact Hset|].
        intros Hc. exact (devfreq_update_status_counters _ _ _ _ _ Hs Hc Hrun).
      * destruct Hok as (Hr & Hd). rewrite Hr, Hd.
        split; [discriminate|]. split; [exact Hs|]. split; [exact Hrefl|auto].
    + destruct (Hfail Hne) as (Hr & Hd). rewrite Hr, Hd.
      split; [discriminate|]. split; [exact Hs|]. split; [exact Hrefl|auto].
Qed.

(** The settings survive every run, also on a device that is not
    well formed. *)
Lemma update_devfreq_settings m :
  same_settings (dev m) (dev (machine_of (run_update m))).
Proof.
  assert (Hrefl : same_settings (dev m) (dev m)) by (repeat split).
  destruct (update_devfreq_outcome m) as [(_ & _ & Hd & _)|H].
  - rewrite Hd. exact Hrefl.
  - destruct H as (g & req & cur & f & fl & err & f' & w' & _ & _ & _ & _ & _
                   & _ & _ & _ & Hfail & Hok).
    destruct (Z.eq_dec err 0) as [->|Hne].
    + specialize (Hok eq_refl).
      destruct (freq_table (profile (dev m))).
      * destruct (devfreq_update_status (jiffies w') (dev m) f')
          as [[r d']|] eqn:Hrun.
        -- destruct Hok as (_ & Hd & _). rewrite Hd.
           destruct (devfreq_update_status_settings _ _ _ _ _ Hrun) as [Hset _].
           exact Hset.
        -- destruct Hok as (_ & Hd). rewrite Hd.
           apply devfreq_update_status_faulted_settings.
      * destruct Hok as (_ & Hd). rewrite Hd. exact Hrefl.
    + destruct (Hfail Hne) as (_ & Hd). rewrite Hd. exact Hrefl.
Qed.

(** X7.  On a device whose tables are allocated [update_devfreq] does
    not fault, keeps the tables allocated, and changes none of the
    settings: profile, governor, lock, bounds and flags. *)
Theorem update_devfreq_keeps_device_well_formed m :
  stats_allocated (dev m) ->
  result_of (run_update m) <> Oops /\
  stats_allocated (dev (machine_of (run_update m))) /\
  same_settings (dev m) (dev (machine_of (run_update m))).
Proof.
  intros Hs.
  destruct (update_devfreq_invariant m Hs) as (H1 & H2 & H3 & _).
  split; [exact H1|]. split; [exact H2|exact H3].
Qed.

(** X8.  When the driver accepts the frequency, [update_devfreq] on a
    device whose tables are allocated returns 0 and records in
    [previous_freq] the frequency the driver settled on, also when
    that frequency is not in the table and the statistics cannot be
    updated. *)
Theorem update_devfreq_records_applied_freq m (f fl f' : Z) :
  stats_allocated (dev m) ->
  In (CallTarget f fl 0 f') (calls_of (run_update m)) ->
  result_of (run_update m) = Ok 0 /\
  previous_freq (dev (machine_of (run_update m))) = f'.
Proof.
  intros Hs Hin.
  apply In_transition_calls in Hin; [|now exists f, fl, 0, f'].
  destruct (update_devfreq_outcome m) as [(H & _)|H].
  - rewrite H in Hin. contradiction.
  - destruct H as (g & req & cur & f0 & fl0 & err & f0' & w' & _ & _ & _ & _ & _
                   & Ht & _ & _ & _ & Hok).
    rewrite Ht in Hin.
    destruct Hin as [Hin|[Hin|[Hin|[]]]]; try discriminate.
    inversion Hin; subst. specialize (Hok eq_refl).
    destruct (freq_table (profile (dev m))).
    + destruct (devfreq_update_status_step (jiffies w') (dev m) f' Hs)
        as (r & d' & Hrun & _).
      rewrite Hrun in Hok. destruct Hok as (Hr & Hd & _).
      rewrite Hr, Hd. split; reflexivity.
    + destruct Hok as (Hr & Hd). rewrite Hr, Hd. split; reflexivity.
Qed.

(** X9.  Whenever [update_devfreq] returns a value other than 0, it
    leaves the device as it found it.  When it faults, which it can
    only do in the statistics update after the driver has changed the
    frequency, the device differs from the one it found in
    [time_in_state] at most: [previous_freq], the counters and the
    time stamp are not written. *)
Theorem update_devfreq_failure_leaves_device m :
  result_of (run_update m) <> Ok 0 ->
  match result_of (run_update m) with
  | Ok _ => dev (machine_of (run_update m)) = dev m
  | Oops =>
      set_time_in_state (time_in_state (dev m))
        (dev (machine_of (run_update m)))
      = dev m /\
      exists f fl f', In (CallTarget f fl 0 f') (calls_of (run_update m))
  end.
Proof.
  intros Hr.
  destruct (update_devfreq_outcome m) as [(_ & _ & Hd & (e & He & _) & _)|H].
  { rewrite He. exact Hd. }
  destruct H as (g & req & cur & f & fl & err & f' & w' & _ & _ & _ & _ & _
                 & Ht & _ & _ & Hfail & Hok).
  assert (Hin : forall c, In c (transition_calls (calls_of (run_update m))) ->
                          In c (calls_of (run_update m))).
  { intros c. generalize (calls_of (run_update m)) as t.
    induction t as [|x t IH]; simpl; [auto|].
    destruct x; simpl; intros H; auto; destruct H; auto. }
  destruct (Z.eq_dec err 0) as [->|Hne].
  - specialize (Hok eq_refl).
    destruct (freq_table (profile (dev m))).
    + destruct (devfreq_update_status (jiffies w') (dev m) f') as [[r d']|].
      * destruct Hok as (Hok & _). contradiction.
      * destruct Hok as (Hres & Hd). rewrite Hres, Hd. split.
        -- apply devfreq_update_status_faulted_frame.
        -- exists f, fl, f'. apply Hin. rewrite Ht. right. left. reflexivity.
    + destruct Hok as (Hok & _). contradiction.
  - destruct (Hfail Hne) as (Hres & Hd). rewrite Hres. exact Hd.
Qed.

(** X10.  In boost mode, with the lock held and a governor attached,
    the governor is not asked; the driver is handed [max_freq] with
    the least-upper-bound flag when [max_freq] is set below
    [ULONG_MAX], and [ULONG_MAX] otherwise. *)
Theorem update_devfreq_boost m :
  max_boost (dev m) = true ->
  lock (dev m) = true ->
  governor (dev m) <> None ->
  0 <= min_freq (dev m) <= ULONG_MAX ->
  (forall g e q, ~ In (CallGetTargetFreq g e q) (calls_of (run_update m))) /\
  target_args (calls_of (run_update m))
  = [if negb (max_freq (dev m) =? 0) && (max_freq (dev m) <? ULONG_MAX)
     then (max_freq (dev m), DEVFREQ_FLAG_LEAST_UPPER_BOUND)
     else (ULONG_MAX, 0)].
Proof.
  intros Hb Hl Hg Hmin.
  destruct (update_devfreq_outcome m)
    as [(_ & _ & _ & _ & [(H & _)|[(H & _)|(H & _)]])|H]; try congruence.
  destruct H as (g & req & cur & f & fl & err & f' & w' & _ & _ & Hsrc & Ha & _
                 & _ & Ht & _).
  destruct Hsrc as [(_ & -> & Hno)|(Hnb & _)]; [|congruence].
  split; [exact Hno|]. rewrite Ht. f_equal.
  revert Ha. unfold adjust_freq.
  replace (ULONG_MAX <? min_freq (dev m)) with false
    by (symmetry; apply Z.ltb_ge; lia).
  rewrite andb_false_r.
  replace (ULONG_MAX >? max_freq (dev m)) with (max_freq (dev m) <? ULONG_MAX)
    by (rewrite Z.gtb_ltb; reflexivity).
  destruct (negb (max_freq (dev m) =? 0) && (max_freq (dev m) <? ULONG_MAX));
    intros H; inversion H; reflexivity.
Qed.

End EngineCases.

Lemma update_devfreq_respects_bounds_witness :
  In (200, 1)
     (target_args
        (calls_of
           (update_devfreq sample_governor_at sample_notifier sample_jiffies
              (sample_machine (bounded_device 100 200))))) /\
  (max_freq (bounded_device 100 200) <> 0 ->
   200 <= max_freq (bounded_device 100 200)) /\
  (min_freq (bounded_device 100 200) <> 0 ->
   max_freq (bounded_device 100 200) = 0 \/
   min_freq (bounded_device 100 200) <= max_freq (bounded_device 100 200) ->
   min_freq (bounded_device 100 200) <= 200).
Proof.
  split; [left; reflexivity|].
  apply (update_devfreq_respects_bounds sample_governor_at sample_notifier
           sample_jiffies (sample_machine (bounded_device 100 200)) 200 1).
  left. reflexivity.
Defined.

Lemma update_devfreq_keeps_device_well_formed_witness :
  result_of
    (update_devfreq sample_governor_at sample_notifier sample_jiffies
       (sample_machine sample_device)) <> Oops /\
  stats_allocated
    (dev (machine_of
            (update_devfreq sample_governor_at sample_notifier sample_jiffies
               (sample_machine sample_device)))) /\
  same_settings (dev (sample_machine sample_device))
    (dev (machine_of
            (update_devfreq sample_governor_at sample_notifier sample_jiffies
               (sample_machine sample_device)))).
Proof.
  apply (update_devfreq_keeps_device_well_formed sample_governor_at
           sample_notifier sample_jiffies (sample_machine sample_device)).
  repeat split; reflexivity.
Defined.

Lemma update_devfreq_records_applied_freq_witness :
  ~ In 250 (table_entries sample_device) /\
  result_of
    (update_devfreq sample_governor_at sample_notifier sample_jiffies
       (sample_machine sample_device)) = Ok 0 /\
  previous_freq
    (dev (machine_of
            (update_devfreq sample_governor_at sample_notifier sample_jiffies
               (sample_machine sample_device)))) = 250.
Proof.
  split; [simpl; intuition discriminate|].
  apply (update_devfreq_records_applied_freq sample_governor_at
           sample_notifier sample_jiffies (sample_machine sample_device)
           250 0 250).
  - repeat split; reflexivity.
  - simpl. auto.
Defined.

Lemma update_devfreq_failure_leaves_device_witness :
  dev (machine_of
         (update_devfreq sample_governor_at sample_notifier sample_jiffies
            (sample_machine failing_device)))
  = dev (sample_machine failing_device) /\
  result_of
    (update_devfreq sample_governor_at sample_notifier sample_jiffies
       (sample_machine unallocated_trans_device)) = Oops /\
  time_in_state
    (dev (machine_of
            (update_devfreq sample_governor_at sample_notifier sample_jiffies
               (sample_machine unallocated_trans_device))))
  = [10; 0; 0] /\
  set_time_in_state [0; 0; 0]
    (dev (machine_of
            (update_devfreq sample_governor_at sample_notifier sample_jiffies
               (sample_machine unallocated_trans_device))))
  = unallocated_trans_device.
Proof.
  split.
  - apply (update_devfreq_failure_leaves_device sample_governor_at
             sample_notifier sample_jiffies (sample_machine failing_device)).
    discriminate.
  - split; [reflexivity|]. split; [reflexivity|].
    apply (update_devfreq_failure_leaves_device sample_governor_at
             sample_notifier sample_jiffies
             (sample_machine unallocated_trans_device)).
    discriminate.
Defined.

Lemma update_devfreq_boost_witness :
  (forall g e q,
     ~ In (CallGetTargetFreq g e q)
         (calls_of
            (update_devfreq sample_governor_at sample_notifier sample_jiffies
               (sample_machine max_boost_device)))) /\
  target_args
    (calls_of
       (update_devfreq sample_governor_at sample_notifier sample_jiffies
          (sample_machine max_boost_device)))
  = [(300, DEVFREQ_FLAG_LEAST_UPPER_BOUND)].
Proof.
  apply (update_devfreq_boost sample_governor_at sample_notifier
           sample_jiffies (sample_machine max_boost_device)).
  - reflexivity.
  - reflexivity.
  - discriminate.
  - unfold ULONG_MAX, BITS_PER_LONG. simpl. lia.
Defined.

(** ** Load monitoring *)

Section MonitorProps.

Context {W : Type}.
Variable governor_at : gov_ptr -> @devfreq_governor W.
Variable srcu_notifier_call_chain : Z -> Z -> Z -> W -> W.
Variable jiffies : W -> Z.
Variable msecs_to_jiffies : Z -> Z.
Variable queue_delayed_work : Z -> W -> W.
Variable cancel_delayed_work_sync : W -> W.
Variable delayed_work_pending : W -> bool.

Implicit Types m : @machine W.
Implicit Types d : @devfreq W.

Local Abbreviation run_update m :=
  (update_devfreq governor_at srcu_notifier_call_chain jiffies m).
Local Abbreviation run_monitor m :=
  (devfreq_monitor governor_at srcu_notifier_call_chain jiffies
     msecs_to_jiffies queue_delayed_work m).
Local Abbreviation run_poll n m :=
  (poll governor_at srcu_notifier_call_chain jiffies
     msecs_to_jiffies queue_delayed_work n m).
Local Abbreviation run_suspend m :=
  (devfreq_monitor_suspend jiffies cancel_delayed_work_sync m).
Local Abbreviation run_resume m :=
  (devfreq_monitor_resume jiffies msecs_to_jiffies queue_delayed_work
     delayed_work_pending m).
Local Abbreviation run_interval delay m :=
  (devfreq_interval_update msecs_to_jiffies queue_delayed_work
     cancel_delayed_work_sync delay m).

Ltac run_monad :=
  unfold bind, get_dev, get_world, on_world, queue_monitor, ret, emit,
    mutex_lock, mutex_unlock, modify_dev, call_get_cur_freq,
    run_update_status, calls_of, machine_of, result_of; simpl.

Lemma devfreq_monitor_invariant m :
  stats_allocated (dev m) ->
  counters_consistent (dev m) ->
  result_of (run_monitor m) = Ok tt /\
  stats_allocated (dev (machine_of (run_monitor m))) /\
  counters_consistent (dev (machine_of (run_monitor m))) /\
  lock (dev (machine_of (run_monitor m))) = false.
Proof.
  intros Hs Hc. unfold devfreq_monitor. run_monad.
  match goal with
  | |- context [update_devfreq _ _ _ ?m1] =>
      destruct (update_devfreq_invariant governor_at srcu_notifier_call_chain
                  jiffies m1 Hs) as (Hr & Hs' & _ & Hc');
      specialize (Hc' Hc);
      destruct (update_devfreq governor_at srcu_notifier_call_chain jiffies m1)
        as [[r m2] t]
  end.
  unfold result_of, machine_of in *. simpl in *.
  destruct r as [err|]; [|contradiction].
  destruct (negb (err =? 0)); simpl;
    (split; [reflexivity|split; [exact Hs'|split; [exact Hc'|reflexivity]]]).
Qed.

(** X11.  On a device whose tables are allocated and whose
    transition counters agree, any number of poll ticks runs to the
    end without fault and leaves the tables allocated and the sum of
    [trans_table] equal to [total_trans], whatever the governor, the
    driver and the observers do. *)
Theorem poll_keeps_counters m (n : nat) :
  stats_allocated (dev m) ->
  counters_consistent (dev m) ->
  result_of (run_poll n m) = Ok tt /\
  stats_allocated (dev (machine_of (run_poll n m))) /\
  counters_consistent (dev (machine_of (run_poll n m))).
Proof.
  revert m. induction n as [|n IH]; intros m Hs Hc; simpl.
  - split; [reflexivity|split; assumption].
  - destruct (devfreq_monitor_invariant m Hs Hc) as (Hr & Hs' & Hc' & _).
    unfold bind.
    destruct (devfreq_monitor governor_at srcu_notifier_call_chain jiffies
                msecs_to_jiffies queue_delayed_work m) as [[r m1] t1].
    unfold result_of, machine_of in Hr, Hs', Hc'. simpl in Hr, Hs', Hc'.
    subst r.
    destruct (IH m1 Hs' Hc') as (Hr2 & Hs2 & Hc2).
    destruct (poll governor_at srcu_notifier_call_chain jiffies
                msecs_to_jiffies queue_delayed_work n m1) as [[r2 m2] t2].
    exact (conj Hr2 (conj Hs2 Hc2)).
Qed.

(** The statistics update made with the frequency the device is at
    counts no transition. *)
Lemma devfreq_update_status_same_freq (t : Z) d (r : Z) d' :
  devfreq_update_status t d (previous_freq d) = Some (r, d') ->
  trans_table d' = trans_table d /\ total_trans d' = total_trans d.
Proof.
  unfold devfreq_update_status.
  destruct (previous_freq d =? 0).
  { intros H; inversion H; subst; simpl; auto. }
  destruct (devfreq_get_freq_level d (previous_freq d)) as [pl|] eqn:Epl;
    [|discriminate].
  destruct (pl <? 0).
  { intros H; inversion H; subst; simpl; auto. }
  destruct (array_update _ (time_in_state d) (Z.to_nat pl)) as [tis|];
    [|discriminate].
  change (devfreq_get_freq_level (set_time_in_state tis d) (previous_freq d))
    with (devfreq_get_freq_level d (previous_freq d)).
  rewrite Epl.
  destruct (pl <? 0).
  { intros H; inversion H; subst; simpl; auto. }
  rewrite Z.eqb_refl. simpl.
  intros H; inversion H; subst; simpl; auto.
Qed.

(** X12.  [devfreq_monitor_suspend] counts no transition and keeps
    [previous_freq] and the settings other than [stop_polling], on
    every device and in every outcome. *)
Theorem devfreq_monitor_suspend_counts_nothing m :
  trans_table (dev (machine_of (run_suspend m))) = trans_table (dev m) /\
  total_trans (dev (machine_of (run_suspend m))) = total_trans (dev m) /\
  previous_freq (dev (machine_of (run_suspend m))) = previous_freq (dev m) /\
  profile (dev (machine_of (run_suspend m))) = profile (dev m) /\
  governor (dev (machine_of (run_suspend m))) = governor (dev m) /\
  min_freq (dev (machine_of (run_suspend m))) = min_freq (dev m) /\
  max_freq (dev (machine_of (run_suspend m))) = max_freq (dev m).
Proof.
  unfold devfreq_monitor_suspend. run_monad.
  destruct (stop_polling (dev m)); simpl; [repeat split|].
  destruct (devfreq_update_status (jiffies (world m)) (set_lock true (dev m))
              (previous_freq (dev m))) as [[r d']|] eqn:E; simpl.
  2:{ destruct (devfreq_update_status_faulted_counters (jiffies (world m))
                  (set_lock true (dev m))) as (Ht & Hn & Hp & _).
      destruct (devfreq_update_status_faulted_settings (jiffies (world m))
                  (set_lock true (dev m)))
        as (Hpr & Hg & _ & _ & Hmin & Hmax & _).
      simpl in *. repeat split; assumption. }
  destruct (devfreq_update_status_same_freq _ (set_lock true (dev m)) _ _ E)
    as [Ht Hn].
  destruct (devfreq_update_status_settings _ _ _ _ _ E)
    as [(Hp & Hg & _ & _ & Hmin & Hmax & _) Hprev].
  simpl in *. repeat split; assumption.
Qed.

(** X13.  On a polling device whose tables are allocated and whose
    current frequency is in the table, [devfreq_monitor_suspend]
    returns, adds the time since the last update to [time_in_state],
    stamps the clock, sets [stop_polling], releases the lock and
    cancels the work. *)
Theorem devfreq_monitor_suspend_flushes m :
  stats_allocated (dev m) ->
  stop_polling (dev m) = false ->
  previous_freq (dev m) <> 0 ->
  In (previous_freq (dev m)) (table_entries (dev m)) ->
  result_of (run_suspend m) = Ok tt /\
  stop_polling (dev (machine_of (run_suspend m))) = true /\
  lock (dev (machine_of (run_suspend m))) = false /\
  last_stat_updated (dev (machine_of (run_suspend m))) = jiffies (world m) /\
  sum_ulong (time_in_state (dev (machine_of (run_suspend m))))
  = wrap_ulong (sum_Z (time_in_state (dev m))
                + (jiffies (world m) - last_stat_updated (dev m))) /\
  world (machine_of (run_suspend m)) = cancel_delayed_work_sync (world m).
Proof.
  intros Hs Hsp Hnz Hin. unfold devfreq_monitor_suspend. run_monad.
  rewrite Hsp. simpl.
  destruct (devfreq_update_status_step (jiffies (world m))
              (set_lock true (dev m)) (previous_freq (dev m)) Hs)
    as (r & d' & Hrun & Hlast & _ & _ & _ & Htime & _).
  simpl in Hrun, Htime. rewrite Hrun. simpl.
  apply Z.eqb_neq in Hnz. rewrite Hnz in Htime.
  destruct (devfreq_get_freq_level_found (dev m) (previous_freq (dev m)))
    as (pl & Hpl & Hr); [apply Hs|assumption|].
  change (devfreq_get_freq_level (set_lock true (dev m)) (previous_freq (dev m)))
    with (devfreq_get_freq_level (dev m) (previous_freq (dev m))) in Htime.
  rewrite Hpl in Htime.
  replace (pl <? 0) with false in Htime by (symmetry; apply Z.ltb_ge; lia).
  apply array_update_spec in Htime. destruct Htime as (x & _ & Hsum & _).
  repeat split; try assumption.
  rewrite sum_ulong_wrap, Hsum. apply wrap_ulong_accumulate.
Qed.

(** X14.  A second [devfreq_monitor_suspend] after one that returned
    changes nothing and calls nothing. *)
Theorem devfreq_monitor_suspend_twice m :
  result_of (run_suspend m) = Ok tt ->
  run_suspend (machine_of (run_suspend m))
  = (Ok tt, machine_of (run_suspend m), []).
Proof.
  unfold devfreq_monitor_suspend. run_monad.
  destruct (stop_polling (dev m)) eqn:Esp; simpl.
  - rewrite Esp. reflexivity.
  - destruct (devfreq_update_status (jiffies (world m)) (set_lock true (dev m))
                (previous_freq (dev m))) as [[r d']|]; simpl.
    + reflexivity.
    + discriminate.
Qed.

(** X15.  [devfreq_monitor_resume] on a suspended device returns with
    polling enabled and the lock released, leaves the statistics as
    the suspension left them, stamps the clock, and changes
    [previous_freq] only to the frequency of a successful probe of the
    driver; on a device that is not suspended it touches nothing but
    the lock. *)
Theorem devfreq_monitor_resume_restores m :
  result_of (run_resume m) = Ok tt /\
  stop_polling (dev (machine_of (run_resume m))) = false /\
  lock (dev (machine_of (run_resume m))) = false /\
  time_in_state (dev (machine_of (run_resume m))) = time_in_state (dev m) /\
  trans_table (dev (machine_of (run_resume m))) = trans_table (dev m) /\
  total_trans (dev (machine_of (run_resume m))) = total_trans (dev m) /\
  (stop_polling (dev m) = true ->
   last_stat_updated (dev (machine_of (run_resume m)))
   = jiffies (if negb (delayed_work_pending (world m)) &&
                 negb (polling_ms (profile (dev m)) =? 0)
              then queue_delayed_work
                     (msecs_to_jiffies (polling_ms (profile (dev m))))
                     (world m)
              else world m)) /\
  (stop_polling (dev m) = false ->
   dev (machine_of (run_resume m)) = set_lock false (dev m) /\
   world (machine_of (run_resume m)) = world m /\
   calls_of (run_resume m) = []) /\
  (forall err freq,
     In (CallGetCurFreq err freq) (calls_of (run_resume m)) ->
     previous_freq (dev (machine_of (run_resume m)))
     = if err =? 0 then freq else previous_freq (dev m)) /\
  (calls_of (run_resume m) = [] ->
   previous_freq (dev (machine_of (run_resume m))) = previous_freq (dev m)).
Proof.
  unfold devfreq_monitor_resume. run_monad.
  destruct (stop_polling (dev m)) eqn:Esp; simpl.
  2:{ repeat match goal with
             | |- _ /\ _ => split
             | |- _ -> _ => intro
             | |- forall _, _ => intro
             end;
        try reflexivity; try assumption; try discriminate;
        try contradiction. }
  destruct (negb (delayed_work_pending (world m)) &&
            negb (polling_ms (profile (dev m)) =? 0)); simpl;
    (destruct (get_cur_freq (profile (dev m))) as [cb|]; simpl;
     [match goal with
      | |- context [cb ?w] => destruct (cb w) as [[e f] w2]
      end; simpl; destruct (e =? 0) eqn:Ee; simpl|]);
    repeat match goal with
           | |- _ /\ _ => split
           | |- _ -> _ => intro
           | |- forall _, _ => intro
           end;
    try reflexivity; try assumption; try discriminate; try contradiction;
    match goal with
    | H : _ \/ False |- _ =>
        destruct H as [H|[]]; inversion H; subst; rewrite Ee; reflexivity
    end.
Qed.

(** The outcome of [devfreq_interval_update], path by path. *)
Lemma devfreq_interval_update_outcome m (delay : Z) :
  result_of (run_interval delay m) = Ok tt /\
  calls_of (run_interval delay m) = [] /\
  dev (machine_of (run_interval delay m))
  = set_lock false
      (set_profile (set_polling_ms delay (profile (dev m))) (dev m)) /\
  world (machine_of (run_interval delay m))
  = (if stop_polling (dev m) then world m
     else if delay =? 0 then cancel_delayed_work_sync (world m)
     else if polling_ms (profile (dev m)) =? 0 then
       queue_delayed_work (msecs_to_jiffies delay) (world m)
     else if polling_ms (profile (dev m)) >? delay then
       queue_delayed_work (msecs_to_jiffies delay)
         (cancel_delayed_work_sync (world m))
     else world m).
Proof.
  unfold devfreq_interval_update. run_monad.
  destruct (stop_polling (dev m)) eqn:Esp; simpl;
    [repeat split|].
  destruct (delay =? 0); simpl; [repeat split|].
  destruct (polling_ms (profile (dev m)) =? 0); simpl; [repeat split|].
  destruct (polling_ms (profile (dev m)) >? delay); simpl;
    [rewrite Esp; simpl|]; repeat split.
Qed.

(** X16.  An interval written while polling is stopped is stored and
    nothing else: the work is neither cancelled nor queued.  The
    [devfreq_monitor_resume] that follows queues the work with the new
    interval, unless that interval is 0 or the work is pending, and
    then probes the driver if it can. *)
Theorem devfreq_interval_update_while_suspended m (delay : Z) :
  stop_polling (dev m) = true ->
  world (machine_of (run_interval delay m)) = world m /\
  stop_polling (dev (machine_of (run_interval delay m))) = true /\
  polling_ms (profile (dev (machine_of (run_interval delay m)))) = delay /\
  world (machine_of (run_resume (machine_of (run_interval delay m))))
  = (let queued :=
       if negb (delayed_work_pending (world m)) && negb (delay =? 0)
       then queue_delayed_work (msecs_to_jiffies delay) (world m)
       else world m in
     match get_cur_freq (profile (dev m)) with
     | Some cb => snd (cb queued)
     | None => queued
     end).
Proof.
  intros Hs.
  destruct (devfreq_interval_update_outcome m delay) as (_ & _ & Hd & Hw).
  rewrite Hs in Hw.
  destruct (devfreq_interval_update msecs_to_jiffies queue_delayed_work
              cancel_delayed_work_sync delay m) as [[r m1] t].
  unfold machine_of in *. simpl in *.
  destruct m1 as [d1 w1 l1]. simpl in *. subst d1 w1.
  repeat split; try assumption.
  unfold devfreq_monitor_resume. run_monad. rewrite Hs. simpl.
  destruct (negb (delayed_work_pending (world m)) && negb (delay =? 0));
    simpl;
    (destruct (get_cur_freq (profile (dev m))) as [cb|]; simpl;
     [unfold call_get_cur_freq; simpl;
      match goal with
      | |- context [cb ?w] => destruct (cb w) as [[e f] w2]
      end; simpl; destruct (e =? 0); reflexivity
     |reflexivity]).
Qed.

End MonitorProps.

Lemma poll_keeps_counters_witness :
  result_of
    (poll wq_governor_at wq_notifier wq_jiffies wq_msecs_to_jiffies
       sample_queue_work 3 (wq_machine wq_device)) = Ok tt /\
  stats_allocated
    (dev (machine_of
            (poll wq_governor_at wq_notifier wq_jiffies wq_msecs_to_jiffies
               sample_queue_work 3 (wq_machine wq_device)))) /\
  counters_consistent
    (dev (machine_of
            (poll wq_governor_at wq_notifier wq_jiffies wq_msecs_to_jiffies
               sample_queue_work 3 (wq_machine wq_device)))).
Proof.
  apply (poll_keeps_counters wq_governor_at wq_notifier wq_jiffies
           wq_msecs_to_jiffies sample_queue_work (wq_machine wq_device) 3).
  - repeat split; reflexivity.
  - reflexivity.
Defined.

Lemma devfreq_monitor_suspend_flushes_witness :
  result_of (devfreq_monitor_suspend wq_jiffies wq_cancel (wq_machine wq_device))
  = Ok tt /\
  stop_polling
    (dev (machine_of
            (devfreq_monitor_suspend wq_jiffies wq_cancel
               (wq_machine wq_device)))) = true /\
  lock
    (dev (machine_of
            (devfreq_monitor_suspend wq_jiffies wq_cancel
               (wq_machine wq_device)))) = false /\
  last_stat_updated
    (dev (machine_of
            (devfreq_monitor_suspend wq_jiffies wq_cancel
               (wq_machine wq_device)))) = 10 /\
  sum_ulong
    (time_in_state
       (dev (machine_of
               (devfreq_monitor_suspend wq_jiffies wq_cancel
                  (wq_machine wq_device)))))
  = wrap_ulong (sum_Z (time_in_state wq_device)
                + (10 - last_stat_updated wq_device)) /\
  world (machine_of
           (devfreq_monitor_suspend wq_jiffies wq_cancel
              (wq_machine wq_device))) = None.
Proof.
  apply (devfreq_monitor_suspend_flushes wq_jiffies wq_cancel
           (wq_machine wq_device)).
  - repeat split; reflexivity.
  - reflexivity.
  - discriminate.
  - left. reflexivity.
Defined.

Lemma devfreq_monitor_suspend_twice_witness :
  devfreq_monitor_suspend wq_jiffies wq_cancel
    (machine_of
       (devfreq_monitor_suspend wq_jiffies wq_cancel (wq_machine wq_device)))
  = (Ok tt,
     machine_of
       (devfreq_monitor_suspend wq_jiffies wq_cancel (wq_machine wq_device)),
     []).
Proof.
  apply (devfreq_monitor_suspend_twice wq_jiffies wq_cancel
           (wq_machine wq_device)).
  reflexivity.
Defined.

Lemma devfreq_interval_update_while_suspended_witness :
  world
    (machine_of
       (devfreq_interval_update wq_msecs_to_jiffies sample_queue_work
          wq_cancel 20
          (machine_of
             (devfreq_monitor_suspend wq_jiffies wq_cancel
                (wq_machine wq_device)))))
  = None /\
  world
    (machine_of
       (devfreq_monitor_resume wq_jiffies wq_msecs_to_jiffies
          sample_queue_work wq_pending
          (machine_of
             (devfreq_interval_update wq_msecs_to_jiffies sample_queue_work
                wq_cancel 20
                (machine_of
                   (devfreq_monitor_suspend wq_jiffies wq_cancel
                      (wq_machine wq_device)))))))
  = Some 5.
Proof.
  destruct (devfreq_interval_update_while_suspended wq_jiffies
              wq_msecs_to_jiffies sample_queue_work wq_cancel wq_pending
              (machine_of
                 (devfreq_monitor_suspend wq_jiffies wq_cancel
                    (wq_machine wq_device)))
              20 eq_refl) as (Hw & _ & _ & Hr).
  split; [exact Hw | exact Hr].
Defined.

(** ** The governor registry *)

Section RegistryProps.

Context {W : Type}.
Variable governor_at : gov_ptr -> @devfreq_governor W.

Implicit Types s : @system W.

Local Abbreviation find_governor l nm :=
  (find_devfreq_governor governor_at l nm).
Local Abbreviation name_of g := (name (governor_at g)).

Lemma find_devfreq_governor_spec (l : list gov_ptr) (nm : string) :
  match find_governor l nm with
  | inl g =>
      strncmp (name_of g) nm DEVFREQ_NAME_LEN = 0 /\
      exists l1 l2,
        l = l1 ++ g :: l2 /\
        forall x, In x l1 -> strncmp (name_of x) nm DEVFREQ_NAME_LEN <> 0
  | inr e =>
      e = - ENODEV /\
      forall x, In x l -> strncmp (name_of x) nm DEVFREQ_NAME_LEN <> 0
  end.
Proof.
  induction l as [|x l IH]; simpl.
  - split; [reflexivity|]. intros x [].
  - destruct (Z.eqb_spec (strncmp (name_of x) nm DEVFREQ_NAME_LEN) 0)
      as [E|E].
    + split; [assumption|]. exists [], l. split; [reflexivity|]. intros y [].
    + destruct (find_governor l nm) as [g|e].
      * destruct IH as (Hg & l1 & l2 & -> & Hno). split; [assumption|].
        exists (x :: l1), l2. split; [reflexivity|].
        intros y [<-|Hy]; [assumption|apply Hno, Hy].
      * destruct IH as (-> & Hno). split; [reflexivity|].
        intros y [<-|Hy]; [assumption|apply Hno, Hy].
Qed.

(** X17.  [find_devfreq_governor] returns the first governor of the
    list whose name agrees with the one asked for on
    [DEVFREQ_NAME_LEN] characters, and [-ENODEV] exactly when no
    governor of the list does. *)
Theorem find_devfreq_governor_first_match (l : list gov_ptr) (nm : string) :
  match find_governor l nm with
  | inl g =>
      strncmp (name_of g) nm DEVFREQ_NAME_LEN = 0 /\
      exists l1 l2,
        l = l1 ++ g :: l2 /\
        forall x, In x l1 -> strncmp (name_of x) nm DEVFREQ_NAME_LEN <> 0
  | inr e =>
      e = - ENODEV /\
      forall x, In x l -> strncmp (name_of x) nm DEVFREQ_NAME_LEN <> 0
  end.
Proof.
  exact (find_devfreq_governor_spec l nm).
Qed.

Lemma find_registered (l : list gov_ptr) (g : gov_ptr) :
  registry_ok governor_at l -> In g l ->
  find_governor l (name_of g) = inl g.
Proof.
  intros [_ Huniq] Hin.
  pose proof (find_devfreq_governor_spec l (name_of g)) as H.
  destruct (find_governor l (name_of g)) as [g'|e].
  - destruct H as (Hz & l1 & l2 & -> & _). f_equal.
    apply Huniq; auto. apply in_or_app. right. now left.
  - destruct H as (_ & Hno). exfalso. apply (Hno g Hin). apply strncmp_refl.
Qed.

Lemma find_unregistered (l : list gov_ptr) (g : gov_ptr) :
  registry_ok governor_at (g :: l) ->
  find_governor l (name_of g) = inr (- ENODEV).
Proof.
  intros [Hnd Huniq].
  pose proof (find_devfreq_governor_spec l (name_of g)) as H.
  destruct (find_governor l (name_of g)) as [g'|e].
  - destruct H as (Hz & l1 & l2 & -> & _). exfalso.
    inversion Hnd as [|? ? Hnotin _]; subst. apply Hnotin.
    assert (g' = g).
    { apply Huniq; [right; apply in_or_app; right; now left|now left|exact Hz]. }
    subst. apply in_or_app. right. now left.
  - destruct H as (-> & _). reflexivity.
Qed.

Lemma registry_ok_cons (l : list gov_ptr) (g : gov_ptr) (e : Z) :
  registry_ok governor_at l ->
  find_governor l (name_of g) = inr e ->
  registry_ok governor_at (g :: l).
Proof.
  intros [Hnd Huniq] Hf.
  pose proof (find_devfreq_governor_spec l (name_of g)) as H.
  rewrite Hf in H. destruct H as (_ & Hno).
  split.
  - constructor; [|assumption]. intros Hin.
    apply (Hno g Hin). apply strncmp_refl.
  - intros a b [<-|Ha] [<-|Hb] Hz; auto.
    + exfalso. apply (Hno b Hb). apply strncmp_sym_zero, Hz.
    + exfalso. apply (Hno a Ha). exact Hz.
Qed.

Lemma registry_ok_remove (l1 l2 : list gov_ptr) (g : gov_ptr) :
  registry_ok governor_at (l1 ++ g :: l2) ->
  registry_ok governor_at (l1 ++ l2) /\ ~ In g (l1 ++ l2).
Proof.
  intros [Hnd Huniq]. split; [split|].
  - eapply NoDup_remove_1. eassumption.
  - intros a b Ha Hb. apply Huniq.
    + apply in_app_or in Ha. apply in_or_app. destruct Ha; [now left|right; now right].
    + apply in_app_or in Hb. apply in_or_app. destruct Hb; [now left|right; now right].
  - eapply NoDup_remove_2. eassumption.
Qed.

Lemma list_del_spec (l1 l2 : list gov_ptr) (g : gov_ptr) :
  ~ In g l1 -> list_del g (l1 ++ g :: l2) = Some (l1 ++ l2).
Proof.
  induction l1 as [|x l1 IH]; intros Hn; simpl.
  - now rewrite Nat.eqb_refl.
  - destruct (Nat.eqb_spec x g) as [->|Hne].
    + exfalso. apply Hn. now left.
    + rewrite IH; [reflexivity|]. intros Hin. apply Hn. now right.
Qed.

(** X18.  In a registry whose governors have distinct names, every
    registered governor is found by its own name. *)
Theorem find_devfreq_governor_by_own_name (l : list gov_ptr) (g : gov_ptr) :
  registry_ok governor_at l -> In g l ->
  find_governor l (name_of g) = inl g.
Proof.
  exact (find_registered l g).
Qed.

(** X19.  [devfreq_add_governor] either registers the governor, at
    the head of the list, keeping the names distinct, so that the new
    governor and all the old ones are found by their names; or, when
    a registered governor has the same name, returns [-EINVAL],
    invokes no handler and changes nothing. *)
Theorem devfreq_add_governor_registers s (g : gov_ptr) :
  registry_ok governor_at (sys_governor_list s) ->
  (outcome_result (devfreq_add_governor governor_at (Some g) s) = 0 /\
   sys_governor_list (outcome_state (devfreq_add_governor governor_at (Some g) s))
   = g :: sys_governor_list s /\
   registry_ok governor_at (g :: sys_governor_list s) /\
   forall x, In x (g :: sys_governor_list s) ->
             find_governor (g :: sys_governor_list s) (name_of x) = inl x)
  \/
  (devfreq_add_governor governor_at (Some g) s
   = (- EINVAL, s, [CallLog "governor already registered"]) /\
   exists g', In g' (sys_governor_list s) /\
              strncmp (name_of g') (name_of g) DEVFREQ_NAME_LEN = 0).
Proof.
  intros Hok. unfold devfreq_add_governor, outcome_result, outcome_state.
  pose proof (find_devfreq_governor_spec (sys_governor_list s) (name_of g)) as H.
  destruct (find_governor (sys_governor_list s) (name_of g)) as [g'|e] eqn:Ef.
  - right. split; [reflexivity|]. destruct H as (Hz & l1 & l2 & Hl & _).
    exists g'. split; [|assumption]. rewrite Hl. apply in_or_app. right. now left.
  - left.
    destruct (for_each_devfreq (add_governor_to_device governor_at g)
                (sys_devfreq_list s) (sys_world s)) as [[devs w] t].
    simpl. split; [reflexivity|]. split; [reflexivity|].
    pose proof (registry_ok_cons _ _ _ Hok Ef) as Hok'.
    split; [assumption|]. intros x Hx.
    exact (find_registered (g :: sys_governor_list s) x Hok' Hx).
Qed.

(** X20.  [devfreq_remove_governor] of a registered governor, in a
    registry with distinct names, returns 0 and takes it off the list:
    its name is no longer found, the other governors still are.  For
    a name that is not registered it returns [-ENODEV] and changes
    nothing. *)
Theorem devfreq_remove_governor_unregisters s (g : gov_ptr) :
  registry_ok governor_at (sys_governor_list s) ->
  (In g (sys_governor_list s) ->
   outcome_result (devfreq_remove_governor governor_at (Some g) s) = Ok 0 /\
   registry_ok governor_at
     (sys_governor_list
        (outcome_state (devfreq_remove_governor governor_at (Some g) s))) /\
   find_governor
     (sys_governor_list
        (outcome_state (devfreq_remove_governor governor_at (Some g) s)))
     (name_of g) = inr (- ENODEV) /\
   forall x, In x (sys_governor_list s) -> x <> g ->
     find_governor
       (sys_governor_list
          (outcome_state (devfreq_remove_governor governor_at (Some g) s)))
       (name_of x) = inl x) /\
  ((forall x, In x (sys_governor_list s) ->
              strncmp (name_of x) (name_of g) DEVFREQ_NAME_LEN <> 0) ->
   devfreq_remove_governor governor_at (Some g) s
   = (Ok (- ENODEV), s, [CallLog "governor not registered"])).
Proof.
  intros Hok. unfold devfreq_remove_governor, outcome_result, outcome_state. split.
  - intros Hin. rewrite (find_registered _ _ Hok Hin).
    destruct (for_each_devfreq (remove_governor_from_device governor_at g)
                (sys_devfreq_list s) (sys_world s)) as [[devs w] t].
    apply in_split in Hin. destruct Hin as (l1 & l2 & Hl).
    rewrite Hl in *.
    destruct (registry_ok_remove _ _ _ Hok) as [Hok' Hnotin].
    rewrite list_del_spec by (intros Hi; apply Hnotin, in_or_app; now left).
    simpl. split; [reflexivity|]. split; [assumption|]. split.
    + apply find_unregistered. destruct Hok as [Hnd Huniq]. split.
      * constructor; [assumption|apply Hok'].
      * intros a b Ha Hb. apply Huniq.
        -- destruct Ha as [<-|Ha]; apply in_or_app;
             [right; now left|].
           apply in_app_or in Ha. destruct Ha; [now left|right; now right].
        -- destruct Hb as [<-|Hb]; apply in_or_app;
             [right; now left|].
           apply in_app_or in Hb. destruct Hb; [now left|right; now right].
    + intros x Hx Hne. apply find_registered; [assumption|].
      apply in_app_or in Hx. apply in_or_app.
      destruct Hx as [Hx|[Hx|Hx]]; [now left|congruence|now right].
  - intros Hno.
    pose proof (find_devfreq_governor_spec (sys_governor_list s) (name_of g)) as H.
    destruct (find_governor (sys_governor_list s) (name_of g)) as [g'|e].
    + exfalso. destruct H as (Hz & l1 & l2 & Hl & _).
      apply (Hno g'); [|assumption].
      rewrite Hl. apply in_or_app. right. now left.
    + destruct H as (-> & _). reflexivity.
Qed.

(** X21.  A governor that [devfreq_add_governor] has just registered
    is removed again by [devfreq_remove_governor], which returns 0
    and leaves the list of governors as it was before the two calls. *)
Theorem devfreq_add_remove_governor s (g : gov_ptr) :
  outcome_result (devfreq_add_governor governor_at (Some g) s) = 0 ->
  outcome_result
    (devfreq_remove_governor governor_at (Some g)
       (outcome_state (devfreq_add_governor governor_at (Some g) s))) = Ok 0 /\
  sys_governor_list
    (outcome_state
       (devfreq_remove_governor governor_at (Some g)
          (outcome_state (devfreq_add_governor governor_at (Some g) s))))
  = sys_governor_list s.
Proof.
  unfold devfreq_add_governor, outcome_result, outcome_state.
  destruct (find_governor (sys_governor_list s) (name_of g)) as [g'|e];
    simpl; [discriminate|].
  destruct (for_each_devfreq (add_governor_to_device governor_at g)
              (sys_devfreq_list s) (sys_world s)) as [[devs w] t].
  simpl. intros _.
  unfold devfreq_remove_governor, outcome_result, outcome_state. simpl.
  rewrite strncmp_refl. simpl.
  destruct (for_each_devfreq (remove_governor_from_device governor_at g)
              devs w) as [[devs' w'] t'].
  rewrite Nat.eqb_refl. simpl. split; reflexivity.
Qed.

Lemma for_each_devfreq_Forall2
    (R : @devfreq W -> @devfreq W -> Prop)
    (body : @devfreq W -> W -> @devfreq W * W * list call)
    (l : list (@devfreq W)) (w : W) :
  (forall df w', R df (fst (fst (body df w')))) ->
  Forall2 R l (fst (fst (for_each_devfreq body l w))).
Proof.
  intros Hb. revert w. induction l as [|df l IH]; intros w; simpl.
  - constructor.
  - specialize (Hb df w) as Hdf.
    destruct (body df w) as [[df' w1] t1]. simpl in Hdf.
    specialize (IH w1).
    destruct (for_each_devfreq body l w1) as [[rest w2] t2]. simpl in *.
    constructor; assumption.
Qed.

(** X22.  Once [devfreq_remove_governor] has found the name, every
    device that asks for a governor of that name ends without a
    governor, also when its STOP handler failed, and every other
    device is left untouched. *)
Theorem devfreq_remove_governor_detaches s (g g0 : gov_ptr) :
  find_governor (sys_governor_list s) (name_of g) = inl g0 ->
  Forall2
    (fun df df' =>
       if governor_name_matches governor_at df g then governor df' = None
       else df' = df)
    (sys_devfreq_list s)
    (sys_devfreq_list
       (outcome_state (devfreq_remove_governor governor_at (Some g) s))).
Proof.
  intros Hf. unfold devfreq_remove_governor, outcome_result, outcome_state. rewrite Hf.
  pose proof (for_each_devfreq_Forall2
                (fun df df' =>
                   if governor_name_matches governor_at df g
                   then governor df' = None else df' = df)
                (remove_governor_from_device governor_at g)
                (sys_devfreq_list s) (sys_world s)) as H.
  destruct (for_each_devfreq (remove_governor_from_device governor_at g)
              (sys_devfreq_list s) (sys_world s)) as [[devs w] t].
  simpl in H.
  assert (Hall : Forall2
            (fun df df' =>
               if governor_name_matches governor_at df g
               then governor df' = None else df' = df)
            (sys_devfreq_list s) devs).
  { apply H. intros df w'. unfold remove_governor_from_device.
    destruct (governor_name_matches governor_at df g) eqn:Em; simpl;
      [|reflexivity].
    destruct (governor df) as [cur|] eqn:Eg; simpl; [|assumption].
    destruct (event_handler (governor_at cur) df DEVFREQ_GOV_STOP w')
      as [[r df1] w1]. reflexivity. }
  destruct (list_del g (sys_governor_list s)); simpl; exact Hall.
Qed.

(** X23.  [devfreq_add_governor] leaves every device that asks for a
    governor of another name untouched. *)
Theorem devfreq_add_governor_other_devices s (g : gov_ptr) :
  Forall2
    (fun df df' => governor_name_matches governor_at df g = false -> df' = df)
    (sys_devfreq_list s)
    (sys_devfreq_list (outcome_state (devfreq_add_governor governor_at (Some g) s))).
Proof.
  unfold devfreq_add_governor, outcome_result, outcome_state.
  destruct (find_governor (sys_governor_list s) (name_of g)) as [g'|e]; simpl.
  - clear. induction (sys_devfreq_list s); constructor; auto.
  - pose proof (for_each_devfreq_Forall2
                  (fun df df' =>
                     governor_name_matches governor_at df g = false -> df' = df)
                  (add_governor_to_device governor_at g)
                  (sys_devfreq_list s) (sys_world s)) as H.
    destruct (for_each_devfreq (add_governor_to_device governor_at g)
                (sys_devfreq_list s) (sys_world s)) as [[devs w] t].
    simpl in *. apply H. intros df w' Hm. unfold add_governor_to_device.
    rewrite Hm. reflexivity.
Qed.

End RegistryProps.

Lemma wq_registry_ok : registry_ok wq_governor_at [2; 1]%nat.
Proof.
  unfold registry_ok. split.
  - repeat constructor; simpl; intuition discriminate.
  - intros g g' [<-|[<-|[]]] [<-|[<-|[]]]; simpl; intros H;
      try reflexivity; discriminate H.
Defined.

Lemma find_devfreq_governor_by_own_name_witness :
  find_devfreq_governor wq_governor_at [2; 1]%nat (name (wq_governor_at 1%nat))
  = inl 1%nat.
Proof.
  apply (find_devfreq_governor_by_own_name wq_governor_at [2; 1]%nat 1%nat).
  - exact wq_registry_ok.
  - right. left. reflexivity.
Defined.

Lemma devfreq_add_governor_registers_witness :
  outcome_result (devfreq_add_governor wq_governor_at (Some 3%nat) wq_system)
  = 0 /\
  ((outcome_result (devfreq_add_governor wq_governor_at (Some 3%nat) wq_system)
    = 0 /\
   sys_governor_list
     (outcome_state (devfreq_add_governor wq_governor_at (Some 3%nat) wq_system))
   = 3%nat :: sys_governor_list wq_system /\
   registry_ok wq_governor_at (3%nat :: sys_governor_list wq_system) /\
   forall x, In x (3%nat :: sys_governor_list wq_system) ->
             find_devfreq_governor wq_governor_at
               (3%nat :: sys_governor_list wq_system)
               (name (wq_governor_at x)) = inl x)
  \/
  (devfreq_add_governor wq_governor_at (Some 3%nat) wq_system
   = (- EINVAL, wq_system, [CallLog "governor already registered"]) /\
   exists g', In g' (sys_governor_list wq_system) /\
              strncmp (name (wq_governor_at g')) (name (wq_governor_at 3%nat))
                DEVFREQ_NAME_LEN = 0)).
Proof.
  split; [reflexivity|].
  apply (devfreq_add_governor_registers wq_governor_at wq_system 3%nat).
  exact wq_registry_ok.
Defined.

Lemma devfreq_remove_governor_unregisters_witness :
  (In 1%nat (sys_governor_list wq_system) ->
   outcome_result (devfreq_remove_governor wq_governor_at (Some 1%nat) wq_system)
   = Ok 0 /\
   registry_ok wq_governor_at
     (sys_governor_list
        (outcome_state
           (devfreq_remove_governor wq_governor_at (Some 1%nat) wq_system))) /\
   find_devfreq_governor wq_governor_at
     (sys_governor_list
        (outcome_state
           (devfreq_remove_governor wq_governor_at (Some 1%nat) wq_system)))
     (name (wq_governor_at 1%nat)) = inr (- ENODEV) /\
   forall x, In x (sys_governor_list wq_system) -> x <> 1%nat ->
     find_devfreq_governor wq_governor_at
       (sys_governor_list
          (outcome_state
             (devfreq_remove_governor wq_governor_at (Some 1%nat) wq_system)))
       (name (wq_governor_at x)) = inl x) /\
  ((forall x, In x (sys_governor_list wq_system) ->
              strncmp (name (wq_governor_at x)) (name (wq_governor_at 1%nat))
                DEVFREQ_NAME_LEN <> 0) ->
   devfreq_remove_governor wq_governor_at (Some 1%nat) wq_system
   = (Ok (- ENODEV), wq_system, [CallLog "governor not registered"])).
Proof.
  apply (devfreq_remove_governor_unregisters wq_governor_at wq_system 1%nat).
  exact wq_registry_ok.
Defined.

Lemma devfreq_add_remove_governor_witness :
  outcome_result
    (devfreq_remove_governor wq_governor_at (Some 3%nat)
       (outcome_state
          (devfreq_add_governor wq_governor_at (Some 3%nat) wq_system)))
  = Ok 0 /\
  sys_governor_list
    (outcome_state
       (devfreq_remove_governor wq_governor_at (Some 3%nat)
          (outcome_state
             (devfreq_add_governor wq_governor_at (Some 3%nat) wq_system))))
  = sys_governor_list wq_system.
Proof.
  apply (devfreq_add_remove_governor wq_governor_at wq_system 3%nat).
  reflexivity.
Defined.

Lemma devfreq_remove_governor_detaches_witness :
  outcome_calls (devfreq_remove_governor wq_governor_at (Some 1%nat) wq_system)
  = [CallEventHandler 1%nat DEVFREQ_GOV_STOP (- EBUSY);
     CallLog "Governor stop"] /\
  Forall2
    (fun df df' =>
       if governor_name_matches wq_governor_at df 1%nat
       then governor df' = None else df' = df)
    (sys_devfreq_list wq_system)
    (sys_devfreq_list
       (outcome_state
          (devfreq_remove_governor wq_governor_at (Some 1%nat) wq_system))).
Proof.
  split; [reflexivity|].
  apply (devfreq_remove_governor_detaches wq_governor_at wq_system 1%nat 1%nat).
  reflexivity.
Defined.

(** ** Administrative writes, continued *)

Section AdminProps.

Context {W : Type}.
Variable governor_at : gov_ptr -> @devfreq_governor W.
Variable srcu_notifier_call_chain : Z -> Z -> Z -> W -> W.
Variable jiffies : W -> Z.
Variable sscanf_name : string -> Z * string.
Variable sscanf_ulong : string -> Z * Z.
Variable msecs_to_jiffies : Z -> Z.
Variable queue_delayed_work : Z -> W -> W.

Implicit Types m : @machine W.
Implicit Types d : @devfreq W.

Local Abbreviation run_update m :=
  (update_devfreq governor_at srcu_notifier_call_chain jiffies m).
Local Abbreviation run_min_store buf count m :=
  (min_freq_store governor_at srcu_notifier_call_chain jiffies sscanf_ulong
     buf count m).
Local Abbreviation run_max_store buf count m :=
  (max_freq_store governor_at srcu_notifier_call_chain jiffies sscanf_ulong
     buf count m).
Local Abbreviation run_gov_store buf count m :=
  (governor_store governor_at sscanf_name buf count m).

Ltac run_monad :=
  unfold bind, get_dev, get_world, on_world, queue_monitor, ret, emit,
    mutex_lock, mutex_unlock, modify_dev, call_event_handler,
    calls_of, machine_of, result_of; simpl.

Ltac split_calls :=
  repeat match goal with
    | H : In _ (_ ++ _) |- _ => apply in_app_or in H; destruct H as [H|H]
    | H : In _ (_ :: _) |- _ => destruct H as [H|H]
    | H : In _ [] |- _ => destruct H
    | H : _ \/ _ |- _ => destruct H as [H|H]
    | H : False |- _ => destruct H
    | H : @eq call _ _ |- _ => first [discriminate H | inversion H; clear H; subst]
    end.

Ltac crunch :=
  repeat (progress
            (simpl;
             repeat match goal with
               | H : _ = _ |- _ => rewrite H
               end)).

Lemma accepted_bound (value bound : Z) :
  negb (value =? 0) && negb (bound =? 0) && (value >? bound) = false ->
  value = 0 \/ bound = 0 \/ value <= bound.
Proof.
  destruct (Z.eqb_spec value 0); [auto|].
  destruct (Z.eqb_spec bound 0); [auto|].
  destruct (Z.gtb_spec value bound); simpl; [discriminate|]. intros _. lia.
Qed.

Lemma accepted_bound_low (value bound : Z) :
  negb (value =? 0) && negb (bound =? 0) && (value <? bound) = false ->
  bound = 0 \/ value = 0 \/ bound <= value.
Proof.
  destruct (Z.eqb_spec value 0); [auto|].
  destruct (Z.eqb_spec bound 0); [auto|].
  destruct (Z.ltb_spec value bound); simpl; [discriminate|]. intros _. lia.
Qed.

(** X24.  A write to [min_freq] or to [max_freq] never leaves the
    bounds inverted: if [min_freq <= max_freq] held, or one of them
    was unset, the same is true after the write, whatever was
    written and however the re-evaluation went. *)
Theorem freq_stores_keep_bounds_consistent m (buf : string) (count : Z) :
  bounds_consistent (dev m) ->
  bounds_consistent (dev (machine_of (run_min_store buf count m))) /\
  bounds_consistent (dev (machine_of (run_max_store buf count m))).
Proof.
  intros Hb. split.
  - unfold min_freq_store. run_monad.
    destruct (is_boost_device (dev m)); simpl; [exact Hb|].
    destruct (sscanf_ulong buf) as [n value].
    destruct (n =? 1); simpl; [|exact Hb].
    destruct (negb (value =? 0) && negb (max_freq (dev m) =? 0) &&
              (value >? max_freq (dev m))) eqn:Ec; simpl; [exact Hb|].
    apply accepted_bound in Ec.
    match goal with
    | |- context [update_devfreq _ _ _ ?m1] =>
        pose proof (update_devfreq_settings governor_at
                      srcu_notifier_call_chain jiffies m1)
          as (_ & _ & _ & _ & Hmin & Hmax & _);
        destruct (update_devfreq governor_at srcu_notifier_call_chain
                    jiffies m1) as [[r m2] t]
    end.
    unfold machine_of in Hmin, Hmax. simpl in Hmin, Hmax.
    destruct r; simpl; unfold bounds_consistent; simpl;
      rewrite Hmin, Hmax; exact Ec.
  - unfold max_freq_store. run_monad.
    destruct (sscanf_ulong buf) as [n value].
    destruct (n =? 1); simpl; [|exact Hb].
    destruct (negb (value =? 0) && negb (min_freq (dev m) =? 0) &&
              (value <? min_freq (dev m))) eqn:Ec; simpl; [exact Hb|].
    apply accepted_bound_low in Ec.
    match goal with
    | |- context [update_devfreq _ _ _ ?m1] =>
        pose proof (update_devfreq_settings governor_at
                      srcu_notifier_call_chain jiffies m1)
          as (_ & _ & _ & _ & Hmin & Hmax & _);
        destruct (update_devfreq governor_at srcu_notifier_call_chain
                    jiffies m1) as [[r m2] t]
    end.
    unfold machine_of in Hmin, Hmax. simpl in Hmin, Hmax.
    destruct r; simpl; unfold bounds_consistent; simpl;
      rewrite Hmin, Hmax; exact Ec.
Qed.

(** X25.  A nonzero [min_freq] above a set [max_freq], or a nonzero
    [max_freq] below a set [min_freq], is refused with [-EINVAL]: the
    bounds stay, the frequency is not re-evaluated, and the lock is
    released. *)
Theorem freq_stores_reject_inversion m (buf : string) (count value : Z) :
  sscanf_ulong buf = (1, value) ->
  value <> 0 ->
  (is_boost_device (dev m) = false ->
   max_freq (dev m) <> 0 -> max_freq (dev m) < value ->
   run_min_store buf count m
   = (Ok (- EINVAL),
      {| dev := set_lock false (dev m); world := world m;
         devfreq_governor_list := devfreq_governor_list m |}, [])) /\
  (min_freq (dev m) <> 0 -> value < min_freq (dev m) ->
   run_max_store buf count m
   = (Ok (- EINVAL),
      {| dev := set_lock false (dev m); world := world m;
         devfreq_governor_list := devfreq_governor_list m |}, [])).
Proof.
  intros Hs Hv. apply Z.eqb_neq in Hv. split.
  - intros Hboost Hmax Hlt. unfold min_freq_store. run_monad.
    rewrite Hboost, Hs. simpl. apply Z.eqb_neq in Hmax. rewrite Hv, Hmax. simpl.
    replace (value >? max_freq (dev m)) with true
      by (symmetry; apply Z.gtb_lt; lia).
    reflexivity.
  - intros Hmin Hlt. unfold max_freq_store. run_monad.
    rewrite Hs. simpl. apply Z.eqb_neq in Hmin. rewrite Hv, Hmin. simpl.
    replace (value <? min_freq (dev m)) with true
      by (symmetry; apply Z.ltb_lt; lia).
    reflexivity.
Qed.

(** X26.  An accepted write to [min_freq] on a device whose tables
    are allocated stores the value, re-evaluates the frequency at
    once with the lock held, releases the lock and returns [count] as
    the [int ret] of the function holds it, [count] itself up to
    [INT_MAX], also when the re-evaluation fails. *)
Theorem min_freq_store_reevaluates m (buf : string) (count value : Z) :
  stats_allocated (dev m) ->
  is_boost_device (dev m) = false ->
  sscanf_ulong buf = (1, value) ->
  value = 0 \/ max_freq (dev m) = 0 \/ value <= max_freq (dev m) ->
  result_of (run_min_store buf count m) = Ok (wrap_int count) /\
  (0 <= count <= INT_MAX ->
   result_of (run_min_store buf count m) = Ok count) /\
  min_freq (dev (machine_of (run_min_store buf count m))) = value /\
  lock (dev (machine_of (run_min_store buf count m))) = false /\
  calls_of (run_min_store buf count m)
  = calls_of
      (run_update
         {| dev := set_min_freq value (set_lock true (dev m));
            world := world m;
            devfreq_governor_list := devfreq_governor_list m |}).
Proof.
  intros Hs Hboost Hscan Hacc. unfold min_freq_store. run_monad.
  rewrite Hboost, Hscan. simpl.
  replace (negb (value =? 0) && negb (max_freq (dev m) =? 0) &&
           (value >? max_freq (dev m))) with false.
  2:{ symmetry.
      destruct (Z.eqb_spec value 0); [reflexivity|].
      destruct (Z.eqb_spec (max_freq (dev m)) 0); [reflexivity|].
      simpl. rewrite Z.gtb_ltb. apply Z.ltb_ge. lia. }
  simpl.
  match goal with
  | |- context [update_devfreq _ _ _ ?m1] =>
      pose proof (update_devfreq_invariant governor_at
                    srcu_notifier_call_chain jiffies m1 Hs)
        as (Hr & _ & (_ & _ & _ & _ & Hmin & _) & _);
      destruct (update_devfreq governor_at srcu_notifier_call_chain
                  jiffies m1) as [[r m2] t]
  end.
  unfold result_of, machine_of in Hr, Hmin. simpl in Hr, Hmin.
  destruct r as [e|]; [|contradiction]. simpl.
  split; [reflexivity|]. split.
  { intros Hc. rewrite wrap_int_small; [reflexivity|].
    unfold INT_MAX in Hc. unfold INT_MAX. lia. }
  repeat split; auto. apply app_nil_r.
Qed.

Lemma update_devfreq_no_lock_warning m :
  lock (dev m) = true ->
  ~ In (CallLog "devfreq->lock must be locked by the caller.")
      (calls_of (run_update m)).
Proof.
  intros Hl Hin.
  destruct (update_devfreq_outcome governor_at srcu_notifier_call_chain
              jiffies m)
    as [(_ & _ & _ & _ & [(H & _)|[(_ & H)|(_ & g & e & q & w1 & _ & _ & _ & H)]])
       |H].
  - congruence.
  - rewrite H in Hin. contradiction.
  - rewrite H in Hin. destruct Hin as [Hin|[]]. discriminate.
  - destruct H as (g & req & cur & f & fl & err & f' & w' & _ & _ & _ & _ & _
                   & _ & _ & Hlog & _).
    specialize (Hlog _ Hin). discriminate.
Qed.

(** X27.  The callers of [update_devfreq] in the core take the lock
    first: the poll tick, the notifier callback and the writes to
    [min_freq] and [max_freq] never log its warning about a lock that
    is not held. *)
Theorem update_devfreq_callers_hold_lock m (buf : string) (count : Z) :
  ~ In (CallLog "devfreq->lock must be locked by the caller.")
      (calls_of
         (devfreq_monitor governor_at srcu_notifier_call_chain jiffies
            msecs_to_jiffies queue_delayed_work m)) /\
  ~ In (CallLog "devfreq->lock must be locked by the caller.")
      (calls_of
         (devfreq_notifier_call governor_at srcu_notifier_call_chain jiffies
            m)) /\
  ~ In (CallLog "devfreq->lock must be locked by the caller.")
      (calls_of (run_min_store buf count m)) /\
  ~ In (CallLog "devfreq->lock must be locked by the caller.")
      (calls_of (run_max_store buf count m)).
Proof.
  assert (Hlocked : forall m1 : @machine W,
            lock (dev m1) = true ->
            forall r m2 t, run_update m1 = (r, m2, t) ->
            ~ In (CallLog "devfreq->lock must be locked by the caller.") t).
  { intros m1 Hl r m2 t Hrun Hin.
    apply (update_devfreq_no_lock_warning m1 Hl).
    unfold calls_of. rewrite Hrun. exact Hin. }
  repeat split.
  - unfold devfreq_monitor. run_monad.
    match goal with
    | |- context [update_devfreq _ _ _ ?m1] =>
        specialize (Hlocked m1 eq_refl);
        destruct (update_devfreq governor_at srcu_notifier_call_chain
                    jiffies m1) as [[r m2] t]
    end.
    specialize (Hlocked _ _ _ eq_refl).
    destruct r as [err|]; simpl; [|exact Hlocked].
    destruct (negb (err =? 0)); simpl; intros Hin; split_calls;
      contradiction.
  - unfold devfreq_notifier_call. run_monad.
    match goal with
    | |- context [update_devfreq _ _ _ ?m1] =>
        specialize (Hlocked m1 eq_refl);
        destruct (update_devfreq governor_at srcu_notifier_call_chain
                    jiffies m1) as [[r m2] t]
    end.
    specialize (Hlocked _ _ _ eq_refl).
    destruct r as [err|]; simpl; [|exact Hlocked].
    intros Hin; split_calls; contradiction.
  - unfold min_freq_store. run_monad.
    destruct (is_boost_device (dev m)); simpl; [intros []|].
    destruct (sscanf_ulong buf) as [n value].
    destruct (n =? 1); simpl; [|intros []].
    destruct (negb (value =? 0) && negb (max_freq (dev m) =? 0) &&
              (value >? max_freq (dev m))); simpl; [intros []|].
    match goal with
    | |- context [update_devfreq _ _ _ ?m1] =>
        specialize (Hlocked m1 eq_refl);
        destruct (update_devfreq governor_at srcu_notifier_call_chain
                    jiffies m1) as [[r m2] t]
    end.
    specialize (Hlocked _ _ _ eq_refl).
    destruct r as [err|]; simpl; [|exact Hlocked].
    intros Hin; split_calls; contradiction.
  - unfold max_freq_store. run_monad.
    destruct (sscanf_ulong buf) as [n value].
    destruct (n =? 1); simpl; [|intros []].
    destruct (negb (value =? 0) && negb (min_freq (dev m) =? 0) &&
              (value <? min_freq (dev m))); simpl; [intros []|].
    match goal with
    | |- context [update_devfreq _ _ _ ?m1] =>
        specialize (Hlocked m1 eq_refl);
        destruct (update_devfreq governor_at srcu_notifier_call_chain
                    jiffies m1) as [[r m2] t]
    end.
    specialize (Hlocked _ _ _ eq_refl).
    destruct r as [err|]; simpl; [|exact Hlocked].
    intros Hin; split_calls; contradiction.
Qed.

(** X28.  [governor_store] refuses, without touching the device or
    invoking a handler: with [-EINVAL] a buffer that holds no name, a
    name that is not on the white list, and a switch from or to an
    immutable governor; with [-ENODEV] a name on the white list that
    no registered governor has. *)
Theorem governor_store_rejects m (buf s : string) (count n : Z) :
  sscanf_name buf = (n, s) ->
  (n <> 1 \/ governor_white_list s = false \/
   (exists g,
      find_devfreq_governor governor_at (devfreq_governor_list m) s = inl g /\
      same_governor (governor (dev m)) g = false /\
      governor_immutable governor_at (governor (dev m))
      || immutable (governor_at g) = true) ->
   run_gov_store buf count m = (Ok (- EINVAL), m, [])) /\
  (n = 1 -> governor_white_list s = true ->
   (forall x, In x (devfreq_governor_list m) ->
              strncmp (name (governor_at x)) s DEVFREQ_NAME_LEN <> 0) ->
   run_gov_store buf count m = (Ok (- ENODEV), m, [])).
Proof.
  intros Hs. unfold governor_store. rewrite Hs. split.
  - intros Hc. destruct (Z.eqb_spec n 1) as [->|Hn]; simpl; [|reflexivity].
    destruct (governor_white_list s) eqn:Ewl; simpl; [|reflexivity].
    destruct Hc as [Hc|[Hc|(g & Hf & Hsame & Himm)]]; try congruence.
    run_monad. rewrite Hf. simpl. rewrite Hsame, Himm. reflexivity.
  - intros -> Hwl Hno. simpl. rewrite Hwl. simpl. run_monad.
    pose proof (find_devfreq_governor_spec governor_at
                  (devfreq_governor_list m) s) as H.
    destruct (find_devfreq_governor governor_at (devfreq_governor_list m) s)
      as [g|e].
    + exfalso. destruct H as (Hz & l1 & l2 & Hl & _).
      apply (Hno g); [|assumption].
      rewrite Hl. apply in_or_app. right. now left.
    + destruct H as (-> & _). reflexivity.
Qed.

(** X29.  When the incoming governor fails to start, [governor_store]
    attaches again the governor the device had after the STOP, starts
    it, and returns the failure of the incoming governor, whatever the
    restart returns. *)
Theorem governor_store_start_failure m (buf s : string) (count : Z)
    (g cur p : gov_ptr) (e e' : Z) (d1 d2 d3 : @devfreq W) (w1 w2 w3 : W) :
  sscanf_name buf = (1, s) ->
  governor_white_list s = true ->
  find_devfreq_governor governor_at (devfreq_governor_list m) s = inl g ->
  governor (dev m) = Some cur ->
  cur <> g ->
  immutable (governor_at cur) = false ->
  immutable (governor_at g) = false ->
  event_handler (governor_at cur) (dev m) DEVFREQ_GOV_STOP (world m)
  = (0, d1, w1) ->
  governor d1 = Some p ->
  event_handler (governor_at g)
    (set_governor (Some g) (strncpy (name (governor_at g)) DEVFREQ_NAME_LEN)
       d1)
    DEVFREQ_GOV_START w1
  = (e, d2, w2) ->
  e <> 0 ->
  event_handler (governor_at p)
    (set_governor (Some p) (strlcpy (name (governor_at p)) DEVFREQ_NAME_LEN)
       d2)
    DEVFREQ_GOV_START w2
  = (e', d3, w3) ->
  run_gov_store buf count m
  = (Ok e,
     {| dev := d3; world := w3;
        devfreq_governor_list := devfreq_governor_list m |},
     [CallEventHandler cur DEVFREQ_GOV_STOP 0;
      CallEventHandler g DEVFREQ_GOV_START e;
      CallLog "Governor not started";
      CallEventHandler p DEVFREQ_GOV_START e']).
Proof.
  intros Hs Hw Hf Hg Hne Hic Hig Hstop Hp Hstart He Hre.
  unfold governor_store, governor_switch. run_monad.
  apply Nat.eqb_neq in Hne. apply Z.eqb_neq in He.
  repeat (progress
            (rewrite ?Hs, ?Hw, ?Hf, ?Hg, ?Hne, ?Hic, ?Hig, ?Hstop, ?Hp,
               ?Hstart, ?He, ?Hre; simpl)).
  reflexivity.
Qed.

(** X30.  The handlers that [governor_store] invokes come in a fixed
    order: none at all; or, on a device without governor, one START
    of the governor found under the name written; or one STOP of the
    current governor, followed by at most one START of the governor
    found, followed by at most one more START, the roll back. *)
Theorem governor_store_event_order m (buf : string) (count : Z) :
  events_of (calls_of (run_gov_store buf count m)) = [] \/
  exists g,
    find_devfreq_governor governor_at (devfreq_governor_list m)
      (snd (sscanf_name buf)) = inl g /\
    ((governor (dev m) = None /\
      events_of (calls_of (run_gov_store buf count m))
      = [(g, DEVFREQ_GOV_START)]) \/
     exists cur,
       governor (dev m) = Some cur /\
       (events_of (calls_of (run_gov_store buf count m))
        = [(cur, DEVFREQ_GOV_STOP)] \/
        events_of (calls_of (run_gov_store buf count m))
        = [(cur, DEVFREQ_GOV_STOP); (g, DEVFREQ_GOV_START)] \/
        exists p,
          events_of (calls_of (run_gov_store buf count m))
          = [(cur, DEVFREQ_GOV_STOP); (g, DEVFREQ_GOV_START);
             (p, DEVFREQ_GOV_START)])).
Proof.
  unfold governor_store, governor_switch.
  destruct (sscanf_name buf) as [n s]. simpl.
  destruct (n =? 1); simpl; [|now left].
  destruct (governor_white_list s); simpl; [|now left].
  run_monad.
  destruct (find_devfreq_governor governor_at (devfreq_governor_list m) s)
    as [g|e]; simpl.
  2:{ left. destruct (e =? 0); reflexivity. }
  destruct (governor (dev m)) as [cur|] eqn:Eg; crunch.
  - destruct (Nat.eqb cur g); crunch; [now left|].
    destruct (immutable (governor_at cur) || immutable (governor_at g)); crunch;
      [now left|].
    right. exists g. split; [reflexivity|]. right. exists cur.
    split; [reflexivity|].
    destruct (event_handler (governor_at cur) (dev m) DEVFREQ_GOV_STOP (world m))
      as [[r d1] w1]; crunch.
    destruct (r =? 0) eqn:Er; crunch; [|now left].
    match goal with
    | |- context [event_handler (governor_at g) ?dv DEVFREQ_GOV_START ?w] =>
        destruct (event_handler (governor_at g) dv DEVFREQ_GOV_START w)
          as [[r2 d2] w2]
    end; crunch.
    destruct (r2 =? 0) eqn:Er2; crunch; [right; now left|].
    destruct (governor d1) as [p|]; crunch; [|right; now left].
    match goal with
    | |- context [event_handler (governor_at p) ?dv DEVFREQ_GOV_START ?w] =>
        destruct (event_handler (governor_at p) dv DEVFREQ_GOV_START w)
          as [[r3 d3] w3]
    end; crunch.
    right. right. now exists p.
  - destruct (immutable (governor_at g)); crunch; [now left|].
    right. exists g. split; [reflexivity|]. left. split; [reflexivity|].
    match goal with
    | |- context [event_handler (governor_at g) ?dv DEVFREQ_GOV_START ?w] =>
        destruct (event_handler (governor_at g) dv DEVFREQ_GOV_START w)
          as [[r2 d2] w2]
    end; crunch.
    destruct (r2 =? 0) eqn:Er2; crunch; reflexivity.
Qed.

End AdminProps.

Lemma freq_stores_keep_bounds_consistent_witness :
  bounds_consistent
    (dev (machine_of
            (min_freq_store sample_governor_at sample_notifier sample_jiffies
               sample_sscanf_ulong "200" 4
               (sample_machine (bounded_device 100 300))))) /\
  bounds_consistent
    (dev (machine_of
            (max_freq_store sample_governor_at sample_notifier sample_jiffies
               sample_sscanf_ulong "200" 4
               (sample_machine (bounded_device 100 300))))).
Proof.
  apply (freq_stores_keep_bounds_consistent sample_governor_at
           sample_notifier sample_jiffies sample_sscanf_ulong
           (sample_machine (bounded_device 100 300)) "200" 4).
  right. right. simpl. lia.
Defined.

Lemma freq_stores_reject_inversion_witness :
  sample_sscanf_ulong "300" = (1, 300) /\
  sample_sscanf_ulong "100" = (1, 100) /\
  min_freq_store sample_governor_at sample_notifier sample_jiffies
    sample_sscanf_ulong "300" 4 (sample_machine (bounded_device 100 200))
  = (Ok (- EINVAL),
     sample_machine (set_lock false (bounded_device 100 200)), []) /\
  max_freq_store sample_governor_at sample_notifier sample_jiffies
    sample_sscanf_ulong "100" 4 (sample_machine (bounded_device 200 300))
  = (Ok (- EINVAL),
     sample_machine (set_lock false (bounded_device 200 300)), []).
Proof.
  split; [reflexivity|]. split; [reflexivity|]. split.
  - apply (proj1 (freq_stores_reject_inversion sample_governor_at
                    sample_notifier sample_jiffies sample_sscanf_ulong
                    (sample_machine (bounded_device 100 200)) "300" 4 300
                    eq_refl ltac:(discriminate)));
      simpl; first [reflexivity | lia].
  - apply (proj2 (freq_stores_reject_inversion sample_governor_at
                    sample_notifier sample_jiffies sample_sscanf_ulong
                    (sample_machine (bounded_device 200 300)) "100" 4 100
                    eq_refl ltac:(discriminate)));
      simpl; lia.
Defined.

Lemma min_freq_store_reevaluates_witness :
  sample_sscanf_ulong "200" = (1, 200) /\
  result_of
    (min_freq_store sample_governor_at sample_notifier sample_jiffies
       sample_sscanf_ulong "200" 4 (sample_machine (bounded_device 100 300)))
  = Ok 4 /\
  min_freq
    (dev (machine_of
            (min_freq_store sample_governor_at sample_notifier sample_jiffies
               sample_sscanf_ulong "200" 4
               (sample_machine (bounded_device 100 300)))))
  = 200 /\
  lock
    (dev (machine_of
            (min_freq_store sample_governor_at sample_notifier sample_jiffies
               sample_sscanf_ulong "200" 4
               (sample_machine (bounded_device 100 300)))))
  = false /\
  calls_of
    (min_freq_store sample_governor_at sample_notifier sample_jiffies
       sample_sscanf_ulong "200" 4 (sample_machine (bounded_device 100 300)))
  = calls_of
      (update_devfreq sample_governor_at sample_notifier sample_jiffies
         (sample_machine (set_min_freq 200 (bounded_device 100 300)))).
Proof.
  split; [reflexivity|].
  destruct (min_freq_store_reevaluates sample_governor_at sample_notifier
              sample_jiffies sample_sscanf_ulong
              (sample_machine (bounded_device 100 300)) "200" 4 200)
    as (_ & Hr & Hm & Hl & Hc).
  - vm_compute. repeat split.
  - reflexivity.
  - reflexivity.
  - right. right. simpl. lia.
  - split; [apply Hr; unfold INT_MAX; lia|].
    split; [exact Hm|]. split; [exact Hl|exact Hc].
Defined.

Lemma governor_store_rejects_witness :
  governor_store sample_governor_at sample_sscanf_name "userspace" 10
    (sample_machine sample_device)
  = (Ok (- EINVAL), sample_machine sample_device, []) /\
  governor_store sample_governor_at sample_sscanf_name "cpufreq" 8
    (sample_machine sample_device)
  = (Ok (- ENODEV), sample_machine sample_device, []).
Proof.
  split.
  - apply (proj1 (governor_store_rejects sample_governor_at
                    sample_sscanf_name (sample_machine sample_device)
                    "userspace" "userspace" 10 1 eq_refl)).
    right. left. reflexivity.
  - apply (proj2 (governor_store_rejects sample_governor_at
                    sample_sscanf_name (sample_machine sample_device)
                    "cpufreq" "cpufreq" 8 1 eq_refl));
      try reflexivity.
    intros x Hx. simpl in Hx.
    destruct Hx as [<-|[<-|[<-|[<-|[]]]]]; vm_compute; discriminate.
Defined.

Lemma governor_store_start_failure_witness :
  governor_store refusing_governor_at sample_sscanf_name "powersave" 10
    (sample_machine sample_device)
  = (Ok (- EBUSY), sample_machine sample_device,
     [CallEventHandler 1%nat DEVFREQ_GOV_STOP 0;
      CallEventHandler 2%nat DEVFREQ_GOV_START (- EBUSY);
      CallLog "Governor not started";
      CallEventHandler 1%nat DEVFREQ_GOV_START 0]).
Proof.
  apply (governor_store_start_failure refusing_governor_at sample_sscanf_name
           (sample_machine sample_device) "powersave" "powersave" 10
           2%nat 1%nat 1%nat (- EBUSY) 0
           sample_device
           (set_governor (Some 2%nat) "powersave" sample_device)
           sample_device tt tt tt);
    try reflexivity; discriminate.
Defined.
